(** * Session correlation, deduplication, caching and ID reconciliation
      of the Svorum strax chatbot backend

    A shallow embedding of [sessionManager.js], [dataModels.js],
    [messageProcessor.js], the [/chat] route of the HTTP server with
    image and file support (its siblings share the cache write and the
    continuation) and the echo detection and credential storage of
    [database.js], with the properties their specification states about
    them and further properties that the code itself shows.

    Conventions of the embedding.
    - A JavaScript string is the [string] of its UTF-8 bytes, a lone
      surrogate being written as the three bytes of its code.
      [s.substring(0, n)] counts UTF-16 code units as JavaScript does:
      one for a character of up to three bytes, two for a character of
      four.  A string-valued property that may be missing is an
      [option string]; where the source only ever tests such a property
      for truthiness the empty string stands for "missing".
    - [Date.now()], [Math.random()], [uuidv4()], the MongoDB driver,
      [fetch], Pusher and the OpenAI client are collaborators: their
      answers are read from an environment [Env] of oracles, each
      indexed by a cursor kept in the state, so that every theorem
      quantifies over every possible behaviour of the collaborators.
    - [async] functions run to completion between two requests; a
      function is a state transformer on [World] that either returns a
      value or throws.
    - The collections [message_feedback], [recent_messages] and
      [dual_credentials] and the map [global.dualCredentials] are
      passed to and returned by the functions that use them; those
      functions change them only after their last step that can
      throw. *)

From Stdlib Require Import ZArith Lia Bool.
From Stdlib Require DecimalString DecimalZ.
From stdpp Require Import base option list strings pretty gmap.

Local Open Scope Z_scope.
Local Open Scope string_scope.
Local Open Scope list_scope.

(** ** JavaScript values *)

Module JS.

(** Truthiness of a string: only the empty string is falsy. *)
Definition truthy (s : string) : bool :=
  match s with EmptyString => false | String _ _ => true end.

(** Truthiness of a possibly undefined string. *)
Definition truthyOpt (o : option string) : bool :=
  match o with Some s => truthy s | None => false end.

(** [o || d] for a possibly undefined string [o]. *)
Definition orElse (o : option string) (d : string) : string :=
  match o with
  | Some s => if truthy s then s else d
  | None => d
  end.

(** [a || b] where both may be undefined. *)
Definition orOpt (a b : option string) : option string :=
  if truthyOpt a then a else b.

(** [String(n)] for an integral number. *)
Definition numToString (n : Z) : string := pretty n.

(** The high surrogate of a character of four bytes, from its first
    three: with [U] the character's code, [0xD800 + ((U - 0x10000) >> 10)],
    written as three bytes. *)
Definition highSurrogate (b0 b1 b2 : N) : string :=
  let top := N.lor (N.shiftl (N.land b0 7) 8)
               (N.lor (N.shiftl (N.land b1 63) 2)
                      (N.shiftr (N.land b2 63) 4)) in
  let h := (55296 + (top - 64))%N in
  String (Ascii.ascii_of_N (N.lor 224 (N.shiftr h 12)))
    (String (Ascii.ascii_of_N (N.lor 128 (N.land (N.shiftr h 6) 63)))
       (String (Ascii.ascii_of_N (N.lor 128 (N.land h 63))) EmptyString)).

(** The first [n] UTF-16 code units of [s]; [pending] bytes of the
    character being copied are still to come.  A cut between the two
    code units of a character of four bytes leaves its high surrogate. *)
Fixpoint takeUnits (n pending : nat) (s : string) : string :=
  match s with
  | EmptyString => EmptyString
  | String c rest =>
      match pending with
      | S p => String c (takeUnits n p rest)
      | O =>
          match n with
          | O => EmptyString
          | S n' =>
              let b := Ascii.N_of_ascii c in
              if (b <? 192)%N then String c (takeUnits n' 0 rest)
              else if (b <? 224)%N then String c (takeUnits n' 1 rest)
              else if (b <? 240)%N then String c (takeUnits n' 2 rest)
              else
                match n' with
                | S n'' => String c (takeUnits n'' 3 rest)
                | O =>
                    match rest with
                    | String c1 (String c2 _) =>
                        highSurrogate b (Ascii.N_of_ascii c1)
                                      (Ascii.N_of_ascii c2)
                    | _ => EmptyString
                    end
                end
          end
      end
  end.

(** [s.substring(0, n)] *)
Definition prefix (n : nat) (s : string) : string := takeUnits n 0 s.

(** [s.slice(a, b)] / [s.substring(a, b)] for [0 <= a <= b], on the
    digits of [Math.random().toString(36)], which take one byte each. *)
Definition slice (a b : nat) (s : string) : string :=
  String.substring a (b - a) s.

(** [xs.join(sep)] *)
Fixpoint join (sep : string) (xs : list string) : string :=
  match xs with
  | [] => ""
  | [x] => x
  | x :: rest => x +:+ sep +:+ join sep rest
  end.

End JS.

(** ** Data model *)

(** The session object handed out by [getOrCreateSession].  The property
    [previousConversationId] is part of the specified data model; reading
    it on an object that was built without it yields [None]. *)
Record Session := mkSession {
  sessionId : string;
  conversationId : string;
  startedAt : string;
  lastActivity : Z;
  isNewSession : bool;
  previousConversationId : option string
}.

(** A document of the [globalSessions] collection. *)
Record SessionDoc := mkSessionDoc {
  d_type : string;
  d_frontendSessionId : string;
  d_frontendSessionIds : list string;
  d_sessionId : string;
  d_conversationId : string;
  d_startedAt : string;
  d_lastActivity : string;
  d_previousConversationId : option string;
  d_isTimeoutSession : bool
}.

(** Raw message data as callers supply it ([dataModels.js]). *)
Record RawMessage := mkRawMessage {
  r_id : option string;
  r_content : option string;
  r_role : option string;
  r_sender : option string;
  r_type : option string;
  r_defaultRole : option string;
  r_timestamp : option string;
  r_language : option string;
  r_postgresqlId : option string
}.

(** [MessageData] of [dataModels.js]. *)
Record Message := mkMessage {
  m_id : string;
  m_content : string;
  m_role : string;
  m_type : string;
  m_timestamp : string;
  m_language : string;
  m_postgresqlId : option string
}.

(** Raw conversation data: an explicit message list, or the legacy
    [userMessage] / [botResponse] pair.  [rc_messages] is [None] when
    [messages] is not an array; an element of the array is [None] when
    it is [null], [undefined] or another falsy value. *)
Record RawConversation := mkRawConversation {
  rc_id : option string;
  rc_sessionId : option string;
  rc_chatId : option string;
  rc_clientId : option string;
  rc_messages : option (list (option RawMessage));
  rc_userMessage : option string;
  rc_botResponse : option string;
  rc_startedAt : option string;
  rc_startTime : option string;
  rc_endedAt : option string;
  rc_language : option string;
  rc_topic : option string;
  rc_status : option string
}.

(** [ConversationData] of [dataModels.js]. *)
Record ConversationData := mkConversationData {
  c_id : string;
  c_sessionId : string;
  c_clientId : string;
  c_messages : list Message;
  c_startedAt : string;
  c_endedAt : string;
  c_language : string;
  c_topic : string;
  c_status : string
}.

(** A document of the [conversations] collection. *)
Record ConversationDoc := mkConversationDoc {
  cd_data : ConversationData;
  cd_createdAt : option Z;
  cd_lastActivity : Z
}.

(** A document of the [message_id_mappings] collection.  The [_id] of a
    document is its position in the collection: documents are never
    deleted, so the position identifies a document for good. *)
Record MappingDoc := mkMappingDoc {
  mongodbId : string;
  postgresqlId : string;
  mp_content : option string;
  mp_trackingId : option string;
  mp_createdAt : option Z;
  mp_updatedAt : option Z
}.

(** An entry of [analyticsSentMessages]. *)
Record SentEntry := mkSentEntry {
  se_timestamp : Z;
  se_postgresqlId : option string
}.

(** The reply payload of [/chat] ([responseData]). *)
Record ResponseData := mkResponseData {
  rd_message : string;
  rd_sessionId : string;
  rd_postgresqlMessageId : option string;
  rd_language : string;
  rd_topic : string
}.

(** An entry of [responseCache]: [response] is a reference to the payload
    object, which lives in the heap and can be mutated through any alias. *)
Record CacheEntry := mkCacheEntry {
  ce_response : nat;
  ce_timestamp : Z
}.

(** One turn of the per-session chat history ([sessions]). *)
Record ChatTurn := mkChatTurn {
  ct_role : string;
  ct_content : string
}.

(** ** Collaborators *)

Inductive ConnectReply := Connected | Rejected | NoHandle.

(** What the analytics API answers to a POST. *)
Inductive JsonBody :=
| BadJson
| NoMessages
| MessageIds (ids : list (option string)).

Inductive FetchReply :=
| FetchThrows
| FetchNotOk
| FetchOk (body : JsonBody).

Record Env := mkEnv {
  clock : nat -> Z;
  random36 : nat -> string;
  uuidv4 : nat -> string;
  connectReply : nat -> ConnectReply;
  dbFails : nat -> bool;
  fetchReply : nat -> FetchReply;
  pusherFails : nat -> bool;
  completion : nat -> option string;
  processFilesReply : nat -> option string;
  toISOString : Z -> string;
  dateParse : string -> option Z;
  lowerTrim : string -> string;
  icelandic : string -> bool;
  detectTopic : string -> string
}.

(** ** State *)

Record Cursors := mkCursors {
  nTime : nat;
  nRandom : nat;
  nUuid : nat;
  nDb : nat;
  nFetch : nat;
  nPusher : nat;
  nCompletion : nat;
  nFiles : nat
}.

Record Mongo := mkMongo {
  globalSessions : list SessionDoc;
  conversations : list ConversationDoc;
  message_id_mappings : list MappingDoc
}.

Record Process := mkProcess {
  sessionCache : gmap string Session;
  processedMessages : list string;
  analyticsSentMessages : gmap string SentEntry
}.

Record Server := mkServer {
  sessions : gmap string (list ChatTurn);
  responseCache : gmap string CacheEntry;
  heap : gmap nat ResponseData;
  nextRef : nat
}.

(** [analytics] is the list of conversation payloads POSTed to the
    analytics API so far, latest last. *)
Record World := mkWorld {
  cursors : Cursors;
  mongo : Mongo;
  analytics : list ConversationData;
  proc : Process;
  server : Server
}.

Definition withCursors (f : Cursors -> Cursors) (w : World) : World :=
  mkWorld (f (cursors w)) (mongo w) (analytics w) (proc w) (server w).
Definition withMongo (f : Mongo -> Mongo) (w : World) : World :=
  mkWorld (cursors w) (f (mongo w)) (analytics w) (proc w) (server w).
Definition withAnalytics (f : list ConversationData -> list ConversationData)
    (w : World) : World :=
  mkWorld (cursors w) (mongo w) (f (analytics w)) (proc w) (server w).
Definition withProc (f : Process -> Process) (w : World) : World :=
  mkWorld (cursors w) (mongo w) (analytics w) (f (proc w)) (server w).
Definition withServer (f : Server -> Server) (w : World) : World :=
  mkWorld (cursors w) (mongo w) (analytics w) (proc w) (f (server w)).

Definition emptyWorld : World :=
  mkWorld (mkCursors 0 0 0 0 0 0 0 0) (mkMongo [] [] []) []
          (mkProcess ∅ [] ∅) (mkServer ∅ ∅ ∅ 0).

(** ** Computations that may throw *)

Inductive Outcome (A : Type) :=
| Returns (a : A)
| Throws (e : string).
Arguments Returns {A} a.
Arguments Throws {A} e.

Definition M (A : Type) : Type := World -> Outcome A * World.

Definition ret {A} (a : A) : M A := fun w => (Returns a, w).

Definition throw {A} (e : string) : M A := fun w => (Throws e, w).

Definition bind {A B} (m : M A) (k : A -> M B) : M B :=
  fun w =>
    match m w with
    | (Returns a, w') => k a w'
    | (Throws e, w') => (Throws e, w')
    end.

(** [try { m } catch (e) { h e }] *)
Definition tryCatch {A} (m : M A) (h : string -> M A) : M A :=
  fun w =>
    match m w with
    | (Returns a, w') => (Returns a, w')
    | (Throws e, w') => h e w'
    end.

Definition gets {A} (f : World -> A) : M A := fun w => (Returns (f w), w).

Definition modify (f : World -> World) : M unit := fun w => (Returns tt, f w).

Notation "'let*' x ':=' m 'in' k" := (bind m (fun x => k))
  (at level 10, x name, m at level 100, k at level 200).
Notation "m '>>' k" := (bind m (fun _ => k))
  (at level 100, k at level 200, right associativity).

Fixpoint mapM {A B} (f : A -> M B) (xs : list A) : M (list B) :=
  match xs with
  | [] => ret []
  | x :: rest =>
      let* y := f x in
      let* ys := mapM f rest in
      ret (y :: ys)
  end.

(** ** Primitive operations on the collaborators *)

Module Runtime.
Section WithEnv.
Variable env : Env.

Definition tickTime (c : Cursors) : Cursors :=
  mkCursors (S (nTime c)) (nRandom c) (nUuid c) (nDb c)
            (nFetch c) (nPusher c) (nCompletion c) (nFiles c).
Definition tickRandom (c : Cursors) : Cursors :=
  mkCursors (nTime c) (S (nRandom c)) (nUuid c) (nDb c)
            (nFetch c) (nPusher c) (nCompletion c) (nFiles c).
Definition tickUuid (c : Cursors) : Cursors :=
  mkCursors (nTime c) (nRandom c) (S (nUuid c)) (nDb c)
            (nFetch c) (nPusher c) (nCompletion c) (nFiles c).
Definition tickDb (c : Cursors) : Cursors :=
  mkCursors (nTime c) (nRandom c) (nUuid c) (S (nDb c))
            (nFetch c) (nPusher c) (nCompletion c) (nFiles c).
Definition tickFetch (c : Cursors) : Cursors :=
  mkCursors (nTime c) (nRandom c) (nUuid c) (nDb c)
            (S (nFetch c)) (nPusher c) (nCompletion c) (nFiles c).
Definition tickPusher (c : Cursors) : Cursors :=
  mkCursors (nTime c) (nRandom c) (nUuid c) (nDb c)
            (nFetch c) (S (nPusher c)) (nCompletion c) (nFiles c).
Definition tickCompletion (c : Cursors) : Cursors :=
  mkCursors (nTime c) (nRandom c) (nUuid c) (nDb c)
            (nFetch c) (nPusher c) (S (nCompletion c)) (nFiles c).
Definition tickFiles (c : Cursors) : Cursors :=
  mkCursors (nTime c) (nRandom c) (nUuid c) (nDb c)
            (nFetch c) (nPusher c) (nCompletion c) (S (nFiles c)).

(** [Date.now()], also [new Date().getTime()] *)
Definition dateNow : M Z :=
  fun w => (Returns (clock env (nTime (cursors w))), withCursors tickTime w).

(** [new Date().toISOString()] *)
Definition newDateISO : M string :=
  let* t := dateNow in ret (toISOString env t).

(** [Math.random().toString(36)] *)
Definition mathRandom36 : M string :=
  fun w => (Returns (random36 env (nRandom (cursors w))),
            withCursors tickRandom w).

(** [uuidv4()] *)
Definition newUuid : M string :=
  fun w => (Returns (uuidv4 env (nUuid (cursors w))), withCursors tickUuid w).

(** [await connectToDatabase()]: rejects, or resolves to a connection
    whose [db] handle is usable ([true]) or missing ([false]). *)
Definition connectToDatabase : M bool :=
  fun w =>
    let w' := withCursors tickDb w in
    match connectReply env (nDb (cursors w)) with
    | Connected => (Returns true, w')
    | NoHandle => (Returns false, w')
    | Rejected => (Throws "MongoNetworkError", w')
    end.

(** [db.collection(name)]: a [TypeError] when [db] is undefined. *)
Definition collection (db : bool) : M unit :=
  if db then ret tt
  else throw "TypeError: Cannot read properties of undefined".

(** One awaited call on a collection; the driver may reject it. *)
Definition dbOp : M unit :=
  fun w =>
    let w' := withCursors tickDb w in
    if dbFails env (nDb (cursors w)) then (Throws "MongoServerError", w')
    else (Returns tt, w').

End WithEnv.
End Runtime.

(** ** dataModels.js *)

Module DataModels.
Import Runtime.
Section WithEnv.
Variable env : Env.

Definition isStr (o : option string) (s : string) : bool :=
  match o with Some x => String.eqb x s | None => false end.

(** The role decision of [normalizeMessage]. *)
Definition determineRole (message : RawMessage) : string :=
  if isStr (r_role message) "user" || isStr (r_sender message) "user"
     || isStr (r_type message) "user" then "user"
  else if isStr (r_role message) "assistant" || isStr (r_sender message) "bot"
          || isStr (r_type message) "bot" then "assistant"
  else JS.orElse (r_defaultRole message) "user".

(** [normalizeMessage(message)]; [None] is a missing argument. *)
Definition normalizeMessage (message : option RawMessage) : M Message :=
  match message with
  | None => throw "Cannot normalize undefined message"
  | Some message =>
      let* id :=
        (if JS.truthyOpt (r_id message) then ret (JS.orElse (r_id message) "")
         else
           let* t := dateNow env in
           let* r := mathRandom36 env in
           ret ("msg_" +:+ JS.numToString t +:+ "_" +:+ JS.slice 2 10 r)) in
      let content := JS.orElse (r_content message) "" in
      let role := determineRole message in
      let type := if String.eqb role "user" then "user" else "bot" in
      let* timestamp :=
        (if JS.truthyOpt (r_timestamp message)
         then ret (JS.orElse (r_timestamp message) "")
         else newDateISO env) in
      let language := JS.orElse (r_language message) "en" in
      let postgresqlId := JS.orOpt (r_postgresqlId message) None in
      ret (mkMessage id content role type timestamp language postgresqlId)
  end.

(** A normalised message read back as raw message data. *)
Definition rawOfMessage (m : Message) : RawMessage :=
  mkRawMessage (Some (m_id m)) (Some (m_content m)) (Some (m_role m)) None
               (Some (m_type m)) None (Some (m_timestamp m))
               (Some (m_language m)) (m_postgresqlId m).

(** [new Date(s).getTime()]; [None] is [NaN]. *)
Definition getTime (s : string) : option Z := dateParse env s.

(** The comparator handed to [messages.sort]; a [NaN] difference counts
    as [+0], as [Array.prototype.sort] prescribes. *)
Definition compareTimestamps (a b : Message) : Z :=
  match getTime (m_timestamp a), getTime (m_timestamp b) with
  | Some x, Some y => x - y
  | _, _ => 0
  end.

(** [Array.prototype.sort] is stable; it is modelled by stable
    insertion.  When every timestamp parses the comparator is a
    consistent one and the result is the one every conforming engine
    computes.  A timestamp that does not parse makes the comparator
    inconsistent, and the language then leaves the order of the result
    to the engine: the model's order need not be the engine's there, and
    the statements on the order of the result keep to lists whose
    timestamps all parse or that are in order already. *)
Fixpoint insertSorted (x : Message) (sorted : list Message) : list Message :=
  match sorted with
  | [] => [x]
  | y :: rest =>
      if (0 <? compareTimestamps y x)%Z then x :: y :: rest
      else y :: insertSorted x rest
  end.

Definition sortMessages (ms : list Message) : list Message :=
  fold_left (fun acc x => insertSorted x acc) ms [].

Definition someRole (role : string) (ms : list Message) : bool :=
  existsb (fun m => String.eqb (m_role m) role) ms.

(** [new Date(new Date(s).getTime() + 1).toISOString()]: a [RangeError]
    on an invalid date. *)
Definition oneMillisecondAfter (s : string) : M string :=
  match getTime s with
  | Some t => ret (toISOString env (t + 1))
  | None => throw "RangeError: Invalid time value"
  end.

(** [normalizeConversation(conversation)] *)
Definition normalizeConversation (conversation : option RawConversation)
    : M ConversationData :=
  match conversation with
  | None => throw "Cannot normalize undefined conversation"
  | Some conversation =>
      let* id :=
        (if JS.truthyOpt (rc_id conversation)
         then ret (JS.orElse (rc_id conversation) "")
         else
           let* t := dateNow env in
           let* r := mathRandom36 env in
           ret ("conv_" +:+ JS.numToString t +:+ "_" +:+ JS.slice 2 10 r)) in
      let sessionId :=
        JS.orElse (JS.orOpt (rc_sessionId conversation) (rc_chatId conversation))
                  id in
      let clientId := JS.orElse (rc_clientId conversation) "svorum-strax" in
      let* startedAt :=
        (let given := JS.orOpt (rc_startedAt conversation)
                               (rc_startTime conversation) in
         if JS.truthyOpt given then ret (JS.orElse given "")
         else newDateISO env) in
      let* endedAt :=
        (if JS.truthyOpt (rc_endedAt conversation)
         then ret (JS.orElse (rc_endedAt conversation) "")
         else newDateISO env) in
      let language := JS.orElse (rc_language conversation) "en" in
      let topic := JS.orElse (rc_topic conversation) "general" in
      let status := JS.orElse (rc_status conversation) "active" in
      let* messages :=
        match rc_messages conversation with
        | Some ms => mapM normalizeMessage ms
        | None => ret []
        end in
      let* messages :=
        (if JS.truthyOpt (rc_userMessage conversation)
            && negb (someRole "user" messages)
         then
           let* m := normalizeMessage (Some
             (mkRawMessage None (rc_userMessage conversation) (Some "user")
                           None None None (Some startedAt) None None)) in
           ret (messages ++ [m])%list
         else ret messages) in
      let* messages :=
        (if JS.truthyOpt (rc_botResponse conversation)
            && negb (someRole "assistant" messages)
         then
           let* ts := oneMillisecondAfter startedAt in
           let* m := normalizeMessage (Some
             (mkRawMessage None (rc_botResponse conversation)
                           (Some "assistant") None None None (Some ts)
                           None None)) in
           ret (messages ++ [m])%list
         else ret messages) in
      ret (mkConversationData id sessionId clientId (sortMessages messages)
                              startedAt endedAt language topic status)
  end.

End WithEnv.
End DataModels.

(** ** sessionManager.js *)

Module SessionManager.
Import Runtime.
Section WithEnv.
Variable env : Env.

(** Session timeout: 15 minutes, in milliseconds. *)
Definition SESSION_TIMEOUT : Z := 15 * 60 * 1000.

(** [`${frontendSessionId}_${Date.now()}`] *)
Definition conversationIdAt (frontendSessionId : string) (t : Z) : string :=
  frontendSessionId +:+ "_" +:+ JS.numToString t.

(** [global.sessionCache.set(key, session)] *)
Definition cacheSet (key : string) (session : Session) : M unit :=
  modify (withProc (fun p =>
    mkProcess (<[key := session]> (sessionCache p)) (processedMessages p)
              (analyticsSentMessages p))).

Definition setGlobalSessions (docs : list SessionDoc) : World -> World :=
  withMongo (fun m => mkMongo docs (conversations m) (message_id_mappings m)).

(** [globalSessionCollection.findOne({ frontendSessionId })]: the first
    matching document in insertion order. *)
Definition findOneSession (frontendSessionId : string)
    : M (option SessionDoc) :=
  dbOp env >>
  gets (fun w =>
    find (fun d => String.eqb (d_frontendSessionId d) frontendSessionId)
         (globalSessions (mongo w))).

(** [globalSessionCollection.insertOne(doc)] *)
Definition insertOneSession (doc : SessionDoc) : M unit :=
  dbOp env >>
  modify (fun w => setGlobalSessions (globalSessions (mongo w) ++ [doc]) w).

Fixpoint setLastActivity (conversationId iso : string) (docs : list SessionDoc)
    : list SessionDoc :=
  match docs with
  | [] => []
  | d :: rest =>
      if String.eqb (d_conversationId d) conversationId
      then mkSessionDoc (d_type d) (d_frontendSessionId d)
             (d_frontendSessionIds d) (d_sessionId d) (d_conversationId d)
             (d_startedAt d) iso (d_previousConversationId d)
             (d_isTimeoutSession d) :: rest
      else d :: setLastActivity conversationId iso rest
  end.

(** [globalSessionCollection.updateOne({ conversationId },
    { $set: { lastActivity } })] *)
Definition updateOneActivity (conversationId iso : string) : M unit :=
  dbOp env >>
  modify (fun w =>
    setGlobalSessions
      (setLastActivity conversationId iso (globalSessions (mongo w))) w).

(** A [try] block whose [catch] only logs. *)
Definition bestEffort (m : M unit) : M unit := tryCatch m (fun _ => ret tt).

(** The record inserted on a timeout rollover. *)
Definition timeoutDoc (frontendSessionId newConversationId startedAt
    lastActivity previous : string) : SessionDoc :=
  mkSessionDoc "chat_session" frontendSessionId [frontendSessionId]
    frontendSessionId newConversationId startedAt lastActivity
    (Some previous) true.

(** The record inserted for a brand-new session. *)
Definition freshDoc (frontendSessionId newConversationId startedAt
    lastActivity : string) : SessionDoc :=
  mkSessionDoc "chat_session" frontendSessionId [frontendSessionId]
    frontendSessionId newConversationId startedAt lastActivity None false.

(** Lines 28-100: the token is in [global.sessionCache]. *)
Definition fromCache (frontendSessionId : string) (cachedSession : Session)
    : M Session :=
  let lastActivity := lastActivity cachedSession in
  let* currentTime := dateNow env in
  if (SESSION_TIMEOUT <? currentTime - lastActivity)%Z then
    let* t := dateNow env in
    let newConversationId := conversationIdAt frontendSessionId t in
    let* started := newDateISO env in
    let* activity := dateNow env in
    let timeoutSession :=
      mkSession frontendSessionId newConversationId started activity true
                None in
    cacheSet frontendSessionId timeoutSession >>
    bestEffort (
      let* db := connectToDatabase env in
      collection db >>
      let* startedIso := newDateISO env in
      let* activityIso := newDateISO env in
      insertOneSession
        (timeoutDoc frontendSessionId newConversationId startedIso
                    activityIso (conversationId cachedSession))) >>
    ret timeoutSession
  else
    let* activity := dateNow env in
    let cachedSession :=
      mkSession (sessionId cachedSession) (conversationId cachedSession)
                (startedAt cachedSession) activity
                (isNewSession cachedSession)
                (previousConversationId cachedSession) in
    cacheSet frontendSessionId cachedSession >>
    bestEffort (
      let* db := connectToDatabase env in
      collection db >>
      let* iso := newDateISO env in
      updateOneActivity (conversationId cachedSession) iso) >>
    ret cachedSession.

(** Lines 210-243: no usable stored session; create a brand-new one. *)
Definition createSession (frontendSessionId : string) (now : Z) : M Session :=
  let* t := dateNow env in
  let newConversationId := conversationIdAt frontendSessionId t in
  let newSession :=
    freshDoc frontendSessionId newConversationId (toISOString env now)
             (toISOString env now) in
  bestEffort (insertOneSession newSession) >>
  let* activity := dateNow env in
  let sessionInfo :=
    mkSession (d_sessionId newSession) (d_conversationId newSession)
              (d_startedAt newSession) activity true None in
  cacheSet frontendSessionId sessionInfo >>
  ret sessionInfo.

(** Lines 123-208: the token is not cached and the connection resolved. *)
Definition fromStore (frontendSessionId : string) (db : bool) : M Session :=
  collection db >>
  let* existingSession :=
    tryCatch (findOneSession frontendSessionId) (fun _ => ret None) in
  let* now := dateNow env in
  match existingSession with
  | Some existingSession =>
      if JS.truthy (d_conversationId existingSession) then
        let timedOut :=
          match dateParse env (d_lastActivity existingSession) with
          | Some lastActivity => (SESSION_TIMEOUT <? now - lastActivity)%Z
          | None => false
          end in
        if timedOut then
          let* t := dateNow env in
          let newConversationId := conversationIdAt frontendSessionId t in
          let newSession :=
            timeoutDoc frontendSessionId newConversationId
                       (toISOString env now) (toISOString env now)
                       (d_conversationId existingSession) in
          bestEffort (insertOneSession newSession) >>
          let* activity := dateNow env in
          let sessionInfo :=
            mkSession (d_sessionId newSession) (d_conversationId newSession)
                      (d_startedAt newSession) activity true None in
          cacheSet frontendSessionId sessionInfo >>
          ret sessionInfo
        else
          bestEffort (updateOneActivity (d_conversationId existingSession)
                                        (toISOString env now)) >>
          let* activity := dateNow env in
          let sessionInfo :=
            mkSession (d_sessionId existingSession)
                      (d_conversationId existingSession)
                      (d_startedAt existingSession) activity false None in
          cacheSet frontendSessionId sessionInfo >>
          ret sessionInfo
      else createSession frontendSessionId now
  | None => createSession frontendSessionId now
  end.

(** Lines 107-121: the connection was rejected. *)
Definition temporarySession (frontendSessionId : string) : M Session :=
  let* t := dateNow env in
  let* started := newDateISO env in
  let* activity := dateNow env in
  let tempSession :=
    mkSession frontendSessionId (conversationIdAt frontendSessionId t)
              started activity false None in
  cacheSet frontendSessionId tempSession >>
  ret tempSession.

(** [sessionId || `emergency_${Date.now()}`] *)
Definition orEmergency (sessionId : option string) : M string :=
  if JS.truthyOpt sessionId then ret (JS.orElse sessionId "")
  else let* t := dateNow env in ret ("emergency_" +:+ JS.numToString t).

(** Lines 244-262: the outer [catch]. *)
Definition fallbackSession (sessionId : option string) : M Session :=
  let* t := dateNow env in
  let fallbackConversationId :=
    conversationIdAt (JS.orElse sessionId "unknown") t in
  let* sid := orEmergency sessionId in
  let* started := newDateISO env in
  let* activity := dateNow env in
  let fallback :=
    mkSession sid fallbackConversationId started activity false None in
  let* key := orEmergency sessionId in
  cacheSet key fallback >>
  ret fallback.

(** Lines 27-243: the session of a frontend session ID, from the cache
    or else from the store. *)
Definition resolve (frontendSessionId : string) : M Session :=
  let* cached := gets (fun w => sessionCache (proc w) !! frontendSessionId) in
  match cached with
  | Some cachedSession => fromCache frontendSessionId cachedSession
  | None =>
      let* connection :=
        tryCatch (let* db := connectToDatabase env in ret (Some db))
                 (fun _ => ret None) in
      match connection with
      | None => temporarySession frontendSessionId
      | Some db => fromStore frontendSessionId db
      end
  end.

(** [getOrCreateSession(sessionId)] *)
Definition getOrCreateSession (sessionId : option string) : M Session :=
  tryCatch (
    let* frontendSessionId :=
      (if JS.truthyOpt sessionId then ret (JS.orElse sessionId "")
       else
         let* t := dateNow env in
         let* r := mathRandom36 env in
         ret ("session_" +:+ JS.numToString t +:+ "_" +:+ JS.slice 2 11 r)) in
    resolve frontendSessionId)
  (fun _ => fallbackSession sessionId).

(** [sessionExists(sessionId)] *)
Definition sessionExists (sessionId : string) (w : World) : bool :=
  bool_decide (is_Some (sessionCache (proc w) !! sessionId)).

End WithEnv.
End SessionManager.

(** ** messageProcessor.js *)

Module MessageProcessor.
Import Runtime.
Section WithEnv.
Variable env : Env.

(** The [metadata] argument of [processMessagePair]. *)
Record Metadata := mkMetadata {
  md_sessionId : option string;
  md_language : option string;
  md_clientId : option string;
  md_topic : option string;
  md_status : option string
}.

(** What [processMessagePair] resolves to. *)
Inductive PairResult :=
| PairSuccess (conversationId userMessageId botMessageId : string)
              (postgresqlId : option string)
| PairFailure (error reason : string).

(** What [sendConversationToAnalytics] resolves to. *)
Record AnalyticsResult := mkAnalyticsResult {
  ar_success : bool;
  ar_postgresqlId : option string;
  ar_deduplicated : bool
}.

(** What [createMessageIdMapping] resolves to; [_id] is the position of
    the inserted document. *)
Inductive MappingResult :=
| MappingUpdated (mongodbId postgresqlId : string)
| MappingCreated (mongodbId postgresqlId : string) (_id : nat)
| MappingFailed (error : string).

Definition setProcessed (l : list string) : World -> World :=
  withProc (fun p =>
    mkProcess (sessionCache p) l (analyticsSentMessages p)).

Definition setSent (m : gmap string SentEntry) : World -> World :=
  withProc (fun p => mkProcess (sessionCache p) (processedMessages p) m).

Definition setConversations (docs : list ConversationDoc) : World -> World :=
  withMongo (fun m => mkMongo (globalSessions m) docs (message_id_mappings m)).

Definition setMappings (docs : list MappingDoc) : World -> World :=
  withMongo (fun m => mkMongo (globalSessions m) (conversations m) docs).

(** [processedMessages.has(signature)] *)
Definition hasProcessed (signature : string) (w : World) : bool :=
  existsb (String.eqb signature) (processedMessages (proc w)).

(** Lines 62-68: add the signature; above 1000 entries delete the 500
    oldest ones. *)
Definition rememberProcessed (signature : string)
    (processed : list string) : list string :=
  let added := processed ++ [signature] in
  if (1000 <? length added)%nat then
    let oldEntries := take 500 added in
    filter (fun entry => negb (existsb (String.eqb entry) oldEntries)) added
  else added.

(** [`${conversationId}:${user.substring(0, 40)}:${bot.substring(0, 40)}`] *)
Definition pairSignature (conversationId userMessage botResponse : string)
    : string :=
  conversationId +:+ ":" +:+ JS.prefix 40 userMessage +:+ ":"
    +:+ JS.prefix 40 botResponse.

Definition isBotMessage (m : Message) : bool :=
  String.eqb (m_role m) "assistant" || String.eqb (m_type m) "bot".

(** The signature of the assistant messages of a conversation. *)
Definition botSignature (conversationData : ConversationData) : string :=
  JS.join "|"
    (map (fun m => JS.prefix 50 (m_content m) +:+ "-" +:+ m_timestamp m)
         (filter (fun m => isBotMessage m) (c_messages conversationData))).

Definition hasBotMessages (conversationData : ConversationData) : bool :=
  match filter (fun m => isBotMessage m) (c_messages conversationData) with
  | [] => false
  | _ :: _ => true
  end.

(** *** saveConversationToMongoDB *)

Fixpoint pushMessages (id : string) (ms : list Message) (endedAt : string)
    (now : Z) (docs : list ConversationDoc) : list ConversationDoc :=
  match docs with
  | [] => []
  | d :: rest =>
      let c := cd_data d in
      if String.eqb (c_id c) id
      then mkConversationDoc
             (mkConversationData (c_id c) (c_sessionId c) (c_clientId c)
                (c_messages c ++ ms) (c_startedAt c) endedAt (c_language c)
                (c_topic c) (c_status c))
             (cd_createdAt d) now :: rest
      else d :: pushMessages id ms endedAt now rest
  end.

Definition saveConversationToMongoDB (conversationData : ConversationData)
    : M bool :=
  tryCatch (
    let* db := connectToDatabase env in
    collection db >>
    dbOp env >>
    let* existingConvo := gets (fun w =>
      find (fun d => String.eqb (c_id (cd_data d)) (c_id conversationData))
           (conversations (mongo w))) in
    match existingConvo with
    | Some _ =>
        let* now := dateNow env in
        dbOp env >>
        modify (fun w => setConversations
          (pushMessages (c_id conversationData) (c_messages conversationData)
             (c_endedAt conversationData) now (conversations (mongo w))) w) >>
        ret true
    | None =>
        let* createdAt := dateNow env in
        let* lastActivity := dateNow env in
        dbOp env >>
        modify (fun w => setConversations
          (conversations (mongo w)
             ++ [mkConversationDoc conversationData (Some createdAt)
                                   lastActivity]) w) >>
        ret true
    end)
  (fun _ => ret false).

(** *** sendConversationToAnalytics *)

(** [fetch(url, { method: 'POST', body })]: the payload joins the
    requests issued to the analytics API; the reply is the oracle's. *)
Definition fetchPost (body : ConversationData) : M FetchReply :=
  fun w =>
    (Returns (fetchReply env (nFetch (cursors w))),
     withAnalytics (fun l => l ++ [body]) (withCursors tickFetch w)).

(** Lines 260-280: one mapping per returned message ID, in order;
    returns the last ID paired with an assistant message. *)
Fixpoint storeMappings (db : bool) (pgMessages : list (option string))
    (originals : list Message) (i : nat) (botId : option string)
    : M (option string) :=
  match pgMessages with
  | [] => ret botId
  | pgMessage :: rest =>
      match originals !! i with
      | Some originalMessage =>
          if JS.truthyOpt pgMessage && JS.truthy (m_id originalMessage) then
            collection db >>
            let* createdAt := dateNow env in
            dbOp env >>
            modify (fun w => setMappings
              (message_id_mappings (mongo w)
                 ++ [mkMappingDoc (m_id originalMessage)
                       (JS.orElse pgMessage "")
                       (Some (m_content originalMessage)) None
                       (Some createdAt) None]) w) >>
            storeMappings db rest originals (S i)
              (if isBotMessage originalMessage then pgMessage else botId)
          else storeMappings db rest originals (S i) botId
      | None => storeMappings db rest originals (S i) botId
      end
  end.

(** Lines 283-302: record the signature, then sweep entries older than a
    day once the map holds more than 500. *)
Definition recordSent (conversationData : ConversationData)
    (botId : option string) : M unit :=
  if hasBotMessages conversationData then
    let* now := dateNow env in
    modify (fun w => setSent
      (<[botSignature conversationData := mkSentEntry now botId]>
         (analyticsSentMessages (proc w))) w) >>
    let* size := gets (fun w => size (analyticsSentMessages (proc w))) in
    if (500 <? size)%nat then
      let* now' := dateNow env in
      let oneDayAgo := now' - 24 * 60 * 60 * 1000 in
      modify (fun w => setSent
        (filter (fun kv => ¬ (se_timestamp kv.2 < oneDayAgo))
                (analyticsSentMessages (proc w))) w)
    else ret tt
  else ret tt.

(** Lines 244-319: what is made of the API's answer. *)
Definition processResponse (conversationData : ConversationData)
    (analyticsResponse : FetchReply) : M AnalyticsResult :=
  match analyticsResponse with
  | FetchThrows => throw "TypeError: fetch failed"
  | FetchNotOk => ret (mkAnalyticsResult false None false)
  | FetchOk body =>
      tryCatch (
        match body with
        | BadJson => throw "SyntaxError: Unexpected token"
        | NoMessages => ret (mkAnalyticsResult true None false)
        | MessageIds ids =>
            let* db := connectToDatabase env in
            let* botId :=
              storeMappings db ids (c_messages conversationData) 0 None in
            recordSent conversationData botId >>
            ret (mkAnalyticsResult true botId false)
        end)
      (fun _ => ret (mkAnalyticsResult true None false))
  end.

Definition sendConversationToAnalytics (conversationData : ConversationData)
    : M AnalyticsResult :=
  tryCatch (
    let* previouslySent := gets (fun w =>
      if hasBotMessages conversationData
      then analyticsSentMessages (proc w) !! botSignature conversationData
      else None) in
    match previouslySent with
    | Some previouslySent =>
        let* _now := dateNow env in
        ret (mkAnalyticsResult true (se_postgresqlId previouslySent) true)
    | None =>
        let* analyticsResponse := fetchPost conversationData in
        processResponse conversationData analyticsResponse
    end)
  (fun _ => ret (mkAnalyticsResult false None false)).

(** *** processMessagePair *)

(** Lines 70-105: the two message IDs, the two normalised messages and
    the conversation object built from them. *)
Definition assemblePair (sessionInfo : Session)
    (userMessage botResponse : string) (metadata : Metadata)
    : M (string * string * ConversationData) :=
  let* t1 := dateNow env in
  let* u1 := newUuid env in
  let userMessageId :=
    "user-msg-" +:+ JS.numToString t1 +:+ "-" +:+ JS.prefix 8 u1 in
  let* t2 := dateNow env in
  let* u2 := newUuid env in
  let botMessageId :=
    "bot-msg-" +:+ JS.numToString (t2 + 1) +:+ "-" +:+ JS.prefix 8 u2 in
  let language := JS.orElse (md_language metadata) "en" in
  let* userTimestamp := newDateISO env in
  let* normalizedUserMessage :=
    DataModels.normalizeMessage env (Some
      (mkRawMessage (Some userMessageId) (Some userMessage)
         (Some "user") (Some "user") None None (Some userTimestamp)
         (Some language) None)) in
  let* t3 := dateNow env in
  let* normalizedBotMessage :=
    DataModels.normalizeMessage env (Some
      (mkRawMessage (Some botMessageId) (Some botResponse)
         (Some "assistant") (Some "bot") None None
         (Some (toISOString env (t3 + 1))) (Some language) None)) in
  let* endedAt := newDateISO env in
  let* conversationData :=
    DataModels.normalizeConversation env (Some
      (mkRawConversation
         (Some (conversationId sessionInfo))
         (Some (sessionId sessionInfo)) None
         (Some (JS.orElse (md_clientId metadata) "svorum-strax"))
         (Some [Some (DataModels.rawOfMessage normalizedUserMessage);
                Some (DataModels.rawOfMessage normalizedBotMessage)])
         None None
         (Some (startedAt sessionInfo)) None (Some endedAt)
         (Some language)
         (Some (JS.orElse (md_topic metadata) "general"))
         (Some (JS.orElse (md_status metadata) "active")))) in
  ret (userMessageId, botMessageId, conversationData).

(** Lines 27-32: the log line reads [userMessage.substring],
    [botResponse.substring] and [metadata.sessionId], in this order,
    before anything is validated.  A text is [None] when it is not a
    string, [metadata] is [None] when it is [null] (when it is left out
    it is the empty object); the wording of the [TypeError] depends on
    the value and is not modelled. *)
Definition logPair (userMessage botResponse : option string)
    (metadata : option Metadata) : M (string * string * Metadata) :=
  match userMessage, botResponse, metadata with
  | Some userMessage, Some botResponse, Some metadata =>
      ret (userMessage, botResponse, metadata)
  | None, _, _ => throw "TypeError: userMessage.substring"
  | _, None, _ => throw "TypeError: botResponse.substring"
  | _, _, None => throw "TypeError: metadata.sessionId"
  end.

Definition processMessagePair (userMessage botResponse : option string)
    (metadata : option Metadata) : M PairResult :=
  tryCatch (
    let* logged := logPair userMessage botResponse metadata in
    let userMessage := logged.1.1 in
    let botResponse := logged.1.2 in
    let metadata := logged.2 in
    if negb (JS.truthy userMessage) || negb (JS.truthy botResponse) then
      ret (PairFailure "incomplete_message_pair"
             "Both user message and bot response are required")
    else
      let* sessionInfo :=
        SessionManager.getOrCreateSession env (md_sessionId metadata) in
      let messageSignature :=
        pairSignature (conversationId sessionInfo) userMessage botResponse in
      let* seen := gets (hasProcessed messageSignature) in
      if seen then
        ret (PairFailure "duplicate_message"
               "This exact message pair was recently processed")
      else
        modify (fun w => setProcessed
          (rememberProcessed messageSignature (processedMessages (proc w)))
          w) >>
        let* assembled :=
          assemblePair sessionInfo userMessage botResponse metadata in
        let userMessageId := assembled.1.1 in
        let botMessageId := assembled.1.2 in
        let conversationData := assembled.2 in
        let* _saved := saveConversationToMongoDB conversationData in
        let* analyticsResult := sendConversationToAnalytics conversationData in
        ret (PairSuccess (conversationId sessionInfo) userMessageId
               botMessageId
               (JS.orOpt (ar_postgresqlId analyticsResult) None)))
  (fun e => ret (PairFailure "processing_error" e)).

(** *** Identifier mappings *)

(** [findOne({ $or: [{ mongodbId: a }, { postgresqlId: b }] })] on
    [message_id_mappings]: position and content of the first match. *)
Fixpoint findMappingFrom (i : nat) (a b : string) (docs : list MappingDoc)
    : option (nat * MappingDoc) :=
  match docs with
  | [] => None
  | d :: rest =>
      if String.eqb (mongodbId d) a || String.eqb (postgresqlId d) b
      then Some (i, d)
      else findMappingFrom (S i) a b rest
  end.

Definition findMapping (a b : string) (docs : list MappingDoc)
    : option (nat * MappingDoc) :=
  findMappingFrom 0 a b docs.

(** The [$set] of [createMessageIdMapping]. *)
Definition remap (mongodbId postgresqlId : string) (content : option string)
    (now : Z) (d : MappingDoc) : MappingDoc :=
  mkMappingDoc mongodbId postgresqlId
    (if JS.truthyOpt content then content else mp_content d)
    (mp_trackingId d) (mp_createdAt d) (Some now).

(** [createMessageIdMapping(mongodbId, postgresqlId, content)] *)
Definition createMessageIdMapping (mongodbId postgresqlId : option string)
    (content : option string) : M MappingResult :=
  tryCatch (
    let* mongodbId :=
      (if JS.truthyOpt mongodbId then ret (JS.orElse mongodbId "")
       else let* u := newUuid env in ret ("mongo-" +:+ u)) in
    let* postgresqlId :=
      (if JS.truthyOpt postgresqlId then ret (JS.orElse postgresqlId "")
       else let* u := newUuid env in ret ("pg-" +:+ u)) in
    let* db := connectToDatabase env in
    collection db >>
    dbOp env >>
    let* existingMapping := gets (fun w =>
      findMapping mongodbId postgresqlId (message_id_mappings (mongo w))) in
    match existingMapping with
    | Some (_id, _) =>
        let* now := dateNow env in
        dbOp env >>
        modify (fun w => setMappings
          (alter (remap mongodbId postgresqlId content now) _id
                 (message_id_mappings (mongo w))) w) >>
        ret (MappingUpdated mongodbId postgresqlId)
    | None =>
        let* trackingId := newUuid env in
        let* now := dateNow env in
        dbOp env >>
        let* insertedId := gets (fun w =>
          length (message_id_mappings (mongo w))) in
        modify (fun w => setMappings
          (message_id_mappings (mongo w)
             ++ [mkMappingDoc mongodbId postgresqlId
                   (if JS.truthyOpt content then content else None)
                   (Some trackingId) (Some now) None]) w) >>
        ret (MappingCreated mongodbId postgresqlId insertedId)
    end)
  (fun e => ret (MappingFailed e)).

(** Lines 337-348 of [getMessageFeedback]: the mapping found for a
    message ID of either kind, and the remote ID used from there on
    ([mapping?.postgresqlId || messageId]). *)
Definition lookupMapping (messageId : string)
    : M (option MappingDoc * string) :=
  let* db := connectToDatabase env in
  collection db >>
  dbOp env >>
  let* mapping := gets (fun w =>
    snd <$> findMapping messageId messageId (message_id_mappings (mongo w))) in
  let pgId :=
    JS.orElse (postgresqlId <$> mapping) messageId in
  ret (mapping, pgId).

End WithEnv.
End MessageProcessor.

(** ** messageProcessor.js: message feedback *)

(** A document of the [message_feedback] collection. *)
Record FeedbackDoc := mkFeedbackDoc {
  fb_messageId : string;
  fb_postgresqlId : option string;
  fb_isPositive : bool;
  fb_comment : option string;
  fb_timestamp : Z
}.

(** A request to the feedback endpoint of the analytics API. *)
Record FeedbackPost := mkFeedbackPost {
  fp_messageId : string;
  fp_rating : bool;
  fp_comment : option string
}.

(** What the analytics API answers when it is asked for the feedback
    on a message. *)
Inductive FeedbackReply :=
| FeedbackThrows
| FeedbackNotOk
| FeedbackBadJson
| FeedbackNoRating
| FeedbackRating (rating : bool) (timestamp : option string)
                 (comment : option string).

(** The [message_feedback] collection and the feedback requests issued
    to the analytics API so far, latest last.  The functions below take
    and return them explicitly. *)
Record FeedbackStore := mkFeedbackStore {
  message_feedback : list FeedbackDoc;
  feedbackPosts : list FeedbackPost
}.

Module Feedback.
Import Runtime.
Section WithEnv.
Variable env : Env.

(** The analytics API's answers to feedback queries, by request. *)
Variable feedbackApi : nat -> FeedbackReply.

(** A timestamp as [getMessageFeedback] hands it out: the [Date] of a
    stored document, or the text the analytics API sent. *)
Inductive Stamp :=
| DateStamp (t : Z)
| TextStamp (s : string).

(** What [getMessageFeedback] resolves to when feedback is found. *)
Record FeedbackView := mkFeedbackView {
  v_rating : bool;
  v_timestamp : Stamp;
  v_comment : option string
}.

(** What [submitMessageFeedback] resolves to. *)
Inductive SubmitResult :=
| Submitted (messageId : string) (postgresqlId : option string)
| SubmitFailed (error : string).

(** [findOne({ $or: [{ messageId }, { postgresqlId: pgId }] })] on
    [message_feedback]. *)
Definition findFeedback (messageId pgId : string) (docs : list FeedbackDoc)
    : option FeedbackDoc :=
  find (fun d => String.eqb (fb_messageId d) messageId
                 || DataModels.isStr (fb_postgresqlId d) pgId) docs.

(** [fetch(`.../api/feedback/message?messageId=...`)] *)
Definition fetchFeedback : M FeedbackReply :=
  fun w => (Returns (feedbackApi (nFetch (cursors w))),
            withCursors tickFetch w).

(** [fetch('.../api/public-feedback', { method: 'POST', ... })]: only
    whether it throws matters to the caller. *)
Definition postFeedback : M unit :=
  fun w =>
    let w' := withCursors tickFetch w in
    match fetchReply env (nFetch (cursors w)) with
    | FetchThrows => (Throws "TypeError: fetch failed", w')
    | _ => (Returns tt, w')
    end.

(** [getMessageFeedback(messageId)] *)
Definition getMessageFeedback (store : FeedbackStore) (messageId : string)
    : M (option FeedbackView) :=
  tryCatch (
    let* found := MessageProcessor.lookupMapping env messageId in
    let pgId := found.2 in
    dbOp env >>
    match findFeedback messageId pgId (message_feedback store) with
    | Some feedback =>
        ret (Some (mkFeedbackView (fb_isPositive feedback)
                     (DateStamp (fb_timestamp feedback))
                     (fb_comment feedback)))
    | None =>
        let* apiResponse := fetchFeedback in
        match apiResponse with
        | FeedbackThrows => throw "TypeError: fetch failed"
        | FeedbackNotOk => ret None
        | FeedbackBadJson => throw "SyntaxError: Unexpected token"
        | FeedbackNoRating => ret None
        | FeedbackRating rating timestamp comment =>
            let* timestamp :=
              (if JS.truthyOpt timestamp then ret (JS.orElse timestamp "")
               else newDateISO env) in
            ret (Some (mkFeedbackView rating (TextStamp timestamp) comment))
        end
    end)
  (fun _ => ret None).

(** [submitMessageFeedback(messageId, isPositive, comment)] *)
Definition submitMessageFeedback (store : FeedbackStore) (messageId : string)
    (isPositive : bool) (comment : option string)
    : M (SubmitResult * FeedbackStore) :=
  tryCatch (
    let* db := connectToDatabase env in
    collection db >>
    dbOp env >>
    let* mapping := gets (fun w =>
      find (fun d => String.eqb (mongodbId d) messageId)
           (message_id_mappings (mongo w))) in
    let postgresqlId := JS.orOpt (postgresqlId <$> mapping) None in
    let* timestamp := dateNow env in
    dbOp env >>
    let stored :=
      message_feedback store
        ++ [mkFeedbackDoc messageId postgresqlId isPositive comment
                          timestamp] in
    let* _sentAt := newDateISO env in
    tryCatch postFeedback (fun _ => ret tt) >>
    ret (Submitted messageId postgresqlId,
         mkFeedbackStore stored
           (feedbackPosts store
              ++ [mkFeedbackPost (JS.orElse postgresqlId messageId)
                                 isPositive comment])))
  (fun e => ret (SubmitFailed e, store)).

End WithEnv.
End Feedback.

(** ** The HTTP server: [/chat], its response cache and its background
       continuation *)

Module Server.
Import Runtime.
Section WithEnv.
Variable env : Env.

(** The body of a [/chat] request.  [q_messages] is [req.body.messages]
    when it is an array, reduced to the [content] of each element;
    images and files are opaque. *)
Record ChatRequest := mkChatRequest {
  q_messages : option (list (option string));
  q_threadId : option string;
  q_message : option string;
  q_sessionId : option string;
  q_language : option string;
  q_images : option (list string);
  q_files : option (list string)
}.

Inductive ReplyBody :=
| Payload (response : ResponseData)
| ErrorBody (message : string).

Record HttpReply := mkHttpReply {
  status : nat;
  body : ReplyBody
}.

(** What [broadcastConversation] resolves to. *)
Record BroadcastResult := mkBroadcastResult {
  b_success : bool;
  b_postgresqlId : option string
}.

(** The closure handed to [setImmediate]: the variables it captures.
    [k_cached] is the handler's [cached], read before the cache write. *)
Record Continuation := mkContinuation {
  k_userMessage : string;
  k_response : string;
  k_language : string;
  k_topic : string;
  k_sessionId : string;
  k_cached : option CacheEntry
}.

(** The response cache's time to live: one hour, in milliseconds. *)
Definition CACHE_TTL : Z := 3600000.

Definition setResponseCache (m : gmap string CacheEntry) : World -> World :=
  withServer (fun s => mkServer (sessions s) m (heap s) (nextRef s)).

Definition setHeap (h : gmap nat ResponseData) : World -> World :=
  withServer (fun s => mkServer (sessions s) (responseCache s) h (nextRef s)).

Definition setSessions (m : gmap string (list ChatTurn)) : World -> World :=
  withServer (fun s => mkServer m (responseCache s) (heap s) (nextRef s)).

(** Allocation of a payload object. *)
Definition newObject (payload : ResponseData) : M nat :=
  fun w =>
    let r := nextRef (server w) in
    (Returns r,
     withServer (fun s =>
       mkServer (sessions s) (responseCache s) (<[r := payload]> (heap s))
                (S r)) w).

(** Reading a payload object through a reference.  A reference held by
    the cache always points to an object; the other branch is there to
    keep the function total. *)
Definition readObject (r : nat) : M ResponseData :=
  let* o := gets (fun w => heap (server w) !! r) in
  match o with
  | Some payload => ret payload
  | None => throw "TypeError: dangling reference"
  end.

(** The outcome of the cache check of lines 865-871: a hit with the
    payload to send, or a miss together with what [cached] holds. *)
Inductive Lookup :=
| Hit (payload : ResponseData)
| Miss (cached : option CacheEntry).

(** Lines 865-867: [responseCache.get(cacheKey)] and the staleness test
    [cached && Date.now() - cached.timestamp < 3600000]. *)
Definition cacheGet (cacheKey : string) : M Lookup :=
  let* cached := gets (fun w => responseCache (server w) !! cacheKey) in
  match cached with
  | Some entry =>
      let* now := dateNow env in
      if (now - ce_timestamp entry <? CACHE_TTL)%Z then
        let* payload := readObject (ce_response entry) in
        ret (Hit payload)
      else ret (Miss cached)
  | None => ret (Miss None)
  end.

(** Lines 981-984: [responseCache.set(cacheKey, { response, timestamp:
    Date.now() })] for the payload object [response]. *)
Definition cachePut (cacheKey : string) (response : nat) : M unit :=
  let* now := dateNow env in
  modify (fun w => setResponseCache
    (<[cacheKey := mkCacheEntry response now]> (responseCache (server w))) w).

(** Lines 1095-1102: the hourly sweep. *)
Definition sweep : M unit :=
  let* now := dateNow env in
  let oneHourAgo := now - 3600000 in
  modify (fun w => setResponseCache
    (filter (fun kv => ¬ (ce_timestamp kv.2 < oneHourAgo))
            (responseCache (server w))) w).

(** *** broadcastConversation *)

Definition pusherTrigger : M unit :=
  fun w =>
    let w' := withCursors tickPusher w in
    if pusherFails env (nPusher (cursors w)) then (Throws "PusherError", w')
    else (Returns tt, w').

Definition broadcastConversation (userMessage botResponse language topic
    : string) (clientSessionId : option string) (status : string)
    : M BroadcastResult :=
  tryCatch (
    if negb (JS.truthy userMessage) || negb (JS.truthy botResponse) then
      ret (mkBroadcastResult false None)
    else
      let* processResult :=
        MessageProcessor.processMessagePair env (Some userMessage)
          (Some botResponse)
          (Some (MessageProcessor.mkMetadata clientSessionId (Some language)
                   (Some "svorum-strax") (Some topic) (Some status))) in
      match processResult with
      | MessageProcessor.PairSuccess _ _ _ postgresqlId =>
          let* _sessionInfo :=
            SessionManager.getOrCreateSession env clientSessionId in
          let* _endedAt := newDateISO env in
          pusherTrigger >>
          ret (mkBroadcastResult true postgresqlId)
      | MessageProcessor.PairFailure _ _ =>
          ret (mkBroadcastResult false None)
      end)
  (fun _ => ret (mkBroadcastResult false None)).

(** *** The [/chat] handler *)

Definition count (xs : option (list string)) : nat :=
  match xs with Some l => length l | None => 0%nat end.

(** [sessionId || `session_${Date.now()}`] *)
Definition orNewSession (sessionId : option string) : M string :=
  if JS.truthyOpt sessionId then ret (JS.orElse sessionId "")
  else let* t := dateNow env in ret ("session_" +:+ JS.numToString t).

(** Lines 830-845: both request formats. *)
Definition readRequest (req : ChatRequest) : M (option string * string) :=
  match q_messages req with
  | Some messages =>
      let userMessage := JS.orElse (mjoin (last messages)) "" in
      let* sessionId := orNewSession (q_threadId req) in
      ret (Some userMessage, sessionId)
  | None =>
      let* sessionId := orNewSession (q_sessionId req) in
      ret (q_message req, sessionId)
  end.

(** Line 860 *)
Definition detectLanguage (req : ChatRequest) (userMessage : option string)
    : string :=
  if JS.truthyOpt (q_language req) then JS.orElse (q_language req) ""
  else if match userMessage with
          | Some m => icelandic env m
          | None => false
          end
       then "is" else "en".

(** Line 864 *)
Definition cacheKeyOf (req : ChatRequest) (userMessage : option string)
    (sessionId : string) : string :=
  sessionId +:+ ":"
    +:+ match userMessage with
        | Some m => lowerTrim env m
        | None => "undefined"
        end
    +:+ ":" +:+ detectLanguage req userMessage
    +:+ ":" +:+ JS.numToString (Z.of_nat (count (q_images req)))
    +:+ ":" +:+ JS.numToString (Z.of_nat (count (q_files req))).

(** [userMessage || (files && files.length > 0 ? ... : ...)] *)
Definition shownMessage (req : ChatRequest) (userMessage : option string)
    : string :=
  JS.orElse userMessage
    (if (0 <? count (q_files req))%nat then "📄 [Skjal sent]"
     else "🖼️ [Mynd send]").

(** [messages.slice(-10)] once there are more than ten. *)
Definition lastTen (turns : list ChatTurn) : list ChatTurn :=
  if (10 <? length turns)%nat then drop (length turns - 10) turns else turns.

Definition processFiles : M string :=
  fun w =>
    let w' := withCursors tickFiles w in
    match processFilesReply env (nFiles (cursors w)) with
    | Some text => (Returns text, w')
    | None => (Throws "file processing failed", w')
    end.

(** [openai.chat.completions.create(...)]: the reply does not depend on
    the prompt in any way the properties below rely on. *)
Definition createCompletion : M string :=
  fun w =>
    let w' := withCursors tickCompletion w in
    match completion env (nCompletion (cursors w)) with
    | Some text => (Returns text, w')
    | None => (Throws "OpenAI request failed", w')
    end.

(** Lines 873-1017: the path taken on a cache miss. *)
Definition answer (req : ChatRequest) (userMessage : option string)
    (sessionId cacheKey : string) (cached : option CacheEntry)
    : M (HttpReply * option Continuation) :=
  let detectedLanguage := detectLanguage req userMessage in
  let* _sessionInfo :=
    SessionManager.getOrCreateSession env (Some sessionId) in
  let* known := gets (fun w => sessions (server w) !! sessionId) in
  let* history :=
    match known with
    | Some turns => ret turns
    | None => let* _createdAt := dateNow env in ret []
    end in
  modify (fun w => setSessions (<[sessionId := history]> (sessions (server w)))
                               w) >>
  let* _fileContext :=
    (if (0 <? count (q_files req))%nat then processFiles else ret "") in
  let history :=
    lastTen (history ++ [mkChatTurn "user" (shownMessage req userMessage)]) in
  modify (fun w => setSessions (<[sessionId := history]> (sessions (server w)))
                               w) >>
  let* response := createCompletion in
  modify (fun w => setSessions
    (<[sessionId := history ++ [mkChatTurn "assistant" response]]>
       (sessions (server w))) w) >>
  let detectedTopic := detectTopic env (JS.orElse userMessage "file upload") in
  let* responseData :=
    newObject (mkResponseData response sessionId None detectedLanguage
                              detectedTopic) in
  cachePut cacheKey responseData >>
  let continuation :=
    mkContinuation (shownMessage req userMessage) response detectedLanguage
                   detectedTopic sessionId cached in
  let* _totalTime := dateNow env in
  let* sent := readObject responseData in
  ret (mkHttpReply 200 (Payload sent), Some continuation).

(** [app.post("/chat", ...)]: the reply sent, and the continuation
    scheduled with [setImmediate], if any. *)
Definition chat (req : ChatRequest) : M (HttpReply * option Continuation) :=
  let* _startTime := dateNow env in
  tryCatch (
    let* parsed := readRequest req in
    let userMessage := parsed.1 in
    let sessionId := parsed.2 in
    if negb (JS.truthyOpt userMessage)
       && (count (q_images req) =? 0)%nat && (count (q_files req) =? 0)%nat
    then
      ret (mkHttpReply 400 (ErrorBody "Message, images, or files required"),
           None)
    else
      let cacheKey := cacheKeyOf req userMessage sessionId in
      let* lookup := cacheGet cacheKey in
      match lookup with
      | Hit payload => ret (mkHttpReply 200 (Payload payload), None)
      | Miss cached => answer req userMessage sessionId cacheKey cached
      end)
  (fun e =>
     let* _totalTime := dateNow env in
     ret (mkHttpReply 500 (ErrorBody e), None)).

(** [verifyApiKey], the middleware in front of the handler: the request
    is turned away with status 401 when [!apiKey || apiKey !== API_KEY]
    for its [x-api-key] header.  [API_KEY] is a constant of the module,
    never empty. *)
Definition verifyApiKey (API_KEY : string) (apiKey : option string) : bool :=
  negb (negb (JS.truthyOpt apiKey) || negb (DataModels.isStr apiKey API_KEY)).

(** The route [app.post("/chat", verifyApiKey, ...)]. *)
Definition postChat (API_KEY : string) (apiKey : option string)
    (req : ChatRequest) : M (HttpReply * option Continuation) :=
  if verifyApiKey API_KEY apiKey then chat req
  else ret (mkHttpReply 401 (ErrorBody "Unauthorized"), None).

(** [cached.response.postgresqlMessageId = id] *)
Definition setPostgresqlMessageId (id : option string) (r : ResponseData)
    : ResponseData :=
  mkResponseData (rd_message r) (rd_sessionId r) id (rd_language r)
                 (rd_topic r).

(** Lines 987-1010: the body of the [setImmediate] callback. *)
Definition runContinuation (k : Continuation) : M unit :=
  tryCatch (
    let* broadcastResult :=
      broadcastConversation (k_userMessage k) (k_response k) (k_language k)
        (k_topic k) (Some (k_sessionId k)) "active" in
    match k_cached k with
    | Some cached =>
        if JS.truthyOpt (b_postgresqlId broadcastResult) then
          modify (fun w => setHeap
            (alter (setPostgresqlMessageId (b_postgresqlId broadcastResult))
                   (ce_response cached) (heap (server w))) w)
        else ret tt
    | None => ret tt
    end)
  (fun _ => ret tt).

End WithEnv.
End Server.

(** ** database.js: echo detection and dual credentials *)

(** A document of the [recent_messages] collection. *)
Record RecentMessage := mkRecentMessage {
  rm_chatId : string;
  rm_messageText : string;
  rm_timestamp : Z;
  rm_expiresAt : Z
}.

(** The [recent_messages] collection, and whether its TTL index
    [expiresAt_1] exists.  The functions below take and return them
    explicitly. *)
Record Recent := mkRecent {
  recent_messages : list RecentMessage;
  ttlIndex : bool
}.

(** The credentials of a chat as [getDualCredentials] hands them out. *)
Record Credentials := mkCredentials {
  cr_customerToken : string;
  cr_entityId : string;
  cr_agentCredentials : string;
  cr_expiresAt : Z
}.

(** A document of the [dual_credentials] collection. *)
Record CredentialDoc := mkCredentialDoc {
  dc_chatId : string;
  dc_sessionId : string;
  dc_credentials : Credentials;
  dc_updatedAt : Z
}.

(** The [dual_credentials] collection and [global.dualCredentials],
    which is undefined until it is first written. *)
Record Vault := mkVault {
  dual_credentials : list CredentialDoc;
  dualCredentials : option (gmap string Credentials)
}.

Module Database.
Import Runtime.
Section WithEnv.
Variable env : Env.

(** [Buffer.from(`${ACCOUNT_ID}:${PAT}`).toString('base64')], a constant
    of the module. *)
Variable agentCredentials : string.

(** [storeRecentMessage(chatId, messageText)]; the index is looked for,
    and created when missing, in a [try] block of its own. *)
Definition storeRecentMessage (recent : Recent) (chatId messageText : string)
    : M (bool * Recent) :=
  tryCatch (
    let* db := connectToDatabase env in
    collection db >>
    let* timestamp := dateNow env in
    let* now := dateNow env in
    dbOp env >>
    let stored :=
      recent_messages recent
        ++ [mkRecentMessage chatId messageText timestamp (now + 60000)] in
    let* index :=
      tryCatch (
        dbOp env >>
        if ttlIndex recent then ret true
        else dbOp env >> ret true)
      (fun _ => ret (ttlIndex recent)) in
    ret (true, mkRecent stored index))
  (fun _ => ret (false, recent)).

(** The query [{ chatId, messageText, timestamp: { $gte: since } }]. *)
Definition matchesRecent (chatId messageText : string) (since : Z)
    (d : RecentMessage) : bool :=
  String.eqb (rm_chatId d) chatId && String.eqb (rm_messageText d) messageText
  && (since <=? rm_timestamp d)%Z.

(** [checkForDuplicateMessage(chatId, messageText)].  When nothing
    matches, up to five messages of the chat are fetched and logged,
    the clock being read once for each. *)
Definition checkForDuplicateMessage (recent : Recent)
    (chatId messageText : string) : M bool :=
  tryCatch (
    let* db := connectToDatabase env in
    collection db >>
    let* now := dateNow env in
    let recentTimestamp := now - 30000 in
    dbOp env >>
    match find (matchesRecent chatId messageText recentTimestamp)
               (recent_messages recent) with
    | Some _ => ret true
    | None =>
        dbOp env >>
        let recentMessages :=
          take 5 (filter (fun d => String.eqb (rm_chatId d) chatId)
                         (recent_messages recent)) in
        mapM (fun _ => dateNow env) recentMessages >>
        ret false
    end)
  (fun _ => ret false).

(** [updateOne({ chatId }, { $set: ... }, { upsert: true })] on
    [dual_credentials]. *)
Fixpoint upsertCredentials (doc : CredentialDoc) (docs : list CredentialDoc)
    : list CredentialDoc :=
  match docs with
  | [] => [doc]
  | d :: rest =>
      if String.eqb (dc_chatId d) (dc_chatId doc) then doc :: rest
      else d :: upsertCredentials doc rest
  end.

(** [storeDualCredentials(chatId, sessionId, customerToken, entityId)] *)
Definition storeDualCredentials (vault : Vault)
    (chatId sessionId customerToken entityId : string) : M (bool * Vault) :=
  tryCatch (
    let* db := connectToDatabase env in
    collection db >>
    let* now := dateNow env in
    let* updatedAt := dateNow env in
    dbOp env >>
    let docs :=
      upsertCredentials
        (mkCredentialDoc chatId sessionId
           (mkCredentials customerToken entityId agentCredentials
                          (now + 28800000)) updatedAt)
        (dual_credentials vault) in
    let* now' := dateNow env in
    ret (true,
         mkVault docs
           (Some (<[chatId := mkCredentials customerToken entityId
                                agentCredentials (now' + 28800000)]>
                    (default ∅ (dualCredentials vault))))))
  (fun _ => ret (false, vault)).

(** [getDualCredentials(chatId)] *)
Definition getDualCredentials (vault : Vault) (chatId : string)
    : M (option Credentials * Vault) :=
  tryCatch (
    let* fromMemory :=
      match dualCredentials vault ≫= (fun m => m !! chatId) with
      | Some creds =>
          let* now := dateNow env in
          if (now <? cr_expiresAt creds)%Z then ret (Some creds)
          else ret None
      | None => ret None
      end in
    match fromMemory with
    | Some creds => ret (Some creds, vault)
    | None =>
        let* db := connectToDatabase env in
        collection db >>
        dbOp env >>
        match find (fun d => String.eqb (dc_chatId d) chatId)
                   (dual_credentials vault) with
        | Some doc =>
            let* now := dateNow env in
            if (now <? cr_expiresAt (dc_credentials doc))%Z then
              ret (Some (dc_credentials doc),
                   mkVault (dual_credentials vault)
                     (Some (<[chatId := dc_credentials doc]>
                              (default ∅ (dualCredentials vault)))))
            else ret (None, vault)
        | None => ret (None, vault)
        end
    end)
  (fun _ => ret (None, vault)).

End WithEnv.
End Database.

(** ** Properties: vocabulary *)

(** ISO timestamps: [new Date(d.toISOString()).getTime()] is
    [d.getTime()], and an ISO timestamp is never the empty string. *)
Definition iso_dates (env : Env) : Prop :=
  (forall t, dateParse env (toISOString env t) = Some t)
  /\ (forall t, toISOString env t <> "").

(** The two canonical roles. *)
Definition canonicalRole (role : string) : Prop :=
  role = "user" \/ role = "assistant".

(** A message list in ascending timestamp order, for the comparator the
    sort uses. *)
Fixpoint ascending (env : Env) (ms : list Message) : bool :=
  match ms with
  | [] => true
  | a :: rest =>
      forallb (fun b => (DataModels.compareTimestamps env a b <=? 0)%Z) rest
      && ascending env rest
  end.

(** The legacy pair [{ userMessage: "hi", botResponse: "hello" }]. *)
Definition rawPair : RawConversation :=
  mkRawConversation None None None None None (Some "hi") (Some "hello")
                    None None None None None None.

(** A decimal rendering of instants, standing in for ISO-8601 where a
    concrete environment is needed. *)
Definition demoISO (t : Z) : string :=
  DecimalString.NilZero.string_of_int (Z.to_int t).

Definition demoParse (s : string) : option Z :=
  Z.of_int <$> DecimalString.NilZero.int_of_string s.

(** An environment in which every collaborator answers: the clock
    advances by one millisecond per reading from [start], the analytics
    API returns the IDs [pg-41] and [pg-42]. *)
Definition demoEnvFrom (start : Z) : Env :=
  mkEnv (fun n => start + Z.of_nat n) (fun _ => "0.4fzyo82mvyr")
        (fun _ => "9b1deb4d-3b7d-4bad-9bdd-2b0d7b3dcb6d") (fun _ => Connected)
        (fun _ => false)
        (fun _ => FetchOk (MessageIds [Some "pg-41"; Some "pg-42"]))
        (fun _ => false) (fun _ => Some "hello") (fun _ => Some "")
        demoISO demoParse (fun s => s) (fun _ => false) (fun _ => "general").

Definition demoEnv : Env := demoEnvFrom 1700000000000.

(** Lines 962-984 of the [/chat] handler taken together: build the
    payload object and store it under [cacheKey]. *)
Definition cacheWrite (env : Env) (cacheKey : string) (payload : ResponseData)
    : M unit :=
  let* response := Server.newObject payload in
  Server.cachePut env cacheKey response.

(** The request is not turned away with status 400 (line 850). *)
Definition accepted (req : Server.ChatRequest) (userMessage : option string)
    : bool :=
  negb (negb (JS.truthyOpt userMessage)
        && (Server.count (Server.q_images req) =? 0)%nat
        && (Server.count (Server.q_files req) =? 0)%nat).

(** The stored sessions are usable: every cached session carries both
    identifiers, and every stored session document that names a
    conversation names its session too. *)
Definition wellFormed (w : World) : Prop :=
  (forall key s, sessionCache (proc w) !! key = Some s ->
     sessionId s <> "" /\ conversationId s <> "")
  /\ (forall d, d ∈ globalSessions (mongo w) ->
        d_conversationId d <> "" -> d_sessionId d <> "").

(** *** A program logic for [M] *)

(** From a state satisfying the invariant [I], the computation [m] ends
    in a state satisfying [I], whether it returns or throws, and a
    returned value satisfies [Q]. *)
Definition keeps {A} (I : World -> Prop) (m : M A) (Q : A -> Prop) : Prop :=
  forall w, I w ->
    match m w with
    | (Returns a, w') => I w' /\ Q a
    | (Throws _, w') => I w'
    end.

(** As [keeps], and [m] does not throw. *)
Definition returns {A} (I : World -> Prop) (m : M A) (Q : A -> Prop) : Prop :=
  forall w, I w -> exists a w', m w = (Returns a, w') /\ I w' /\ Q a.

(** The token has an existing session, cached or stored, whose idle gap
    at the clock reading the call compares against exceeds the timeout;
    [prior] is that session's conversation. *)
Inductive Stale (env : Env) (token : string) (w : World) (prior : string)
    : Prop :=
| stale_cached (s : Session) :
    sessionCache (proc w) !! token = Some s ->
    SessionManager.SESSION_TIMEOUT
      < clock env (nTime (cursors w)) - lastActivity s ->
    prior = conversationId s ->
    Stale env token w prior
| stale_stored (d : SessionDoc) (stored : Z) :
    sessionCache (proc w) !! token = None ->
    connectReply env (nDb (cursors w)) = Connected ->
    dbFails env (S (nDb (cursors w))) = false ->
    find (fun d => String.eqb (d_frontendSessionId d) token)
         (globalSessions (mongo w)) = Some d ->
    JS.truthy (d_conversationId d) = true ->
    dateParse env (d_lastActivity d) = Some stored ->
    SessionManager.SESSION_TIMEOUT < clock env (nTime (cursors w)) - stored ->
    prior = d_conversationId d ->
    Stale env token w prior.



(** Every conversation ID that names an instant for its own token, in
    the session cache or among the stored sessions, names an instant the
    clock has shown: the process has minted it. *)
Definition minted (env : Env) (w : World) : Prop :=
  (forall key s t0,
     sessionCache (proc w) !! key = Some s ->
     conversationId s = SessionManager.conversationIdAt key t0 ->
     exists j, (j < nTime (cursors w))%nat /\ t0 = clock env j)
  /\ (forall d t0,
        d ∈ globalSessions (mongo w) ->
        d_conversationId d
          = SessionManager.conversationIdAt (d_frontendSessionId d) t0 ->
        exists j, (j < nTime (cursors w))%nat /\ t0 = clock env j).


(** A Hoare triple for [M]: from a state satisfying [P] the computation
    returns a value and a state satisfying [Q], or throws into a state
    satisfying [E]. *)
Definition triple {A} (P : World -> Prop) (m : M A)
    (Q : A -> World -> Prop) (E : World -> Prop) : Prop :=
  forall w, P w ->
    match m w with
    | (Returns a, w') => Q a w'
    | (Throws _, w') => E w'
    end.

(** The conversation IDs are minted, and the clock has been read at
    least [n] times. *)
Definition order (env : Env) (n : nat) (w : World) : Prop :=
  minted env w /\ (n <= nTime (cursors w))%nat.

(** The conversation ID names no instant for the token, or one of the
    first [n] readings of the clock. *)
Definition mintedId (env : Env) (n : nat) (token conversationId : string)
    : Prop :=
  forall t0, conversationId = SessionManager.conversationIdAt token t0 ->
    exists j, (j < n)%nat /\ t0 = clock env j.

(** The session of token [s1], created at instant 0 and left idle. *)
Definition idleWorld : World :=
  (SessionManager.getOrCreateSession (demoEnvFrom 0) (Some "s1") emptyWorld).2.

(** Twenty-one minutes later. *)
Definition laterEnv : Env := demoEnvFrom (21 * 60 * 1000).


(** A clock that is set back by an hour after its third reading: it
    shows the instant 10000000 three times, 6400000 three times, and
    10000000 again from then on.  Every other collaborator answers. *)
Definition setBackEnv : Env :=
  mkEnv (fun n => if (n <? 3)%nat then 10000000
                  else if (n <? 6)%nat then 6400000 else 10000000)
        (random36 (demoEnvFrom 0)) (uuidv4 (demoEnvFrom 0))
        (connectReply (demoEnvFrom 0)) (dbFails (demoEnvFrom 0))
        (fetchReply (demoEnvFrom 0)) (pusherFails (demoEnvFrom 0))
        (completion (demoEnvFrom 0)) (processFilesReply (demoEnvFrom 0))
        demoISO demoParse (lowerTrim (demoEnvFrom 0))
        (icelandic (demoEnvFrom 0)) (detectTopic (demoEnvFrom 0)).

(** The state after two calls for [s1] under that clock: the first
    creates the session, the second, made after the clock was set back,
    reuses it. *)
Definition setBackWorld : World :=
  (SessionManager.getOrCreateSession setBackEnv (Some "s1")
     (SessionManager.getOrCreateSession setBackEnv (Some "s1")
        emptyWorld).2).2.

(** No stored mapping uses [localId] as a remote ID or [remoteId] as a
    local ID. *)
Definition uncrossed (localId remoteId : string) (docs : list MappingDoc)
    : Prop :=
  forall d, d ∈ docs -> postgresqlId d <> localId /\ mongodbId d <> remoteId.

(** [createMessageIdMapping] reported success. *)
Definition recorded (r : MessageProcessor.MappingResult) : Prop :=
  match r with
  | MessageProcessor.MappingFailed _ => False
  | _ => True
  end.

(** The document matches [{ $or: [{ mongodbId: a }, { postgresqlId: b }] }]. *)
Definition matches (a b : string) (d : MappingDoc) : bool :=
  String.eqb (mongodbId d) a || String.eqb (postgresqlId d) b.

(** Nothing but the cursors differs between the two states. *)
Definition sameStores (w0 w : World) : Prop :=
  mongo w = mongo w0 /\ analytics w = analytics w0 /\ proc w = proc w0
  /\ server w = server w0.

(** What [getOrCreateSession] leaves alone: everything but the cursors,
    the session cache and the stored sessions. *)
Definition sessionFrame (w0 w : World) : Prop :=
  conversations (mongo w) = conversations (mongo w0)
  /\ message_id_mappings (mongo w) = message_id_mappings (mongo w0)
  /\ analytics w = analytics w0
  /\ processedMessages (proc w) = processedMessages (proc w0)
  /\ analyticsSentMessages (proc w) = analyticsSentMessages (proc w0)
  /\ server w = server w0.

(** What [saveConversationToMongoDB] leaves alone. *)
Definition saveFrame (w0 w : World) : Prop :=
  globalSessions (mongo w) = globalSessions (mongo w0)
  /\ message_id_mappings (mongo w) = message_id_mappings (mongo w0)
  /\ analytics w = analytics w0 /\ proc w = proc w0 /\ server w = server w0.


(** The conversation assembled from a message pair: it carries the
    conversation's ID and holds the user's message and the assistant's
    reply under the two message IDs handed out, in either order. *)
Definition pairShape (conversationId userMessageId botMessageId userMessage
    botResponse : string) (conversationData : ConversationData) : Prop :=
  c_id conversationData = conversationId
  /\ exists u b,
       (c_messages conversationData = [u; b]
        \/ c_messages conversationData = [b; u])
       /\ m_id u = userMessageId /\ m_role u = "user" /\ m_type u = "user"
       /\ m_content u = userMessage
       /\ m_id b = botMessageId /\ m_role b = "assistant"
       /\ m_type b = "bot" /\ m_content b = botResponse.

(** A stored conversation after the messages of [conversationData] were
    pushed onto it and its [endedAt] and [lastActivity] were set. *)
Definition extended (conversationData : ConversationData) (now : Z)
    (stored : ConversationDoc) : ConversationDoc :=
  let c := cd_data stored in
  mkConversationDoc
    (mkConversationData (c_id c) (c_sessionId c) (c_clientId c)
       (c_messages c ++ c_messages conversationData) (c_startedAt c)
       (c_endedAt conversationData) (c_language c) (c_topic c) (c_status c))
    (cd_createdAt stored) now.

(** The conversation was written to the [conversations] collection,
    once: no document had its ID and it was appended as a new document,
    or the first document with its ID had its messages pushed on, every
    other document staying as it was. *)
Definition persistedOnce (conversationData : ConversationData)
    (before after : list ConversationDoc) : Prop :=
  ((forall d, d ∈ before -> c_id (cd_data d) <> c_id conversationData)
   /\ exists createdAt lastActivity,
        after = before ++ [mkConversationDoc conversationData (Some createdAt)
                                             lastActivity])
  \/ (exists earlier stored later now,
        before = earlier ++ stored :: later
        /\ (forall d, d ∈ earlier -> c_id (cd_data d) <> c_id conversationData)
        /\ c_id (cd_data stored) = c_id conversationData
        /\ after = earlier ++ extended conversationData now stored :: later).

(** The first request of the end-to-end scenario:
    [{ message: "hi", sessionId: "s1" }]. *)
Definition demoRequest : Server.ChatRequest :=
  Server.mkChatRequest None None (Some "hi") (Some "s1") None None None.

(** The pair of the end-to-end scenario. *)
Definition demoMetadata : MessageProcessor.Metadata :=
  MessageProcessor.mkMetadata (Some "s1") None None None None.

(** An environment whose store rejects every connection. *)
Definition offlineEnv : Env :=
  mkEnv (clock demoEnv) (random36 demoEnv) (uuidv4 demoEnv)
        (fun _ => Rejected) (dbFails demoEnv) (fetchReply demoEnv)
        (pusherFails demoEnv) (completion demoEnv) (processFilesReply demoEnv)
        demoISO demoParse (lowerTrim demoEnv) (icelandic demoEnv)
        (detectTopic demoEnv).

(** A conversation holding one assistant message, and a state in which
    that message's signature was forwarded, obtaining [pg-42]. *)
Definition forwardedConversation : ConversationData :=
  mkConversationData "s1_1" "s1" "svorum-strax"
    [mkMessage "bot-msg-2-9b1deb4d" "hello" "assistant" "bot" (demoISO 2) "en"
               None]
    (demoISO 0) (demoISO 3) "en" "general" "active".

Definition forwardedWorld : World :=
  MessageProcessor.setSent
    {[ MessageProcessor.botSignature forwardedConversation
       := mkSentEntry 4 (Some "pg-42") ]} emptyWorld.

(** A reply payload. *)
Definition demoPayload : ResponseData :=
  mkResponseData "hello" "s1" None "en" "general".

(** What [normalizeMessage] makes of a raw message, whatever the clock
    and the random source say. *)
Definition normalizes (raw : RawMessage) (m : Message) : Prop :=
  m_content m = JS.orElse (r_content raw) ""
  /\ m_role m = DataModels.determineRole raw
  /\ m_type m = (if String.eqb (DataModels.determineRole raw) "user"
                 then "user" else "bot")
  /\ (JS.truthyOpt (r_id raw) = true -> m_id m = JS.orElse (r_id raw) "").

(** The same for an element of a message array. *)
Definition normalizesElement (raw : option RawMessage) (m : Message) : Prop :=
  exists message, raw = Some message /\ normalizes message m.

(** *** Further vocabulary *)

(** The message's timestamp parses to an instant. *)
Definition timed (env : Env) (m : Message) : Prop :=
  is_Some (DataModels.getTime env (m_timestamp m)).

(** A legacy pair whose [startedAt] is not a date. *)
Definition undatedPair : RawConversation :=
  mkRawConversation None None None None None (Some "hi") (Some "hello")
                    (Some "yesterday") None None None None None.

(** A reply as the widget sends it: no role, [sender: "bot"]. *)
Definition botRaw : RawMessage :=
  mkRawMessage None (Some "hi") None (Some "bot") None None None None None.

(** Three messages out of order, the last two at the same instant. *)
Definition shuffled : list Message :=
  [mkMessage "m3" "c" "user" "user" (demoISO 7) "en" None;
   mkMessage "m1" "a" "user" "user" (demoISO 5) "en" None;
   mkMessage "m2" "b" "assistant" "bot" (demoISO 5) "en" None].

(** A thousand distinct signatures, oldest first. *)
Definition fullSet : list string :=
  (fun n => "s1_1:hi:" +:+ pretty n) <$> seq 0 1000.

(** Both texts are non-empty strings and the metadata is an object. *)
Definition complete (userMessage botResponse : option string)
    (metadata : option MessageProcessor.Metadata) : Prop :=
  JS.truthyOpt userMessage = true /\ JS.truthyOpt botResponse = true
  /\ is_Some metadata.

(** The four ways a call of [processMessagePair] ends. *)
Definition settled (userMessage botResponse : option string)
    (metadata : option MessageProcessor.Metadata)
    (r : MessageProcessor.PairResult) : Prop :=
  match r with
  | MessageProcessor.PairSuccess _ _ _ _ =>
      complete userMessage botResponse metadata
  | MessageProcessor.PairFailure error _ =>
      (error = "processing_error"
       /\ (userMessage = None \/ botResponse = None \/ metadata = None))
      \/ (error = "incomplete_message_pair"
          /\ is_Some userMessage /\ is_Some botResponse /\ is_Some metadata
          /\ (userMessage = Some "" \/ botResponse = Some ""))
      \/ (error = "duplicate_message"
          /\ complete userMessage botResponse metadata)
  end.

(** The conversation IDs of the stored conversations, in order. *)
Definition conversationIds (docs : list ConversationDoc) : list string :=
  (fun d => c_id (cd_data d)) <$> docs.

(** Every stored conversation is still in its place, under its ID, and
    the messages it had are a prefix of the messages it has. *)
Definition extendsConversations (before after : list ConversationDoc)
    : Prop :=
  forall i d, before !! i = Some d ->
    exists d', after !! i = Some d'
      /\ c_id (cd_data d') = c_id (cd_data d)
      /\ c_messages (cd_data d) `prefix_of` c_messages (cd_data d').


(** What [createMessageIdMapping] leaves alone. *)
Definition mappingFrame (w0 w : World) : Prop :=
  globalSessions (mongo w) = globalSessions (mongo w0)
  /\ conversations (mongo w) = conversations (mongo w0)
  /\ analytics w = analytics w0 /\ proc w = proc w0 /\ server w = server w0.

(** What a call of [createMessageIdMapping] that resolved to [r] made
    of the [message_id_mappings] collection. *)
Definition mappingOutcome (content : option string)
    (r : MessageProcessor.MappingResult) (before after : list MappingDoc)
    : Prop :=
  match r with
  | MessageProcessor.MappingFailed _ => after = before
  | MessageProcessor.MappingUpdated a b =>
      exists i d now,
        MessageProcessor.findMapping a b before = Some (i, d)
        /\ after = alter (MessageProcessor.remap a b content now) i before
  | MessageProcessor.MappingCreated a b i =>
      i = length before
      /\ (forall d, d ∈ before -> matches a b d = false)
      /\ exists d, after = before ++ [d]
                   /\ mongodbId d = a /\ postgresqlId d = b
  end.

(** The conversation is not held back by the forwarding gate. *)
Definition unforwarded (conversationData : ConversationData) (w : World)
    : Prop :=
  (if MessageProcessor.hasBotMessages conversationData
   then analyticsSentMessages (proc w)
          !! MessageProcessor.botSignature conversationData
   else None) = None.

(** The forwarding about to be made is not acknowledged: the request
    fails, the answer is not OK, cannot be parsed or carries no message
    array, or the store rejects the connection that is asked for once
    the array has arrived.  An answer with a message array counts as an
    acknowledgement for the code even when the array is empty or its
    elements carry no ID. *)
Definition unacknowledged (env : Env) (w : World) : Prop :=
  match fetchReply env (nFetch (cursors w)) with
  | FetchOk (MessageIds _) => connectReply env (nDb (cursors w)) = Rejected
  | _ => True
  end.

(** [analyticsResponse.ok], false also when [fetch] itself failed. *)
Definition answered (reply : FetchReply) : bool :=
  match reply with FetchOk _ => true | _ => false end.

(** An environment whose analytics API cannot be reached. *)
Definition unreachableEnv : Env :=
  mkEnv (clock demoEnv) (random36 demoEnv) (uuidv4 demoEnv)
        (connectReply demoEnv) (dbFails demoEnv) (fun _ => FetchThrows)
        (pusherFails demoEnv) (completion demoEnv) (processFilesReply demoEnv)
        demoISO demoParse (lowerTrim demoEnv) (icelandic demoEnv)
        (detectTopic demoEnv).

(** The stored sessions are as they were, or one of them had its
    [lastActivity] set. *)
Definition touched (conversationId : string) (before after : list SessionDoc)
    : Prop :=
  after = before
  \/ exists iso,
       after = SessionManager.setLastActivity conversationId iso before.

(** The token has a stored session that has not timed out: it is not
    cached, the store answers, and the first stored document of the
    token names a conversation and was active within the timeout, or
    its [lastActivity] is not a date. *)
Definition Live (env : Env) (token : string) (w : World) (d : SessionDoc)
    : Prop :=
  sessionCache (proc w) !! token = None
  /\ connectReply env (nDb (cursors w)) = Connected
  /\ dbFails env (S (nDb (cursors w))) = false
  /\ find (fun d => String.eqb (d_frontendSessionId d) token)
          (globalSessions (mongo w)) = Some d
  /\ JS.truthy (d_conversationId d) = true
  /\ forall stored, dateParse env (d_lastActivity d) = Some stored ->
       clock env (nTime (cursors w)) - stored
         <= SessionManager.SESSION_TIMEOUT.

(** The token has no usable stored session: it is not cached, the
    store accepts the connection, and the lookup finds nothing, finds a
    document that names no conversation, or is rejected. *)
Inductive Unknown (env : Env) (token : string) (w : World) : Prop :=
| unknown_absent :
    sessionCache (proc w) !! token = None ->
    connectReply env (nDb (cursors w)) = Connected ->
    dbFails env (S (nDb (cursors w))) = false ->
    find (fun d => String.eqb (d_frontendSessionId d) token)
         (globalSessions (mongo w)) = None ->
    Unknown env token w
| unknown_unnamed (d : SessionDoc) :
    sessionCache (proc w) !! token = None ->
    connectReply env (nDb (cursors w)) = Connected ->
    dbFails env (S (nDb (cursors w))) = false ->
    find (fun d => String.eqb (d_frontendSessionId d) token)
         (globalSessions (mongo w)) = Some d ->
    JS.truthy (d_conversationId d) = false ->
    Unknown env token w
| unknown_unread :
    sessionCache (proc w) !! token = None ->
    connectReply env (nDb (cursors w)) = Connected ->
    dbFails env (S (nDb (cursors w))) = true ->
    Unknown env token w.

(** An environment whose clock starts one minute after instant 0. *)
Definition soonEnv : Env := demoEnvFrom (60 * 1000).

(** The store of [idleWorld] after a restart: the session cache is
    empty. *)
Definition restartedWorld : World :=
  withProc (fun p => mkProcess ∅ (processedMessages p)
                               (analyticsSentMessages p)) idleWorld.

(** When [m] returns a session, the session cache holds it under
    [token]. *)
Definition lands (token : string) (m : M Session) : Prop :=
  forall w,
    match m w with
    | (Returns s, w') => sessionCache (proc w') !! token = Some s
    | (Throws _, _) => True
    end.

(** The conversation a store lookup finds for a token: that of the
    first stored document of the token. *)
Definition storedConversation (token : string) (w : World) : option string :=
  d_conversationId
    <$> find (fun d => String.eqb (d_frontendSessionId d) token)
             (globalSessions (mongo w)).

(** The payload a request with this cache key would be served from the
    response cache, if any. *)
Definition served (env : Env) (cacheKey : string) (w : World)
    : option ResponseData :=
  match (Server.cacheGet env cacheKey w).1 with
  | Returns (Server.Hit payload) => Some payload
  | _ => None
  end.

(** The state after the first request of the end-to-end scenario. *)
Definition answeredWorld : World :=
  (Server.chat demoEnv demoRequest emptyWorld).2.

(** Every chat history holds at most eleven turns: the last ten, and
    the reply to the tenth. *)
Definition boundedHistories (w : World) : Prop :=
  forall sessionId turns,
    sessions (server w) !! sessionId = Some turns ->
    (length turns <= 11)%nat.

(** The response cache and the payload objects are as they were. *)
Definition sameCache (w0 w : World) : Prop :=
  responseCache (server w) = responseCache (server w0)
  /\ heap (server w) = heap (server w0).

(** What a call of [submitMessageFeedback] that resolved to [r] made of
    the feedback collection and of the requests to the analytics API. *)
Definition submitOutcome (messageId : string) (isPositive : bool)
    (comment : option string) (r : Feedback.SubmitResult)
    (before after : FeedbackStore) : Prop :=
  match r with
  | Feedback.SubmitFailed _ => after = before
  | Feedback.Submitted id remote =>
      id = messageId
      /\ (exists timestamp,
            message_feedback after
            = message_feedback before
                ++ [mkFeedbackDoc messageId remote isPositive comment
                                  timestamp])
      /\ feedbackPosts after
         = feedbackPosts before
             ++ [mkFeedbackPost (JS.orElse remote messageId) isPositive
                                comment]
  end.

(** No feedback is stored for the message, under its local ID or under
    the remote ID [pgId]. *)
Definition unrated (messageId pgId : string) (store : FeedbackStore) : Prop :=
  Feedback.findFeedback messageId pgId (message_feedback store) = None.

(** The store answers the next connection and every call made on it. *)
Definition reachable (env : Env) (w : World) : Prop :=
  connectReply env (nDb (cursors w)) = Connected
  /\ forall n, dbFails env n = false.

(** A feedback API that knows of no feedback. *)
Definition silentApi : nat -> FeedbackReply := fun _ => FeedbackNoRating.

(** No feedback stored, no request issued. *)
Definition emptyFeedback : FeedbackStore := mkFeedbackStore [] [].

(** The remote ID [getMessageFeedback] looks feedback up under:
    [mapping?.postgresqlId || messageId]. *)
Definition remoteIdOf (messageId : string) (w : World) : string :=
  JS.orElse
    (postgresqlId
       <$> (snd <$> MessageProcessor.findMapping messageId messageId
                      (message_id_mappings (mongo w))))
    messageId.

(** The view [getMessageFeedback] gives of a stored document. *)
Definition viewOf (d : FeedbackDoc) : Feedback.FeedbackView :=
  Feedback.mkFeedbackView (fb_isPositive d)
    (Feedback.DateStamp (fb_timestamp d)) (fb_comment d).

(** A feedback collection holding one negative rating of [msg-7]. *)
Definition ratedFeedback : FeedbackStore :=
  mkFeedbackStore [mkFeedbackDoc "msg-7" None false (Some "wrong") 5] [].

(** The same after [msg-7] was rated again, positively. *)
Definition ratedTwice : FeedbackStore :=
  mkFeedbackStore
    [mkFeedbackDoc "msg-7" None false (Some "wrong") 5;
     mkFeedbackDoc "msg-7" None true None 1700000000000]
    [mkFeedbackPost "msg-7" true None].

(** A feedback collection holding one positive rating of [msg-7]. *)
Definition ratedOnce : FeedbackStore :=
  mkFeedbackStore [mkFeedbackDoc "msg-7" None true None 1700000000000]
                  [mkFeedbackPost "msg-7" true None].

(** What MongoDB's TTL monitor leaves of [recent_messages] when it runs
    at the instant [now]: with the index in place, the documents that
    have not expired. *)
Definition expire (now : Z) (recent : Recent) : Recent :=
  if ttlIndex recent
  then mkRecent (filter (fun d => now < rm_expiresAt d)
                        (recent_messages recent)) true
  else recent.

(** The process was restarted: [global.dualCredentials] is gone. *)
Definition restarted (vault : Vault) : Vault :=
  mkVault (dual_credentials vault) None.

(** No recent message, no index. *)
Definition emptyRecent : Recent := mkRecent [] false.

(** No credentials, in the store or in memory. *)
Definition emptyVault : Vault := mkVault [] None.

(** The vault after credentials were stored for [chat-1] at the start
    of the demonstration clock. *)
Definition storedVault : Vault :=
  mkVault
    [mkCredentialDoc "chat-1" "s1"
       (mkCredentials "token" "entity" "agent" 1700028800000) 1700000000001]
    (Some {[ "chat-1" := mkCredentials "token" "entity" "agent"
                           1700028800002 ]}).

(** * Properties *)

(** ** Strings *)

Lemma truthy_nonempty s : JS.truthy s = true <-> s <> "".
Proof. destruct s; simpl; split; congruence. Qed.

(** [substring] counts UTF-16 code units: two letters of one and two
    bytes; an emoji of two code units kept whole, the text after it cut
    off; and the same emoji cut in two, which leaves its high surrogate
    [D83D], the bytes [ED A0 BD]. *)
Example prefix_counts_code_units :
  JS.prefix 2 "það er" = "þa"
  /\ JS.prefix 2 "😀x" = "😀"
  /\ JS.prefix 3 "😀x" = "😀x"
  /\ JS.prefix 1 "😀x"
     = String (Ascii.ascii_of_nat 237)
         (String (Ascii.ascii_of_nat 160)
            (String (Ascii.ascii_of_nat 189) EmptyString)).
Proof. repeat split; vm_compute; reflexivity. Qed.

Lemma append_inj_l a b c : a +:+ b = a +:+ c -> b = c.
Proof. induction a; simpl; intros H; [done|]. injection H; auto. Qed.

Lemma numToString_inj a b : JS.numToString a = JS.numToString b -> a = b.
Proof. apply (inj pretty). Qed.

Lemma demo_iso_dates start : iso_dates (demoEnvFrom start).
Proof.
  split; intros t; simpl; unfold demoParse, demoISO.
  - rewrite DecimalString.NilZero.isi.
    + simpl. by rewrite DecimalZ.of_to.
    + destruct t; simpl; try discriminate.
      intros [= H]. exact (DecimalPos.Unsigned.to_uint_nonnil p H).
    + destruct t; simpl; try discriminate.
      intros [= H]. exact (DecimalPos.Unsigned.to_uint_nonnil p H).
  - destruct t; simpl; try discriminate.
    destruct (Pos.to_uint p); simpl; discriminate.
Qed.

(** ** dataModels.js *)

(** What [normalizeMessage] does with roles: a recognised alias yields a
    canonical role, anything else yields [defaultRole] as supplied, or
    ["user"] when there is none. *)
Lemma determineRole_cases (message : RawMessage) :
  canonicalRole (DataModels.determineRole message)
  \/ r_defaultRole message = Some (DataModels.determineRole message).
Proof.
  unfold DataModels.determineRole, canonicalRole.
  repeat case_match; auto.
  unfold JS.orElse. repeat case_match; auto.
Qed.

(** C8, at the input [{ content: "hi", defaultRole: "system" }]: the
    message [normalizeMessage] returns has the role ["system"], which is
    neither ["user"] nor ["assistant"]. *)
Theorem normalizeMessage_role_not_canonical :
  let message :=
    mkRawMessage None (Some "hi") None None None (Some "system") None None
                 None in
  exists m w',
    DataModels.normalizeMessage demoEnv (Some message) emptyWorld
      = (Returns m, w')
    /\ m_role m = "system"
    /\ ~ canonicalRole (m_role m).
Proof.
  do 2 eexists. split; [vm_compute; reflexivity|].
  split; [reflexivity|]. intros [H|H]; discriminate H.
Qed.

(** Without a [defaultRole], or with a canonical one, the role is
    canonical. *)
Lemma normalizeMessage_role_canonical env (message : RawMessage) w m w' :
  (forall r, r_defaultRole message = Some r -> r = "" \/ canonicalRole r) ->
  DataModels.normalizeMessage env (Some message) w = (Returns m, w') ->
  canonicalRole (m_role m).
Proof.
  intros Hd H.
  assert (m_role m = DataModels.determineRole message) as ->.
  { unfold DataModels.normalizeMessage, bind, ret in H.
    repeat case_match; simplify_eq; reflexivity. }
  unfold DataModels.determineRole, canonicalRole.
  repeat case_match; auto.
  unfold JS.orElse.
  destruct (r_defaultRole message) as [r|]; [|auto].
  destruct (Hd r eq_refl) as [->|[->| ->]]; simpl; auto.
Qed.

Lemma truthy_iso env t : iso_dates env -> JS.truthy (toISOString env t) = true.
Proof. intros [_ H]. apply truthy_nonempty, H. Qed.

(** C7: a raw pair [{ userMessage: "hi", botResponse: "hello" }] is
    normalised to a conversation with a non-empty [id] and exactly two
    messages, the first with role ["user"], the second with role
    ["assistant"], the second timestamped strictly after the first, and
    the message list in ascending timestamp order. *)
Theorem normalizeConversation_legacy_pair env w :
  iso_dates env ->
  exists c w' user bot tu tb,
    DataModels.normalizeConversation env (Some rawPair) w = (Returns c, w')
    /\ c_id c <> ""
    /\ c_messages c = [user; bot]
    /\ m_role user = "user" /\ m_content user = "hi"
    /\ m_role bot = "assistant" /\ m_content bot = "hello"
    /\ DataModels.getTime env (m_timestamp user) = Some tu
    /\ DataModels.getTime env (m_timestamp bot) = Some tb
    /\ tu < tb
    /\ ascending env (c_messages c) = true.
Proof.
  intros Hiso. pose proof Hiso as [Hrt Hne].
  unfold DataModels.normalizeConversation, DataModels.normalizeMessage,
    DataModels.oneMillisecondAfter, DataModels.getTime, rawPair,
    Runtime.newDateISO, Runtime.dateNow, Runtime.mathRandom36, bind, ret.
  cbn [rc_id rc_sessionId rc_chatId rc_clientId rc_messages rc_userMessage
       rc_botResponse rc_startedAt rc_startTime rc_endedAt rc_language
       rc_topic rc_status JS.truthyOpt JS.orOpt JS.orElse JS.truthy
       DataModels.someRole existsb andb negb r_id r_timestamp r_content
       r_role r_sender r_type r_defaultRole r_language r_postgresqlId app].
  rewrite !(truthy_iso env _ Hiso), !Hrt.
  cbn -[JS.numToString JS.slice String.append Z.add].
  rewrite !(truthy_iso env _ Hiso).
  unfold DataModels.sortMessages; cbn [fold_left DataModels.insertSorted].
  unfold DataModels.compareTimestamps, DataModels.getTime; cbn [m_timestamp].
  rewrite !Hrt.
  set (t := clock env (S (nTime (cursors w)))).
  replace (0 <? t - (t + 1))%Z with false by (symmetry; apply Z.ltb_ge; lia).
  eexists _, _, _, _, t, (t + 1).
  split; [reflexivity|].
  cbn [c_id c_messages m_role m_content m_timestamp].
  repeat split; try reflexivity; try lia.
  - discriminate.
  - apply Hrt.
  - apply Hrt.
  - unfold ascending, DataModels.compareTimestamps, DataModels.getTime.
    cbn [forallb m_timestamp]. rewrite !Hrt.
    replace (t - (t + 1) <=? 0)%Z with true by (symmetry; apply Z.leb_le; lia).
    reflexivity.
Qed.


(** ** The response cache *)

(** C5: a payload written to the cache is returned unchanged by a read
    made while less than one hour has passed since the write; a read
    made one hour or more after the write is a miss although the entry is
    still in the cache, no sweep having removed it. *)
Theorem responseCache_roundtrip env cacheKey payload w w1 w2 :
  cacheWrite env cacheKey payload w = (Returns tt, w1) ->
  server w2 = server w1 ->
  let written := clock env (nTime (cursors w)) in
  let now := clock env (nTime (cursors w2)) in
  (now - written < Server.CACHE_TTL ->
     exists w3, Server.cacheGet env cacheKey w2 = (Returns (Server.Hit payload), w3))
  /\ (Server.CACHE_TTL <= now - written ->
        exists entry w3,
          Server.cacheGet env cacheKey w2 = (Returns (Server.Miss (Some entry)), w3)
          /\ responseCache (server w3) !! cacheKey = Some entry).
Proof.
  intros Hput Hsame.
  unfold cacheWrite, Server.newObject, Server.cachePut, bind, modify,
    Runtime.dateNow in Hput.
  cbn in Hput. injection Hput as <-.
  assert (responseCache (server w2) !! cacheKey
          = Some (mkCacheEntry (nextRef (server w))
                               (clock env (nTime (cursors w))))) as Hentry.
  { rewrite Hsame. cbn. apply lookup_insert_eq. }
  assert (heap (server w2) !! nextRef (server w) = Some payload) as Hheap.
  { rewrite Hsame. cbn. apply lookup_insert_eq. }
  cbv zeta. split; intros Hage.
  - unfold Server.cacheGet, Server.readObject, bind, gets, ret, Runtime.dateNow.
    rewrite Hentry. cbn [ce_timestamp ce_response].
    replace (_ <? _)%Z with true by (symmetry; apply Z.ltb_lt; lia).
    cbn. rewrite Hheap. eauto.
  - unfold Server.cacheGet, Server.readObject, bind, gets, ret, Runtime.dateNow.
    rewrite Hentry. cbn [ce_timestamp ce_response].
    replace (_ <? _)%Z with false by (symmetry; apply Z.ltb_ge; lia).
    cbn. eauto.
Qed.

(** ** The forwarding gate *)

(** C3: when the signature of the conversation's assistant messages is
    already in [analyticsSentMessages], [sendConversationToAnalytics]
    returns the remote ID recorded for that signature, flagged as
    deduplicated, and nothing happens besides one reading of the clock:
    no request is issued and no stored state changes. *)
Theorem sendConversationToAnalytics_short_circuit env conversationData w
    previouslySent :
  MessageProcessor.hasBotMessages conversationData = true ->
  analyticsSentMessages (proc w)
    !! MessageProcessor.botSignature conversationData = Some previouslySent ->
  MessageProcessor.sendConversationToAnalytics env conversationData w
  = (Returns (MessageProcessor.mkAnalyticsResult true
                (se_postgresqlId previouslySent) true),
     withCursors Runtime.tickTime w).
Proof.
  intros Hbot Hsent.
  unfold MessageProcessor.sendConversationToAnalytics, tryCatch, bind, gets.
  rewrite Hbot, Hsent. reflexivity.
Qed.

(** ** The [/chat] handler on a cache hit *)

(** C10: when the cache check of the [/chat] handler is a hit, the
    handler replies with the cached payload and schedules nothing; the
    session cache (so every [lastActivity]), the durable store, the
    requests issued to the analytics API and the server's own state are
    what they were, and no call went to the store, to the analytics API,
    to Pusher or to the model. *)
Theorem chat_cache_hit env req w userMessage sessionId payload w2 w3 :
  Server.readRequest env req (withCursors Runtime.tickTime w)
    = (Returns (userMessage, sessionId), w2) ->
  accepted req userMessage = true ->
  Server.cacheGet env (Server.cacheKeyOf env req userMessage sessionId) w2
    = (Returns (Server.Hit payload), w3) ->
  Server.chat env req w
    = (Returns (Server.mkHttpReply 200 (Server.Payload payload), None), w3)
  /\ proc w3 = proc w
  /\ mongo w3 = mongo w
  /\ analytics w3 = analytics w
  /\ server w3 = server w
  /\ nDb (cursors w3) = nDb (cursors w)
  /\ nFetch (cursors w3) = nFetch (cursors w)
  /\ nPusher (cursors w3) = nPusher (cursors w)
  /\ nCompletion (cursors w3) = nCompletion (cursors w).
Proof.
  intros Hreq Hacc Hget.
  split.
  - unfold Server.chat, tryCatch, bind, Runtime.dateNow at 1.
    rewrite Hreq. cbn [fst snd].
    unfold accepted in Hacc. apply negb_true_iff in Hacc. rewrite Hacc.
    rewrite Hget. reflexivity.
  - assert (proc w2 = proc w /\ mongo w2 = mongo w /\ analytics w2 = analytics w
            /\ server w2 = server w /\ nDb (cursors w2) = nDb (cursors w)
            /\ nFetch (cursors w2) = nFetch (cursors w)
            /\ nPusher (cursors w2) = nPusher (cursors w)
            /\ nCompletion (cursors w2) = nCompletion (cursors w)) as Hw2.
    { revert Hreq.
      unfold Server.readRequest, Server.orNewSession, bind, ret,
        Runtime.dateNow.
      repeat case_match; intros; simplify_eq; cbn; auto 10. }
    destruct Hw2 as (<- & <- & <- & <- & <- & <- & <- & <-).
    revert Hget.
    unfold Server.cacheGet, Server.readObject, bind, ret, gets, throw,
      Runtime.dateNow.
    repeat case_match; intros; simplify_eq; cbn; auto 10.
Qed.

(** ** The program logic *)

Section ProgramLogic.
Context (I : World -> Prop).

Lemma returns_keeps {A} (m : M A) Q : returns I m Q -> keeps I m Q.
Proof. intros H w Hw. destruct (H w Hw) as (a & w' & -> & ? & ?). auto. Qed.

Lemma keeps_ret {A} (a : A) (Q : A -> Prop) : Q a -> keeps I (ret a) Q.
Proof. intros ? w ?. simpl. auto. Qed.

Lemma returns_ret {A} (a : A) (Q : A -> Prop) : Q a -> returns I (ret a) Q.
Proof. intros ? w ?. exists a, w. auto. Qed.

Lemma keeps_throw {A} e (Q : A -> Prop) : keeps I (throw e) Q.
Proof. intros w ?. simpl. auto. Qed.

Lemma keeps_bind {A B} (m : M A) (k : A -> M B) Q1 Q2 :
  keeps I m Q1 -> (forall a, Q1 a -> keeps I (k a) Q2) -> keeps I (bind m k) Q2.
Proof.
  intros Hm Hk w Hw. unfold bind. specialize (Hm w Hw).
  destruct (m w) as [[a|e] w']; [|done].
  destruct Hm as [Hw' Ha]. exact (Hk a Ha w' Hw').
Qed.

Lemma returns_bind {A B} (m : M A) (k : A -> M B) Q1 Q2 :
  returns I m Q1 -> (forall a, Q1 a -> returns I (k a) Q2) ->
  returns I (bind m k) Q2.
Proof.
  intros Hm Hk w Hw. unfold bind.
  destruct (Hm w Hw) as (a & w' & -> & Hw' & Ha). exact (Hk a Ha w' Hw').
Qed.

Lemma keeps_tryCatch {A} (m : M A) h Q :
  keeps I m Q -> (forall e, keeps I (h e) Q) -> keeps I (tryCatch m h) Q.
Proof.
  intros Hm Hh w Hw. unfold tryCatch. specialize (Hm w Hw).
  destruct (m w) as [[a|e] w']; [done|]. exact (Hh e w' Hm).
Qed.

Lemma returns_tryCatch {A} (m : M A) h Q :
  keeps I m Q -> (forall e, returns I (h e) Q) -> returns I (tryCatch m h) Q.
Proof.
  intros Hm Hh w Hw. unfold tryCatch. specialize (Hm w Hw).
  destruct (m w) as [[a|e] w']; [|exact (Hh e w' Hm)].
  destruct Hm. eauto.
Qed.

Lemma keeps_weaken {A} (m : M A) (Q Q' : A -> Prop) :
  keeps I m Q -> (forall a, Q a -> Q' a) -> keeps I m Q'.
Proof.
  intros Hm HQ w Hw. specialize (Hm w Hw).
  destruct (m w) as [[a|e] w']; [|done]. destruct Hm. auto.
Qed.

Lemma returns_weaken {A} (m : M A) (Q Q' : A -> Prop) :
  returns I m Q -> (forall a, Q a -> Q' a) -> returns I m Q'.
Proof.
  intros Hm HQ w Hw. destruct (Hm w Hw) as (a & w' & ? & ? & ?). eauto 6.
Qed.

Lemma returns_gets {A} (f : World -> A) (Q : A -> Prop) :
  (forall w, I w -> Q (f w)) -> returns I (gets f) Q.
Proof. intros H w Hw. exists (f w), w. auto. Qed.

Lemma returns_modify (f : World -> World) :
  (forall w, I w -> I (f w)) -> returns I (modify f) (fun _ => True).
Proof. intros H w Hw. exists tt, (f w). auto. Qed.

(** The collaborators only move cursors. *)
Hypothesis I_cursors : forall f w, I w -> I (withCursors f w).

Lemma returns_dateNow env : returns I (Runtime.dateNow env) (fun _ => True).
Proof. intros w Hw. do 2 eexists. split; [reflexivity|]. auto. Qed.

Lemma returns_newDateISO env :
  returns I (Runtime.newDateISO env) (fun _ => True).
Proof. intros w Hw. do 2 eexists. split; [reflexivity|]. auto. Qed.

Lemma returns_mathRandom36 env :
  returns I (Runtime.mathRandom36 env) (fun _ => True).
Proof. intros w Hw. do 2 eexists. split; [reflexivity|]. auto. Qed.

Lemma returns_newUuid env : returns I (Runtime.newUuid env) (fun _ => True).
Proof. intros w Hw. do 2 eexists. split; [reflexivity|]. auto. Qed.

Lemma keeps_connectToDatabase env :
  keeps I (Runtime.connectToDatabase env) (fun _ => True).
Proof.
  intros w Hw. unfold Runtime.connectToDatabase.
  destruct (connectReply env _); auto.
Qed.

Lemma keeps_collection db : keeps I (Runtime.collection db) (fun _ => True).
Proof. intros w Hw. destruct db; simpl; auto. Qed.

Lemma keeps_dbOp env : keeps I (Runtime.dbOp env) (fun _ => True).
Proof.
  intros w Hw. unfold Runtime.dbOp. destruct (dbFails env _); auto.
Qed.

End ProgramLogic.

Create HintDb logic.

#[local] Hint Resolve returns_dateNow returns_newDateISO returns_mathRandom36
  returns_newUuid keeps_connectToDatabase keeps_collection keeps_dbOp
  returns_keeps keeps_throw : logic.

(** One step through a [bind], its first computation being handled by
    the hint base. *)
Tactic Notation "returns_step" "as" simple_intropattern(x) :=
  eapply returns_bind; [solve [eauto with logic] | intros x _].
Tactic Notation "keeps_step" "as" simple_intropattern(x) :=
  eapply keeps_bind; [solve [eauto with logic] | intros x _].
Ltac returns_step := returns_step as ?.
Ltac keeps_step := keeps_step as ?.

(** ** sessionManager.js *)

Lemma conversationIdAt_nonempty tok t : SessionManager.conversationIdAt tok t <> "".
Proof.
  unfold SessionManager.conversationIdAt. destruct tok; simpl; discriminate.
Qed.

Lemma orElse_truthy o d : JS.truthyOpt o = true -> JS.orElse o d <> "".
Proof.
  destruct o as [s|]; simpl; [|discriminate].
  intros H. rewrite H. by apply truthy_nonempty.
Qed.

Lemma orElse_nonempty o d : d <> "" -> JS.orElse o d <> "".
Proof.
  intros Hd. destruct o as [s|]; simpl; [|done].
  destruct (JS.truthy s) eqn:E; [by apply truthy_nonempty|done].
Qed.

(** [getOrCreateSession] against an invariant [I] of the state and a
    property [good] of sessions, under what the proof needs of them. *)
Section SessionInvariant.
Variable env : Env.
Variable I : World -> Prop.
Variable good : Session -> Prop.

Hypothesis I_cursors : forall f w, I w -> I (withCursors f w).
Hypothesis I_cached : forall key s w,
  I w -> sessionCache (proc w) !! key = Some s -> good s.
Hypothesis I_cacheSet : forall key s w,
  I w -> good s ->
  I (withProc (fun p =>
       mkProcess (<[key := s]> (sessionCache p)) (processedMessages p)
                 (analyticsSentMessages p)) w).
Hypothesis I_insert : forall d w,
  I w -> d_sessionId d <> "" ->
  I (SessionManager.setGlobalSessions (globalSessions (mongo w) ++ [d]) w).
Hypothesis I_update : forall c iso w,
  I w ->
  I (SessionManager.setGlobalSessions
       (SessionManager.setLastActivity c iso (globalSessions (mongo w))) w).
Hypothesis I_found : forall d w t,
  I w -> d ∈ globalSessions (mongo w) -> d_conversationId d <> "" ->
  good (mkSession (d_sessionId d) (d_conversationId d) (d_startedAt d) t
                  false None).
Hypothesis good_touch : forall s t,
  good s ->
  good (mkSession (sessionId s) (conversationId s) (startedAt s) t
                  (isNewSession s) (previousConversationId s)).
Hypothesis good_minted : forall sid cid started t new,
  sid <> "" -> cid <> "" -> good (mkSession sid cid started t new None).

#[local] Hint Resolve I_cursors : logic.

Lemma returns_cacheSet key s :
  good s -> returns I (SessionManager.cacheSet key s) (fun _ => True).
Proof. intros ?. apply returns_modify. auto. Qed.

Lemma keeps_insertOneSession d :
  d_sessionId d <> "" ->
  keeps I (SessionManager.insertOneSession env d) (fun _ => True).
Proof.
  intros ?. unfold SessionManager.insertOneSession. keeps_step.
  apply returns_keeps, returns_modify. auto.
Qed.

Lemma keeps_updateOneActivity c iso :
  keeps I (SessionManager.updateOneActivity env c iso) (fun _ => True).
Proof.
  unfold SessionManager.updateOneActivity. keeps_step.
  apply returns_keeps, returns_modify. auto.
Qed.

Lemma returns_bestEffort m :
  keeps I m (fun _ => True) ->
  returns I (SessionManager.bestEffort m) (fun _ => True).
Proof.
  intros ?. apply returns_tryCatch; [done|]. intros _. by apply returns_ret.
Qed.

Lemma keeps_findOneSession tok :
  keeps I (SessionManager.findOneSession env tok)
    (fun o => forall d t, o = Some d -> d_conversationId d <> "" ->
       good (mkSession (d_sessionId d) (d_conversationId d) (d_startedAt d)
                       t false None)).
Proof.
  unfold SessionManager.findOneSession. keeps_step.
  apply returns_keeps, returns_gets. intros w Hw d t Hd Hc.
  apply (I_found d w t Hw); [|done].
  apply find_some in Hd as [Hd _]. by apply list_elem_of_In.
Qed.

Lemma returns_fromCache fid s :
  fid <> "" -> good s -> returns I (SessionManager.fromCache env fid s) good.
Proof.
  intros Hfid Hs. unfold SessionManager.fromCache. returns_step as now.
  match goal with |- returns _ (if ?b then _ else _) _ => destruct b end.
  - returns_step as t. returns_step as started. returns_step as activity.
    assert (good (mkSession fid (SessionManager.conversationIdAt fid t)
                            started activity true None)) as Hnew
      by (apply good_minted; [done|apply conversationIdAt_nonempty]).
    eapply returns_bind; [by apply returns_cacheSet|intros _ _].
    eapply returns_bind; [|intros _ _; by apply returns_ret].
    apply returns_bestEffort. do 4 keeps_step.
    by apply keeps_insertOneSession.
  - returns_step.
    eapply returns_bind; [apply returns_cacheSet; by apply good_touch|].
    intros _ _.
    eapply returns_bind; [|intros _ _; apply returns_ret; by apply good_touch].
    apply returns_bestEffort. do 3 keeps_step.
    apply keeps_updateOneActivity.
Qed.

Lemma returns_createSession fid now :
  fid <> "" -> returns I (SessionManager.createSession env fid now) good.
Proof.
  intros Hfid. unfold SessionManager.createSession. returns_step as t.
  eapply returns_bind;
    [apply returns_bestEffort; by apply keeps_insertOneSession|intros _ _].
  returns_step as activity.
  cbn [SessionManager.freshDoc d_sessionId d_conversationId d_startedAt].
  assert (good (mkSession fid (SessionManager.conversationIdAt fid t)
                          (toISOString env now) activity true None)) as Hnew
    by (apply good_minted; [done|apply conversationIdAt_nonempty]).
  eapply returns_bind; [by apply returns_cacheSet|intros _ _].
  by apply returns_ret.
Qed.

Lemma keeps_fromStore fid db :
  fid <> "" -> keeps I (SessionManager.fromStore env fid db) good.
Proof.
  intros Hfid. unfold SessionManager.fromStore. keeps_step.
  eapply keeps_bind.
  { apply keeps_tryCatch; [apply keeps_findOneSession|].
    intros _. apply keeps_ret. intros d t [=]. }
  intros existing Hex. keeps_step as now.
  destruct existing as [d|];
    [|by apply returns_keeps, returns_createSession].
  destruct (JS.truthy (d_conversationId d)) eqn:Hc;
    [|by apply returns_keeps, returns_createSession].
  apply truthy_nonempty in Hc.
  match goal with |- keeps _ (if ?b then _ else _) _ => destruct b end.
  - keeps_step as t.
    eapply keeps_bind;
      [apply returns_keeps, returns_bestEffort;
       by apply keeps_insertOneSession|intros _ _].
    keeps_step as activity.
    cbn [SessionManager.timeoutDoc d_sessionId d_conversationId d_startedAt].
    assert (good (mkSession fid (SessionManager.conversationIdAt fid t)
                            (toISOString env now) activity true None)) as Hnew
      by (apply good_minted; [done|apply conversationIdAt_nonempty]).
    eapply keeps_bind;
      [by apply returns_keeps, returns_cacheSet|intros _ _].
    by apply keeps_ret.
  - eapply keeps_bind;
      [apply returns_keeps, returns_bestEffort, keeps_updateOneActivity|].
    intros _ _. keeps_step.
    eapply keeps_bind;
      [apply returns_keeps, returns_cacheSet; by apply Hex|intros _ _].
    apply keeps_ret. by apply Hex.
Qed.

Lemma returns_temporarySession fid :
  fid <> "" -> returns I (SessionManager.temporarySession env fid) good.
Proof.
  intros Hfid. unfold SessionManager.temporarySession.
  returns_step as t. returns_step as started. returns_step as activity.
  assert (good (mkSession fid (SessionManager.conversationIdAt fid t) started
                          activity false None)) as Hnew
    by (apply good_minted; [done|apply conversationIdAt_nonempty]).
  eapply returns_bind; [by apply returns_cacheSet|intros _ _].
  by apply returns_ret.
Qed.

Lemma returns_orEmergency sessionId :
  returns I (SessionManager.orEmergency env sessionId) (fun s => s <> "").
Proof.
  unfold SessionManager.orEmergency.
  destruct (JS.truthyOpt sessionId) eqn:E.
  - apply returns_ret. by apply orElse_truthy.
  - returns_step. apply returns_ret. discriminate.
Qed.

Lemma returns_fallbackSession sessionId :
  returns I (SessionManager.fallbackSession env sessionId) good.
Proof.
  unfold SessionManager.fallbackSession. returns_step as t.
  eapply returns_bind; [apply returns_orEmergency|intros sid Hsid].
  returns_step as started. returns_step as activity.
  eapply returns_bind; [apply returns_orEmergency|intros key _].
  assert (good (mkSession sid
                  (SessionManager.conversationIdAt
                     (JS.orElse sessionId "unknown") t) started activity
                  false None))
    as Hnew by (apply good_minted; [done|apply conversationIdAt_nonempty]).
  eapply returns_bind; [by apply returns_cacheSet|intros _ _].
  by apply returns_ret.
Qed.

(** [getOrCreateSession] returns, keeps the invariant, and the session
    it returns is [good]. *)
Lemma returns_getOrCreateSession sessionId :
  returns I (SessionManager.getOrCreateSession env sessionId) good.
Proof.
  unfold SessionManager.getOrCreateSession.
  apply returns_tryCatch; [|intros _; apply returns_fallbackSession].
  eapply keeps_bind with (Q1 := fun fid => fid <> "").
  { destruct (JS.truthyOpt sessionId) eqn:E.
    - apply keeps_ret. by apply orElse_truthy.
    - do 2 keeps_step. apply keeps_ret. discriminate. }
  intros fid Hfid. unfold SessionManager.resolve.
  eapply keeps_bind.
  { apply returns_keeps, returns_gets
      with (Q := fun o => forall s, o = Some s -> good s).
    intros w Hw s Hs. by apply (I_cached fid s w). }
  intros [s|] Hs.
  - apply returns_keeps, returns_fromCache; auto.
  - eapply keeps_bind.
    { apply keeps_tryCatch with (Q := fun _ => True).
      - keeps_step. by apply keeps_ret.
      - intros _. by apply keeps_ret. }
    intros [db|] _.
    + by apply keeps_fromStore.
    + by apply returns_keeps, returns_temporarySession.
Qed.

End SessionInvariant.

Lemma wellFormed_emptyWorld : wellFormed emptyWorld.
Proof.
  split.
  - intros key s H. cbn in H. by rewrite lookup_empty in H.
  - intros d H. cbn in H. by apply not_elem_of_nil in H.
Qed.

Lemma setLastActivity_elem c iso docs d :
  d ∈ SessionManager.setLastActivity c iso docs ->
  exists d0, d0 ∈ docs /\ d_sessionId d = d_sessionId d0
             /\ d_conversationId d = d_conversationId d0.
Proof.
  induction docs as [|x docs IH]; cbn; [by intros ?%not_elem_of_nil|].
  destruct (String.eqb _ _).
  - intros [->|H]%elem_of_cons.
    + exists x. split; [by left|done].
    + exists d. split; [by right|done].
  - intros [->|H]%elem_of_cons.
    + exists x. split; [by left|done].
    + destruct (IH H) as (d0 & ? & ?). exists d0. split; [by right|done].
Qed.

(** Every path of [getOrCreateSession] keeps the stored sessions usable
    and hands out a session that carries both identifiers. *)
Lemma getOrCreateSession_wellFormed env token :
  returns wellFormed (SessionManager.getOrCreateSession env token)
    (fun s => sessionId s <> "" /\ conversationId s <> "").
Proof.
  apply returns_getOrCreateSession.
  - intros f w [H1 H2]. split; auto.
  - intros key s w [H1 _] Hs. eauto.
  - intros key s w [H1 H2] Hs. split; [|done].
    intros key' s'. cbn. rewrite lookup_insert.
    case_decide; [intros [= <-]; done|eauto].
  - intros d w [H1 H2] Hd. split; [done|].
    intros d'. cbn. intros [H| ->%list_elem_of_singleton]%elem_of_app; auto.
  - intros c iso w [H1 H2]. split; [done|].
    intros d'. cbn. intros (d0 & Hd0 & -> & ->)%setLastActivity_elem. auto.
  - intros d w t [H1 H2] Hd Hc. cbn. auto.
  - intros s t Hs. done.
  - intros. done.
Qed.

(** Running the first step of a computation. *)
Lemma run_ret {A B} (a : A) (k : A -> M B) w : bind (ret a) k w = k a w.
Proof. reflexivity. Qed.

Lemma run_gets {A B} (f : World -> A) (k : A -> M B) w :
  bind (gets f) k w = k (f w) w.
Proof. reflexivity. Qed.

Lemma run_modify {B} (f : World -> World) (k : unit -> M B) w :
  bind (modify f) k w = k tt (f w).
Proof. reflexivity. Qed.

Lemma run_dateNow {B} env (k : Z -> M B) w :
  bind (Runtime.dateNow env) k w
  = k (clock env (nTime (cursors w))) (withCursors Runtime.tickTime w).
Proof. reflexivity. Qed.

Lemma run_newDateISO {B} env (k : string -> M B) w :
  bind (Runtime.newDateISO env) k w
  = k (toISOString env (clock env (nTime (cursors w))))
      (withCursors Runtime.tickTime w).
Proof. reflexivity. Qed.

Lemma run_newUuid {B} env (k : string -> M B) w :
  bind (Runtime.newUuid env) k w
  = k (uuidv4 env (nUuid (cursors w))) (withCursors Runtime.tickUuid w).
Proof. reflexivity. Qed.

Lemma run_cacheSet {B} key s (k : unit -> M B) w :
  bind (SessionManager.cacheSet key s) k w
  = k tt (withProc (fun p =>
            mkProcess (<[key := s]> (sessionCache p)) (processedMessages p)
                      (analyticsSentMessages p)) w).
Proof. reflexivity. Qed.

Lemma run_mathRandom36 {B} env (k : string -> M B) w :
  bind (Runtime.mathRandom36 env) k w
  = k (random36 env (nRandom (cursors w))) (withCursors Runtime.tickRandom w).
Proof. reflexivity. Qed.

Lemma run_assoc {A B C} (m : M A) (k : A -> M B) (k' : B -> M C) w :
  bind (bind m k) k' w = bind m (fun a => bind (k a) k') w.
Proof. unfold bind. by destruct (m w) as [[a|e] w']. Qed.

Lemma run_returned {A B} (m : M A) (k : A -> M B) w a w' :
  m w = (Returns a, w') -> bind m k w = k a w'.
Proof. intros H. unfold bind. by rewrite H. Qed.

Lemma run_try_returned {A} (m : M A) h w a w' :
  m w = (Returns a, w') -> tryCatch m h w = (Returns a, w').
Proof. intros H. unfold tryCatch. by rewrite H. Qed.

Ltac run :=
  repeat first
    [ rewrite run_ret | rewrite run_gets | rewrite run_modify
    | rewrite run_dateNow | rewrite run_newDateISO | rewrite run_newUuid
    | rewrite run_mathRandom36 | rewrite run_cacheSet | rewrite run_assoc ];
  cbv beta.

Lemma bestEffort_rejected env k w :
  connectReply env (nDb (cursors w)) = Rejected ->
  SessionManager.bestEffort (bind (Runtime.connectToDatabase env) k) w
  = (Returns tt, withCursors Runtime.tickDb w).
Proof.
  intros H.
  unfold SessionManager.bestEffort, tryCatch, bind, Runtime.connectToDatabase.
  by rewrite H.
Qed.

(** While the store rejects every connection, a session is resolved from
    the session cache alone. *)
Lemma resolve_offline env frontendSessionId w :
  (forall n, connectReply env n = Rejected) ->
  exists s w',
    SessionManager.resolve env frontendSessionId w = (Returns s, w')
    /\ mongo w' = mongo w
    /\ sessionCache (proc w') !! frontendSessionId = Some s.
Proof.
  intros Hrej. unfold SessionManager.resolve. run.
  destruct (sessionCache (proc w) !! frontendSessionId) as [s|] eqn:Hc.
  - unfold SessionManager.fromCache. run.
    match goal with |- context [if ?b then _ else _] => destruct b end.
    + run. rewrite (run_returned _ _ _ _ _ (bestEffort_rejected _ _ _ (Hrej _))).
      eexists _, _. split; [reflexivity|]. split; [reflexivity|].
      cbn. apply lookup_insert_eq.
    + run. rewrite (run_returned _ _ _ _ _ (bestEffort_rejected _ _ _ (Hrej _))).
      eexists _, _. split; [reflexivity|]. split; [reflexivity|].
      cbn. apply lookup_insert_eq.
  - assert (tryCatch
              (let* db := Runtime.connectToDatabase env in ret (Some db))
              (fun _ => ret None) w
            = (Returns None, withCursors Runtime.tickDb w)) as Hclosed.
    { unfold tryCatch, bind, Runtime.connectToDatabase. by rewrite Hrej. }
    rewrite (run_returned _ _ _ _ _ Hclosed).
    unfold SessionManager.temporarySession. run.
    eexists _, _. split; [reflexivity|]. split; [reflexivity|].
    cbn. apply lookup_insert_eq.
Qed.

(** While the store rejects every connection, [getOrCreateSession]
    returns a session it keeps in the session cache and leaves the
    durable store alone. *)
Lemma getOrCreateSession_offline env token w :
  (forall n, connectReply env n = Rejected) ->
  exists s w',
    SessionManager.getOrCreateSession env token w = (Returns s, w')
    /\ mongo w' = mongo w
    /\ exists key, sessionCache (proc w') !! key = Some s.
Proof.
  intros Hrej. unfold SessionManager.getOrCreateSession.
  destruct (JS.truthyOpt token).
  - unfold tryCatch. run.
    destruct (resolve_offline env (JS.orElse token "") w Hrej)
      as (s & w' & Hrun & Hmongo & Hcached).
    rewrite Hrun. eauto 6.
  - unfold tryCatch. run.
    match goal with
    | |- context [SessionManager.resolve env ?fid ?w0] =>
        destruct (resolve_offline env fid w0 Hrej)
          as (s & w' & Hrun & Hmongo & Hcached)
    end.
    rewrite Hrun. eauto 6.
Qed.

Lemma conversationIdAt_inj token t t' :
  SessionManager.conversationIdAt token t
    = SessionManager.conversationIdAt token t' -> t = t'.
Proof.
  unfold SessionManager.conversationIdAt. intros H.
  apply append_inj_l in H. apply (append_inj_l "_") in H.
  by apply numToString_inj.
Qed.

(** What the best-effort insert of the cached rollover path leaves
    behind: the collection as it was, or with the record appended. *)
Lemma bestEffort_insert_cached env (doc : string -> string -> SessionDoc) w :
  exists w',
    SessionManager.bestEffort (
      let* db := Runtime.connectToDatabase env in
      Runtime.collection db >>
      let* startedIso := Runtime.newDateISO env in
      let* activityIso := Runtime.newDateISO env in
      SessionManager.insertOneSession env (doc startedIso activityIso)) w
    = (Returns tt, w')
    /\ proc w' = proc w
    /\ (globalSessions (mongo w') = globalSessions (mongo w)
        \/ exists a b,
             globalSessions (mongo w')
               = globalSessions (mongo w) ++ [doc a b]).
Proof.
  unfold SessionManager.bestEffort, SessionManager.insertOneSession,
    Runtime.connectToDatabase, Runtime.collection, Runtime.newDateISO,
    Runtime.dateNow, Runtime.dbOp, tryCatch, bind, ret, throw, modify.
  destruct (connectReply env (nDb (cursors w))); cbn.
  - destruct (dbFails env _); cbn; eexists; eauto 6.
  - eexists; eauto.
  - eexists; eauto.
Qed.

Lemma bestEffort_insert_stored env doc w :
  exists w',
    SessionManager.bestEffort (SessionManager.insertOneSession env doc) w
    = (Returns tt, w')
    /\ proc w' = proc w /\ nTime (cursors w') = nTime (cursors w)
    /\ (globalSessions (mongo w') = globalSessions (mongo w)
        \/ globalSessions (mongo w') = globalSessions (mongo w) ++ [doc]).
Proof.
  unfold SessionManager.bestEffort, SessionManager.insertOneSession,
    Runtime.dbOp, tryCatch, bind, ret, throw, modify.
  destruct (dbFails env _); cbn; eexists; eauto 6.
Qed.

(** *** Minted conversation IDs

    A Hoare logic for the session manager, with the state's clock
    cursor in its assertions. *)

Section Triples.
Context {A : Type}.
Implicit Types (P E : World -> Prop) (Q : A -> World -> Prop).

Lemma triple_bind {B} P (m : M A) (k : A -> M B) Q (Q2 : B -> World -> Prop) E :
  triple P m Q E -> (forall a, triple (Q a) (k a) Q2 E) ->
  triple P (bind m k) Q2 E.
Proof.
  intros Hm Hk w Hw. unfold bind. specialize (Hm w Hw).
  destruct (m w) as [[a|e] w']; [exact (Hk a w' Hm)|exact Hm].
Qed.

Lemma triple_try P (m : M A) h Q E1 E :
  triple P m Q E1 -> (forall e, triple E1 (h e) Q E) ->
  triple P (tryCatch m h) Q E.
Proof.
  intros Hm Hh w Hw. unfold tryCatch. specialize (Hm w Hw).
  destruct (m w) as [[a|e] w']; [exact Hm|exact (Hh e w' Hm)].
Qed.

Lemma triple_ret P (a : A) Q E : (forall w, P w -> Q a w) -> triple P (ret a) Q E.
Proof. intros H w Hw. exact (H w Hw). Qed.

Lemma triple_throw P e Q E : (forall w, P w -> E w) -> triple P (throw e) Q E.
Proof. intros H w Hw. exact (H w Hw). Qed.

Lemma triple_gets P (f : World -> A) Q E :
  (forall w, P w -> Q (f w) w) -> triple P (gets f) Q E.
Proof. intros H w Hw. exact (H w Hw). Qed.

Lemma triple_conseq (P P' : World -> Prop) (m : M A) Q Q' E E' :
  triple P' m Q' E' ->
  (forall w, P w -> P' w) -> (forall a w, Q' a w -> Q a w) ->
  (forall w, E' w -> E w) ->
  triple P m Q E.
Proof.
  intros Hm HP HQ HE w Hw. specialize (Hm w (HP w Hw)).
  destruct (m w) as [[a|e] w']; auto.
Qed.

Lemma triple_exists {X} (P : X -> World -> Prop) (m : M A) Q E :
  (forall x, triple (P x) m Q E) -> triple (fun w => exists x, P x w) m Q E.
Proof. intros H w [x Hx]. exact (H x w Hx). Qed.

Lemma triple_assume (F : Prop) P (m : M A) Q E :
  (F -> triple P m Q E) -> triple (fun w => F /\ P w) m Q E.
Proof. intros H w [HF Hw]. exact (H HF w Hw). Qed.

End Triples.

Lemma triple_modify P (f : World -> World) (Q : unit -> World -> Prop) E :
  (forall w, P w -> Q tt (f w)) -> triple P (modify f) Q E.
Proof. intros H w Hw. exact (H w Hw). Qed.

Lemma order_le env n n' w : (n' <= n)%nat -> order env n w -> order env n' w.
Proof. intros ? [? ?]. split; [done|lia]. Qed.

Lemma mintedId_le env n n' token c :
  (n <= n')%nat -> mintedId env n token c -> mintedId env n' token c.
Proof. intros ? H t0 Ht. destruct (H t0 Ht) as (j & ? & ?). exists j. split; [lia|done]. Qed.

Lemma mintedId_at env n token j :
  (j < n)%nat ->
  mintedId env n token (SessionManager.conversationIdAt token (clock env j)).
Proof.
  intros Hj t0 Ht. exists j. split; [done|]. symmetry.
  by apply (conversationIdAt_inj token).
Qed.

(** Moving cursors forward keeps the order. *)
Lemma order_cursors env n f w :
  (nTime (cursors w) <= nTime (f (cursors w)))%nat ->
  order env n w -> order env n (withCursors f w).
Proof.
  intros Hf [[Hc Hd] Hn]. split; [split|cbn; lia].
  - intros key s t0 Hs Ht. destruct (Hc key s t0 Hs Ht) as (j & ? & ?).
    exists j. split; [cbn; lia|done].
  - intros d t0 Hin Ht. destruct (Hd d t0 Hin Ht) as (j & ? & ?).
    exists j. split; [cbn; lia|done].
Qed.

Section Order.
Variable env : Env.


Lemma triple_dateNow n E :
  triple (order env n) (Runtime.dateNow env)
    (fun t w => exists j, (n <= j)%nat /\ t = clock env j /\ order env (S j) w)
    E.
Proof.
  intros w Hw. cbn. exists (nTime (cursors w)).
  split; [apply Hw|]. split; [done|].
  destruct (order_cursors env n Runtime.tickTime w) as [H _];
    [cbn; lia|done|].
  split; [exact H|cbn; lia].
Qed.

Lemma triple_newDateISO n E :
  triple (order env n) (Runtime.newDateISO env) (fun _ => order env n) E.
Proof. intros w Hw. cbn. apply order_cursors; [cbn; lia|done]. Qed.

Lemma triple_mathRandom36 n E :
  triple (order env n) (Runtime.mathRandom36 env) (fun _ => order env n) E.
Proof. intros w Hw. cbn. apply order_cursors; [cbn; lia|done]. Qed.

Lemma triple_connectToDatabase n :
  triple (order env n) (Runtime.connectToDatabase env) (fun _ => order env n)
         (order env n).
Proof.
  intros w Hw. unfold Runtime.connectToDatabase.
  destruct (connectReply env _); apply order_cursors; done.
Qed.

Lemma triple_collection n db :
  triple (order env n) (Runtime.collection db) (fun _ => order env n)
         (order env n).
Proof. intros w Hw. by destruct db. Qed.

Lemma triple_dbOp n :
  triple (order env n) (Runtime.dbOp env) (fun _ => order env n) (order env n).
Proof.
  intros w Hw. unfold Runtime.dbOp.
  destruct (dbFails env _); apply order_cursors; done.
Qed.

Lemma triple_cacheSet n key s E :
  mintedId env n key (conversationId s) ->
  triple (order env n) (SessionManager.cacheSet key s) (fun _ => order env n) E.
Proof.
  intros Hs w [[Hc Hd] Hn]. cbn. split; [split|done]; cbn.
  - intros key' s' t0. rewrite lookup_insert. case_decide as Hkey.
    + intros Hs' Ht. injection Hs' as Hs'. rewrite <- Hs', <- Hkey in Ht.
      destruct (Hs t0 Ht) as (j & ? & ?). exists j. split; [lia|done].
    + apply Hc.
  - exact Hd.
Qed.

Lemma triple_insertOneSession n doc :
  mintedId env n (d_frontendSessionId doc) (d_conversationId doc) ->
  triple (order env n) (SessionManager.insertOneSession env doc)
         (fun _ => order env n) (order env n).
Proof.
  intros Hdoc. unfold SessionManager.insertOneSession.
  eapply triple_bind; [apply triple_dbOp|intros ?; cbv beta].
  apply triple_modify. intros w [[Hc Hd] Hn]. split; [split|done]; cbn.
  - exact Hc.
  - intros d t0 [Hin| ->%list_elem_of_singleton]%elem_of_app Ht;
      [by apply (Hd d)|].
    destruct (Hdoc t0 Ht) as (j & ? & ?). exists j. split; [lia|done].
Qed.

Lemma setLastActivity_origin c iso docs d :
  d ∈ SessionManager.setLastActivity c iso docs ->
  exists d0, d0 ∈ docs /\ d_frontendSessionId d = d_frontendSessionId d0
             /\ d_conversationId d = d_conversationId d0.
Proof.
  induction docs as [|x docs IH]; cbn; [by intros ?%not_elem_of_nil|].
  destruct (String.eqb _ _).
  - intros [->|H]%elem_of_cons.
    + exists x. split; [by left|done].
    + exists d. split; [by right|done].
  - intros [->|H]%elem_of_cons.
    + exists x. split; [by left|done].
    + destruct (IH H) as (d0 & ? & ?). exists d0. split; [by right|done].
Qed.

Lemma triple_updateOneActivity n c iso :
  triple (order env n) (SessionManager.updateOneActivity env c iso)
         (fun _ => order env n) (order env n).
Proof.
  unfold SessionManager.updateOneActivity.
  eapply triple_bind; [apply triple_dbOp|intros ?; cbv beta].
  apply triple_modify. intros w [[Hc Hd] Hn]. split; [split|done]; cbn.
  - exact Hc.
  - intros d t0 (d0 & Hin & Hf & Hcid)%setLastActivity_origin.
    rewrite Hf, Hcid. by apply Hd.
Qed.

Lemma triple_bestEffort n (m : M unit) :
  triple (order env n) m (fun _ => order env n) (order env n) ->
  forall E, triple (order env n) (SessionManager.bestEffort m)
                   (fun _ => order env n) E.
Proof.
  intros Hm E. eapply triple_try; [exact Hm|].
  intros _. by apply triple_ret.
Qed.

(** The bound of what comes back may be lowered. *)
Lemma triple_lower {A} n n' (m : M A) :
  (n <= n')%nat ->
  triple (order env n') m (fun _ => order env n') (order env n') ->
  triple (order env n') m (fun _ => order env n) (order env n).
Proof.
  intros Hn Hm. eapply triple_conseq; [exact Hm|done| |];
    intros; by apply (order_le env n').
Qed.

Lemma triple_findOneSession n token :
  triple (order env n) (SessionManager.findOneSession env token)
    (fun o w =>
       exists n', (n <= n')%nat /\ order env n' w
         /\ forall d, o = Some d ->
              mintedId env n' token (d_conversationId d))
    (order env n).
Proof.
  unfold SessionManager.findOneSession.
  eapply triple_bind; [apply triple_dbOp|intros ?; cbv beta].
  apply triple_gets. intros w [[Hc Hd] Hn].
  exists (nTime (cursors w)). split; [done|]. split; [by split|].
  intros d Hfind. apply find_some in Hfind as [Hin Heq].
  apply String.eqb_eq in Heq. rewrite <- Heq.
  intros t0 Ht. apply (Hd d); [by apply list_elem_of_In|done].
Qed.

Ltac step lemma := eapply triple_bind; [apply lemma|cbv beta].

Lemma triple_fromCache n token s :
  mintedId env n token (conversationId s) ->
  triple (order env n) (SessionManager.fromCache env token s)
         (fun _ => order env n) (order env n).
Proof.
  intros Hs. unfold SessionManager.fromCache.
  step triple_dateNow. intros now. apply triple_exists. intros j.
  apply triple_assume. intros Hj. apply triple_assume. intros ->.
  destruct (_ <? _)%Z.
  - step triple_dateNow. intros t. apply triple_exists. intros j'.
    apply triple_assume. intros Hj'. apply triple_assume. intros ->.
    step triple_newDateISO. intros started.
    step triple_dateNow. intros activity. apply triple_exists. intros j''.
    apply triple_assume. intros Hj''. apply triple_assume. intros ->.
    apply triple_lower; [lia|].
    step triple_cacheSet.
    { cbn. apply mintedId_at. lia. }
    intros _.
    eapply triple_bind;
      [apply triple_bestEffort|intros ?; by apply triple_ret].
    step triple_connectToDatabase. intros db.
    step triple_collection. intros _.
    step triple_newDateISO. intros startedIso.
    step triple_newDateISO. intros activityIso.
    apply triple_insertOneSession. cbn. apply mintedId_at. lia.
  - step triple_dateNow. intros activity. apply triple_exists. intros j'.
    apply triple_assume. intros Hj'. apply triple_assume. intros ->.
    apply triple_lower; [lia|].
    step triple_cacheSet.
    { cbn. apply (mintedId_le env n); [lia|done]. }
    intros _.
    eapply triple_bind;
      [apply triple_bestEffort|intros ?; by apply triple_ret].
    step triple_connectToDatabase. intros db.
    step triple_collection. intros _.
    step triple_newDateISO. intros iso.
    apply triple_updateOneActivity.
Qed.

(** [bind (ret a) k] is [k a]. *)
Lemma triple_run_ret {A B} P (a : A) (k : A -> M B) Q E :
  triple P (k a) Q E -> triple P (bind (ret a) k) Q E.
Proof. done. Qed.

Lemma triple_assoc {A B C} P (m : M A) (k : A -> M B) (k' : B -> M C) Q E :
  triple P (bind m (fun a => bind (k a) k')) Q E ->
  triple P (bind (bind m k) k') Q E.
Proof. intros H w Hw. rewrite run_assoc. exact (H w Hw). Qed.

Ltac run_ret := repeat (apply triple_run_ret; cbv beta).

Ltac read_clock t j Hj :=
  step triple_dateNow; intros t; apply triple_exists; intros j;
  apply triple_assume; intros Hj; apply triple_assume; intros ->.

Lemma triple_createSession n token now :
  triple (order env n) (SessionManager.createSession env token now)
         (fun _ => order env n) (order env n).
Proof.
  unfold SessionManager.createSession.
  read_clock t j Hj.
  eapply triple_bind.
  { apply triple_bestEffort, triple_insertOneSession. cbn.
    apply mintedId_at. lia. }
  intros ?. cbv beta.
  read_clock activity j' Hj'.
  apply triple_lower; [lia|].
  step triple_cacheSet.
  { cbn. apply mintedId_at. lia. }
  intros ?. by apply triple_ret.
Qed.

Lemma triple_fromStore n token db :
  triple (order env n) (SessionManager.fromStore env token db)
         (fun _ => order env n) (order env n).
Proof.
  unfold SessionManager.fromStore.
  step triple_collection. intros ?.
  eapply triple_bind.
  { eapply triple_try; [apply triple_findOneSession|].
    intros e. apply triple_ret. intros w Hw.
    exists n. split; [done|]. split; [done|]. intros d [=]. }
  intros existing. cbv beta. apply triple_exists. intros n'.
  apply triple_assume. intros Hn'.
  eapply triple_conseq
    with (P' := fun w => (forall d, existing = Some d ->
                            mintedId env n' token (d_conversationId d))
                         /\ order env n' w)
         (Q' := fun _ => order env n') (E' := order env n');
    [|by intros w [? ?]|intros; by apply (order_le env n')
     |intros; by apply (order_le env n')].
  apply triple_assume. intros Hfound.
  read_clock now j Hj.
  destruct existing as [d|];
    [|apply triple_lower; [lia|apply triple_createSession]].
  destruct (JS.truthy (d_conversationId d));
    [|apply triple_lower; [lia|apply triple_createSession]].
  match goal with |- triple _ (if ?b then _ else _) _ _ => destruct b end.
  - read_clock t j' Hj'.
    eapply triple_bind.
    { apply triple_bestEffort, triple_insertOneSession. cbn.
      apply mintedId_at. lia. }
    intros ?. cbv beta.
    read_clock activity j'' Hj''.
    apply triple_lower; [lia|].
    step triple_cacheSet.
    { cbn. apply mintedId_at. lia. }
    intros ?. by apply triple_ret.
  - eapply triple_bind;
      [apply triple_bestEffort, triple_updateOneActivity|intros ?; cbv beta].
    read_clock activity j' Hj'.
    apply triple_lower; [lia|].
    step triple_cacheSet.
    { cbn. apply (mintedId_le env n'); [lia|by apply Hfound]. }
    intros ?. by apply triple_ret.
Qed.

Lemma triple_temporarySession n token E :
  triple (order env n) (SessionManager.temporarySession env token)
         (fun _ => order env n) E.
Proof.
  unfold SessionManager.temporarySession.
  read_clock t j Hj.
  step triple_newDateISO. intros started.
  read_clock activity j' Hj'.
  eapply triple_conseq with (Q' := fun _ => order env (S j'));
    [|done|intros; apply (order_le env (S j')); [lia|done]|done].
  step triple_cacheSet.
  { cbn. apply mintedId_at. lia. }
  intros ?. by apply triple_ret.
Qed.

Lemma triple_resolve n token :
  triple (order env n) (SessionManager.resolve env token)
         (fun _ => order env n) (order env n).
Proof.
  unfold SessionManager.resolve.
  eapply triple_bind.
  { apply triple_gets
      with (Q := fun o w =>
              exists n', (n <= n')%nat
                /\ (forall s, o = Some s ->
                      mintedId env n' token (conversationId s))
                /\ order env n' w).
    intros w [[Hc Hd] Hn]. exists (nTime (cursors w)).
    split; [done|]. split; [|by split].
    intros s Hs t0 Ht. by apply (Hc token s). }
  intros cached. cbv beta. apply triple_exists. intros n'.
  apply triple_assume. intros Hn'. apply triple_assume. intros Hcached.
  apply triple_lower; [lia|].
  destruct cached as [s|]; [by apply triple_fromCache, Hcached|].
  eapply triple_bind with (Q := fun _ => order env n').
  { eapply triple_try with (E1 := order env n').
    - step triple_connectToDatabase. intros db. by apply triple_ret.
    - intros e. by apply triple_ret. }
  intros [db|]; [apply triple_fromStore|apply triple_temporarySession].
Qed.

Lemma conversationIdAt_unknown t key t0 :
  SessionManager.conversationIdAt "unknown" t
  <> SessionManager.conversationIdAt ("emergency_" +:+ key) t0.
Proof. discriminate. Qed.

Lemma triple_fallbackSession n sessionId E :
  triple (order env n) (SessionManager.fallbackSession env sessionId)
         (fun _ => order env n) E.
Proof.
  unfold SessionManager.fallbackSession, SessionManager.orEmergency.
  read_clock t j Hj.
  destruct (JS.truthyOpt sessionId) eqn:Hgiven.
  - run_ret.
    step triple_newDateISO. intros started.
    read_clock activity j' Hj'.
    run_ret.
    eapply triple_conseq with (Q' := fun _ => order env (S j'));
      [|done|intros; apply (order_le env (S j')); [lia|done]|done].
    step triple_cacheSet.
    { cbn. destruct sessionId as [tok|]; [|done]. cbn in Hgiven |- *.
      rewrite Hgiven. apply mintedId_at. lia. }
    intros ?. by apply triple_ret.
  - apply triple_assoc. read_clock t1 j1 Hj1. run_ret.
    step triple_newDateISO. intros started.
    read_clock activity j' Hj'.
    apply triple_assoc. read_clock t2 j2 Hj2. run_ret.
    eapply triple_conseq with (Q' := fun _ => order env (S j2));
      [|done|intros; apply (order_le env (S j2)); [lia|done]|done].
    step triple_cacheSet.
    { cbn. assert (JS.orElse sessionId "unknown" = "unknown") as ->.
      { destruct sessionId as [tok|]; [|done]. cbn in Hgiven |- *.
        by rewrite Hgiven. }
      intros t0 Ht. by apply conversationIdAt_unknown in Ht. }
    intros ?. by apply triple_ret.
Qed.

(** [getOrCreateSession] mints what it stores: it returns, and every
    conversation ID it leaves in the cache or the store names, if an
    instant at all, one the clock has shown. *)
Lemma triple_getOrCreateSession n sessionId :
  triple (order env n) (SessionManager.getOrCreateSession env sessionId)
         (fun _ => order env n) (fun _ => False).
Proof.
  unfold SessionManager.getOrCreateSession.
  eapply triple_try with (E1 := order env n);
    [|intros e; apply triple_fallbackSession].
  eapply triple_bind with (Q := fun _ => order env n);
    [|intros fid; apply triple_resolve].
  destruct (JS.truthyOpt sessionId); [by apply triple_ret|].
  read_clock t j Hj.
  step triple_mathRandom36. intros r.
  apply triple_ret. intros w. apply order_le. lia.
Qed.

End Order.

Lemma minted_emptyWorld env : minted env emptyWorld.
Proof.
  split.
  - intros key s t0 H. cbn in H. by rewrite lookup_empty in H.
  - intros d t0 H. cbn in H. by apply not_elem_of_nil in H.
Qed.

(** The session manager keeps the conversation IDs minted. *)
Lemma getOrCreateSession_minted env sessionId w :
  minted env w ->
  exists s w',
    SessionManager.getOrCreateSession env sessionId w = (Returns s, w')
    /\ minted env w'.
Proof.
  intros Hw.
  pose proof (triple_getOrCreateSession env (nTime (cursors w)) sessionId w)
    as H.
  destruct (SessionManager.getOrCreateSession env sessionId w) as [[s|e] w'].
  - exists s, w'. split; [done|]. apply H. by split.
  - destruct H. by split.
Qed.




(** The same, for the state a call leaves behind. *)
Lemma getOrCreateSession_minted_state env sessionId w :
  minted env w ->
  minted env (SessionManager.getOrCreateSession env sessionId w).2.
Proof.
  intros Hw.
  destruct (getOrCreateSession_minted env sessionId w Hw)
    as (s & w' & -> & Hw').
  exact Hw'.
Qed.


(** Why the clock matters to the new ID.  Under a clock that was set
    back by an hour, the session of [s1], created at the instant
    10000000 and used once since, has been idle for an hour when the
    clock shows 10000000 again: the conversation ID minted for the
    rollover is the prior one. *)
Lemma getOrCreateSession_rollover_clock_set_back :
  minted setBackEnv setBackWorld
  /\ Stale setBackEnv "s1" setBackWorld "s1_10000000"
  /\ exists s w',
       SessionManager.getOrCreateSession setBackEnv (Some "s1") setBackWorld
         = (Returns s, w')
       /\ isNewSession s = true
       /\ conversationId s = "s1_10000000".
Proof.
  split; [|split].
  - do 2 apply getOrCreateSession_minted_state. apply minted_emptyWorld.
  - eapply stale_cached; [vm_compute; reflexivity| |reflexivity].
    vm_compute. reflexivity.
  - eexists _, _. split; [vm_compute; reflexivity|]. split; reflexivity.
Qed.


(** ** Identifier mappings *)

Lemma findMappingFrom_None i a b docs :
  MessageProcessor.findMappingFrom i a b docs = None ->
  forall d, d ∈ docs -> matches a b d = false.
Proof.
  revert i. induction docs as [|x docs IH]; intros i H d Hd;
    [by apply not_elem_of_nil in Hd|].
  cbn in H. fold (matches a b x) in H.
  destruct (matches a b x) eqn:E; [done|].
  apply elem_of_cons in Hd as [->|Hd]; [done|]. eauto.
Qed.

Lemma findMappingFrom_Some i a b docs j d :
  MessageProcessor.findMappingFrom i a b docs = Some (j, d) ->
  exists before after,
    docs = before ++ d :: after /\ j = (i + length before)%nat
    /\ matches a b d = true
    /\ forall d', d' ∈ before -> matches a b d' = false.
Proof.
  revert i. induction docs as [|x docs IH]; intros i H; [done|].
  cbn in H. fold (matches a b x) in H.
  destruct (matches a b x) eqn:E.
  - injection H as <- <-. exists [], docs.
    split; [done|]. split; [cbn; lia|]. split; [done|].
    intros d' Hd'. by apply not_elem_of_nil in Hd'.
  - destruct (IH _ H) as (before & after & -> & -> & Hm & Hb).
    exists (x :: before), after.
    split; [done|]. split; [cbn; lia|]. split; [done|].
    intros d' [->|Hd']%elem_of_cons; auto.
Qed.

Lemma findMappingFrom_first i a b before d after :
  (forall d', d' ∈ before -> matches a b d' = false) ->
  matches a b d = true ->
  MessageProcessor.findMappingFrom i a b (before ++ d :: after)
  = Some ((i + length before)%nat, d).
Proof.
  revert i. induction before as [|x before IH]; intros i Hb Hd; cbn.
  - fold (matches a b d). rewrite Hd. do 2 f_equal. lia.
  - fold (matches a b x). rewrite (Hb x) by by left.
    rewrite IH; [|intros; apply Hb; by right|done]. do 2 f_equal. lia.
Qed.

Lemma existsb_matches_first a b before d after :
  matches a b d = true -> existsb (matches a b) (before ++ d :: after) = true.
Proof.
  intros Hd. rewrite existsb_app. cbn. rewrite Hd.
  by rewrite orb_true_r.
Qed.

Lemma existsb_matches_none a b docs :
  (forall d, d ∈ docs -> matches a b d = false) ->
  existsb (matches a b) docs = false.
Proof.
  induction docs as [|d docs IH]; intros Hdocs; [done|]. cbn.
  rewrite (Hdocs d) by by left. apply IH. intros; apply Hdocs; by right.
Qed.

(** After a successful upsert of [(localId, remoteId)] into a collection
    that does not cross the two ID spaces for these IDs, the first
    document matching either ID is the pair itself; the collection has
    grown by one document exactly when none held either ID. *)
Lemma upsert_then_find env localId remoteId content w r w1 messageId :
  localId <> "" -> remoteId <> "" ->
  uncrossed localId remoteId (message_id_mappings (mongo w)) ->
  MessageProcessor.createMessageIdMapping env (Some localId) (Some remoteId)
    content w = (Returns r, w1) ->
  recorded r ->
  messageId = localId \/ messageId = remoteId ->
  length (message_id_mappings (mongo w1))
  = (length (message_id_mappings (mongo w))
     + if existsb (matches localId remoteId) (message_id_mappings (mongo w))
       then 0 else 1)%nat
  /\ exists i d,
       MessageProcessor.findMapping messageId messageId
         (message_id_mappings (mongo w1)) = Some (i, d)
       /\ mongodbId d = localId /\ postgresqlId d = remoteId.
Proof.
  intros HA HB Hx Hrun Hrec Hid.
  assert (JS.truthy localId = true) as HtA by by apply truthy_nonempty.
  assert (JS.truthy remoteId = true) as HtB by by apply truthy_nonempty.
  assert (forall d, mongodbId d = localId -> postgresqlId d = remoteId ->
            matches messageId messageId d = true) as Hhit.
  { intros d Hl Hr. unfold matches. rewrite Hl, Hr.
    destruct Hid as [->| ->]; rewrite String.eqb_refl; [done|].
    by rewrite orb_true_r. }
  assert (forall d, d ∈ message_id_mappings (mongo w) ->
            matches localId remoteId d = false ->
            matches messageId messageId d = false) as Hmiss.
  { intros d Hd. unfold matches. intros [H1 H2]%orb_false_iff.
    destruct (Hx d Hd) as [H3 H4].
    destruct Hid as [->| ->]; apply orb_false_iff; split; auto;
      by apply String.eqb_neq. }
  revert Hrun.
  unfold MessageProcessor.createMessageIdMapping, tryCatch.
  cbn [JS.truthyOpt JS.orElse]. rewrite HtA, HtB. run.
  unfold bind at 1, Runtime.connectToDatabase.
  destruct (connectReply env _);
    [|intros [= <- _]; by destruct Hrec|].
  2: { cbn. intros [= <- _]. by destruct Hrec. }
  cbn [Runtime.collection]. run. unfold bind at 1, Runtime.dbOp.
  destruct (dbFails env _); [intros [= <- _]; by destruct Hrec|].
  run. cbn [withCursors mongo].
  destruct (MessageProcessor.findMapping localId remoteId
              (message_id_mappings (mongo w))) as [[i d0]|] eqn:Hfind.
  - run. unfold bind at 1, Runtime.dbOp.
    destruct (dbFails env _); [intros [= <- _]; by destruct Hrec|].
    run. intros [= _ <-]. cbn.
    apply findMappingFrom_Some in Hfind
      as (before & after & Hdocs & -> & Hm & Hb).
    rewrite Hdocs. cbn [Nat.add].
    assert (alter (MessageProcessor.remap localId remoteId content
                     (clock env (nTime (cursors w))))
                  (length before) (before ++ d0 :: after)
            = before ++ MessageProcessor.remap localId remoteId content
                          (clock env (nTime (cursors w))) d0 :: after) as ->.
    { rewrite alter_app_r_alt by lia. by rewrite Nat.sub_diag. }
    split.
    { rewrite (existsb_matches_first _ _ _ _ _ Hm), !length_app. cbn. lia. }
    eexists _, _. split; [|split; cycle 1].
    + apply findMappingFrom_first; [|by apply Hhit].
      intros d' Hd'. apply Hmiss; [|by apply Hb].
      rewrite Hdocs. apply elem_of_app. by left.
    + reflexivity.
    + reflexivity.
  - run. unfold bind at 1, Runtime.dbOp.
    destruct (dbFails env _); [intros [= <- _]; by destruct Hrec|].
    run. intros [= _ <-]. cbn.
    pose proof (findMappingFrom_None _ _ _ _ Hfind) as Hnone.
    split.
    { rewrite (existsb_matches_none _ _ _ Hnone), length_app. cbn. lia. }
    eexists _, _. split; [|split; cycle 1].
    + apply findMappingFrom_first; [|by apply Hhit].
      intros d' Hd'. by apply Hmiss; [|apply Hnone].
    + reflexivity.
    + reflexivity.
Qed.

(** C4: After [createMessageIdMapping] has recorded the pair of a local
    ID [localId] and a remote ID [remoteId], the lookup of
    [getMessageFeedback] finds the mapping
    [{ mongodbId: localId, postgresqlId: remoteId }] and resolves to
    [remoteId], whichever of the two IDs it is given while the store
    answers.  The recording is an upsert: the collection has one
    document more only when no stored mapping held either ID, and as
    many as before otherwise.  The two IDs are of two ID spaces, as the
    parameters are documented (a MongoDB message ID, a PostgreSQL
    message ID): no stored mapping has [localId] as its remote ID or
    [remoteId] as its local ID. *)
Theorem mapping_resolves_from_either_side env localId remoteId content w r w1
    messageId w2 :
  localId <> "" -> remoteId <> "" ->
  uncrossed localId remoteId (message_id_mappings (mongo w)) ->
  MessageProcessor.createMessageIdMapping env (Some localId) (Some remoteId)
    content w = (Returns r, w1) ->
  recorded r ->
  messageId = localId \/ messageId = remoteId ->
  mongo w2 = mongo w1 ->
  connectReply env (nDb (cursors w2)) = Connected ->
  dbFails env (S (nDb (cursors w2))) = false ->
  length (message_id_mappings (mongo w1))
  = (length (message_id_mappings (mongo w))
     + if existsb (matches localId remoteId) (message_id_mappings (mongo w))
       then 0 else 1)%nat
  /\ exists d w3,
       MessageProcessor.lookupMapping env messageId w2
         = (Returns (Some d, remoteId), w3)
       /\ mongodbId d = localId /\ postgresqlId d = remoteId.
Proof.
  intros HA HB Hx Hrun Hrec Hid Hsame Hconn Hop.
  destruct (upsert_then_find env localId remoteId content w r w1 messageId)
    as (Hlength & i & d & Hfind & Hl & Hr); try done.
  split; [exact Hlength|].
  exists d. eexists. split; [|done].
  unfold MessageProcessor.lookupMapping.
  unfold bind at 1, Runtime.connectToDatabase. rewrite Hconn.
  cbn [Runtime.collection]. run. unfold bind at 1, Runtime.dbOp.
  cbn [withCursors cursors Runtime.tickDb nDb]. rewrite Hop. run.
  cbn [withCursors mongo]. rewrite Hsame, Hfind. cbn [fmap option_fmap option_map snd JS.orElse].
  rewrite Hr. replace (JS.truthy remoteId) with true
    by (symmetry; by apply truthy_nonempty).
  reflexivity.
Qed.

(** ** messageProcessor.js *)

Lemma sessionFrame_refl w : sessionFrame w w.
Proof. by repeat split. Qed.

(** [getOrCreateSession] returns and touches nothing but the cursors,
    the session cache and the stored sessions. *)
Lemma getOrCreateSession_frame env token w0 :
  returns (sessionFrame w0) (SessionManager.getOrCreateSession env token)
          (fun _ => True).
Proof.
  apply returns_getOrCreateSession; try done.
Qed.

Lemma existsb_eqb_elem s l :
  existsb (String.eqb s) l = true <-> s ∈ l.
Proof.
  rewrite existsb_exists. split.
  - intros (x & Hx & ->%String.eqb_eq). by apply list_elem_of_In.
  - intros H. exists s. split; [by apply list_elem_of_In|apply String.eqb_refl].
Qed.


Section Assemble.
Variable env : Env.
Variable I : World -> Prop.
Hypothesis I_cursors : forall f w, I w -> I (withCursors f w).

#[local] Hint Resolve I_cursors : logic.

Lemma returns_normalizeMessage raw :
  returns I (DataModels.normalizeMessage env (Some raw)) (normalizes raw).
Proof.
  unfold DataModels.normalizeMessage.
  eapply returns_bind
    with (Q1 := fun id => JS.truthyOpt (r_id raw) = true ->
                          id = JS.orElse (r_id raw) "").
  { destruct (JS.truthyOpt (r_id raw)); [by apply returns_ret|].
    do 2 returns_step. by apply returns_ret. }
  intros id Hid.
  eapply returns_bind with (Q1 := fun _ => True).
  { destruct (JS.truthyOpt (r_timestamp raw)); [by apply returns_ret|].
    eauto with logic. }
  intros ts _. apply returns_ret. by repeat split.
Qed.

Lemma returns_normalizeElement raw :
  is_Some raw ->
  returns I (DataModels.normalizeMessage env raw) (normalizesElement raw).
Proof.
  intros [message ->].
  eapply returns_weaken; [apply returns_normalizeMessage|].
  intros m Hm. by exists message.
Qed.

Lemma returns_mapM {A B} (f : A -> M B) (R : A -> B -> Prop) (ok : A -> Prop)
    l :
  (forall x, ok x -> returns I (f x) (R x)) -> Forall ok l ->
  returns I (mapM f l) (Forall2 R l).
Proof.
  intros Hf Hl. induction Hl as [|x l Hx Hl IH]; cbn [mapM].
  - apply returns_ret. constructor.
  - eapply returns_bind; [by apply Hf|intros y Hy].
    eapply returns_bind; [apply IH|intros ys Hys].
    apply returns_ret. by constructor.
Qed.

Lemma sortMessages_pair m1 m2 :
  DataModels.sortMessages env [m1; m2] = [m1; m2]
  \/ DataModels.sortMessages env [m1; m2] = [m2; m1].
Proof.
  unfold DataModels.sortMessages. cbn.
  destruct (0 <? _)%Z; auto.
Qed.

(** [normalizeConversation] on an explicit list of two messages and no
    legacy fields. *)
Lemma returns_normalizeConversation_pair id sid client r1 r2 started ended
    language topic status :
  returns I
    (DataModels.normalizeConversation env (Some
       (mkRawConversation id sid None client (Some [Some r1; Some r2]) None
          None started None ended language topic status)))
    (fun c =>
       (JS.truthyOpt id = true -> c_id c = JS.orElse id "")
       /\ exists m1 m2,
            (c_messages c = [m1; m2] \/ c_messages c = [m2; m1])
            /\ normalizes r1 m1 /\ normalizes r2 m2).
Proof.
  unfold DataModels.normalizeConversation.
  cbn [rc_id rc_sessionId rc_chatId rc_clientId rc_messages rc_userMessage
       rc_botResponse rc_startedAt rc_startTime rc_endedAt rc_language
       rc_topic rc_status].
  eapply returns_bind
    with (Q1 := fun cid => JS.truthyOpt id = true -> cid = JS.orElse id "").
  { destruct (JS.truthyOpt id); [by apply returns_ret|].
    do 2 returns_step. by apply returns_ret. }
  intros cid Hcid.
  eapply returns_bind with (Q1 := fun _ => True).
  { cbv zeta.
    destruct (JS.truthyOpt (JS.orOpt started None)); [by apply returns_ret|].
    eauto with logic. }
  intros startedAt _.
  eapply returns_bind with (Q1 := fun _ => True).
  { destruct (JS.truthyOpt ended); [by apply returns_ret|]. eauto with logic. }
  intros endedAt _.
  eapply returns_bind.
  { apply (returns_mapM _ normalizesElement is_Some);
      [apply returns_normalizeElement|by repeat constructor]. }
  intros ? (m1 & ? & (? & [= <-] & H1)
              & (m2 & ? & (? & [= <-] & H2) & ->%Forall2_nil_inv_l & ->)
                  %Forall2_cons_inv_l & ->)%Forall2_cons_inv_l.
  cbn [JS.truthyOpt andb].
  do 2 (eapply returns_bind;
          [apply returns_ret with (Q := fun l => l = [m1; m2]); reflexivity
          |intros ? ->]).
  apply returns_ret. split; [exact Hcid|]. exists m1, m2. split; [|done].
  cbn [c_messages]. apply sortMessages_pair.
Qed.

(** What [normalizeMessage] returns for a message that carries an ID
    and is given a canonical role stays as it is when it is normalised
    again. *)
Lemma normalizes_again raw id content role m m' :
  normalizes raw m ->
  normalizes (DataModels.rawOfMessage m) m' ->
  r_id raw = Some id -> id <> "" -> r_content raw = Some content ->
  DataModels.determineRole raw = role -> canonicalRole role ->
  m_id m' = id /\ m_role m' = role
  /\ m_type m' = (if String.eqb role "user" then "user" else "bot")
  /\ m_content m' = content.
Proof.
  intros (H1 & H2 & H3 & H4) (H1' & H2' & H3' & H4') Hrid
         Hid%truthy_nonempty Hcontent Hr Hrole.
  rewrite Hrid, Hr in *. rewrite Hcontent in H1.
  cbn [JS.truthyOpt JS.orElse] in H1, H4.
  rewrite Hid in H4. specialize (H4 eq_refl).
  assert (DataModels.determineRole (DataModels.rawOfMessage m) = role) as Hr'.
  { unfold DataModels.determineRole, DataModels.rawOfMessage.
    cbn [r_role r_sender r_type r_defaultRole DataModels.isStr].
    rewrite H2, H3. by destruct Hrole as [-> | ->]. }
  rewrite Hr' in H2', H3'.
  unfold DataModels.rawOfMessage in H1', H4'.
  cbn [r_id r_content JS.truthyOpt JS.orElse] in H1', H4'.
  rewrite H4, Hid in H4'. rewrite H1 in H1'.
  split; [by apply H4'|]. split; [done|]. split; [done|].
  rewrite H1'. by destruct content.
Qed.

(** The conversation [processMessagePair] assembles carries the
    session's conversation ID and holds the user's message and the
    reply under the two IDs handed out; assembling it moves cursors
    only. *)
Lemma returns_assemblePair sessionInfo userMessage botResponse metadata :
  returns I
    (MessageProcessor.assemblePair env sessionInfo userMessage botResponse
                                   metadata)
    (fun a =>
       conversationId sessionInfo <> "" ->
       pairShape (conversationId sessionInfo) a.1.1 a.1.2 userMessage
                 botResponse a.2).
Proof.
  unfold MessageProcessor.assemblePair.
  returns_step as t1. returns_step as u1. returns_step as t2.
  returns_step as u2. returns_step as userTimestamp.
  eapply returns_bind; [apply returns_normalizeMessage|].
  intros u Hu.
  returns_step as t3.
  eapply returns_bind; [apply returns_normalizeMessage|].
  intros b Hb.
  returns_step as endedAt.
  eapply returns_bind; [apply returns_normalizeConversation_pair|].
  intros c (Hid & m1 & m2 & Hc & H1 & H2).
  apply returns_ret. cbn [fst snd]. intros Hconv.
  destruct (normalizes_again _ _ _ "user" _ _ Hu H1 eq_refl
              ltac:(discriminate) eq_refl eq_refl ltac:(by left))
    as (U1 & U2 & U3 & U4).
  destruct (normalizes_again _ _ _ "assistant" _ _ Hb H2 eq_refl
              ltac:(discriminate) eq_refl eq_refl ltac:(by right))
    as (B1 & B2 & B3 & B4).
  split.
  - apply truthy_nonempty in Hconv.
    cbn [JS.truthyOpt JS.orElse] in Hid. rewrite Hconv in Hid. by apply Hid.
  - exists m1, m2. by repeat split.
Qed.

End Assemble.

Section Collaborators.
Variable env : Env.
Variable I : World -> Prop.
Hypothesis I_cursors : forall f w, I w -> I (withCursors f w).

#[local] Hint Resolve I_cursors : logic.

(** [saveConversationToMongoDB] never throws, and writes to the
    [conversations] collection only. *)
Lemma returns_saveConversationToMongoDB conversationData :
  (forall docs w, I w -> I (MessageProcessor.setConversations docs w)) ->
  returns I (MessageProcessor.saveConversationToMongoDB env conversationData)
          (fun _ => True).
Proof.
  intros I_conv. unfold MessageProcessor.saveConversationToMongoDB.
  apply returns_tryCatch; [|intros _; by apply returns_ret].
  keeps_step as db. keeps_step. keeps_step.
  eapply keeps_bind;
    [apply returns_keeps, returns_gets with (Q := fun _ => True); done|].
  intros [existing|] _.
  - keeps_step as now. keeps_step.
    eapply keeps_bind;
      [apply returns_keeps, returns_modify; intros; by apply I_conv|].
    intros _ _. by apply keeps_ret.
  - keeps_step as createdAt. keeps_step as lastActivity. keeps_step.
    eapply keeps_bind;
      [apply returns_keeps, returns_modify; intros; by apply I_conv|].
    intros _ _. by apply keeps_ret.
Qed.

Hypothesis I_mappings :
  forall docs w, I w -> I (MessageProcessor.setMappings docs w).
Hypothesis I_sent : forall m w, I w -> I (MessageProcessor.setSent m w).

Lemma keeps_storeMappings db ids originals i botId :
  keeps I (MessageProcessor.storeMappings env db ids originals i botId)
        (fun _ => True).
Proof.
  revert i botId. induction ids as [|pgMessage ids IH]; intros i botId;
    cbn [MessageProcessor.storeMappings]; [by apply keeps_ret|].
  destruct (originals !! i) as [originalMessage|]; [|apply IH].
  destruct (_ && _); [|apply IH].
  keeps_step. keeps_step as createdAt. keeps_step.
  eapply keeps_bind;
    [apply returns_keeps, returns_modify; intros; by apply I_mappings|].
  intros _ _. apply IH.
Qed.

Lemma returns_recordSent conversationData botId :
  returns I (MessageProcessor.recordSent env conversationData botId)
          (fun _ => True).
Proof.
  unfold MessageProcessor.recordSent.
  destruct (MessageProcessor.hasBotMessages conversationData);
    [|by apply returns_ret].
  returns_step as now.
  eapply returns_bind; [apply returns_modify; intros; by apply I_sent|].
  intros _ _.
  eapply returns_bind;
    [apply returns_gets with (Q := fun _ => True); done|intros size _].
  destruct (500 <? size)%nat; [|by apply returns_ret].
  returns_step as now'. apply returns_modify. intros; by apply I_sent.
Qed.

(** Handling the API's answer keeps every invariant that the ID
    mappings and the forwarded-signature map do not bear on. *)
Lemma keeps_processResponse conversationData analyticsResponse :
  keeps I (MessageProcessor.processResponse env conversationData
             analyticsResponse) (fun _ => True).
Proof.
  unfold MessageProcessor.processResponse.
  destruct analyticsResponse as [| |body];
    [apply keeps_throw|by apply keeps_ret|].
  apply keeps_tryCatch; [|intros _; by apply keeps_ret].
  destruct body as [| |ids]; [apply keeps_throw|by apply keeps_ret|].
  keeps_step as db.
  eapply keeps_bind; [apply keeps_storeMappings|intros botId _].
  eapply keeps_bind; [apply returns_keeps, returns_recordSent|intros _ _].
  by apply keeps_ret.
Qed.

(** [sendConversationToAnalytics] never throws. *)
Lemma returns_sendConversationToAnalytics conversationData :
  (forall f w, I w -> I (withAnalytics f w)) ->
  returns I (MessageProcessor.sendConversationToAnalytics env conversationData)
          (fun _ => True).
Proof.
  intros I_analytics. unfold MessageProcessor.sendConversationToAnalytics.
  apply returns_tryCatch; [|intros _; by apply returns_ret].
  eapply keeps_bind;
    [apply returns_keeps, returns_gets with (Q := fun _ => True); done|].
  intros [previouslySent|] _.
  - keeps_step. by apply keeps_ret.
  - eapply keeps_bind with (Q1 := fun _ => True).
    { intros w Hw. cbn. split; [|done]. by apply I_analytics, I_cursors. }
    intros reply _. apply keeps_processResponse.
Qed.

End Collaborators.

Lemma find_conversation_none id docs :
  find (fun d => String.eqb (c_id (cd_data d)) id) docs = None ->
  forall d, d ∈ docs -> c_id (cd_data d) <> id.
Proof.
  induction docs as [|x docs IH]; cbn; [by intros _ d ?%not_elem_of_nil|].
  destruct (String.eqb _ id) eqn:Hx; [done|].
  intros H d [->|Hd]%elem_of_cons; [by apply String.eqb_neq|by apply IH].
Qed.

Lemma find_conversation_some id docs stored :
  find (fun d => String.eqb (c_id (cd_data d)) id) docs = Some stored ->
  exists earlier later,
    docs = earlier ++ stored :: later
    /\ (forall d, d ∈ earlier -> c_id (cd_data d) <> id)
    /\ c_id (cd_data stored) = id.
Proof.
  induction docs as [|x docs IH]; cbn; [done|].
  destruct (String.eqb _ id) eqn:Hx.
  - intros [= <-]. exists [], docs. split; [done|].
    split; [by intros d ?%not_elem_of_nil|by apply String.eqb_eq].
  - intros (earlier & later & -> & Hearlier & Hid)%IH.
    exists (x :: earlier), later. split; [done|]. split; [|done].
    intros d [->|Hd]%elem_of_cons; [by apply String.eqb_neq|by apply Hearlier].
Qed.

Lemma pushMessages_first conversationData now earlier stored later :
  (forall d, d ∈ earlier -> c_id (cd_data d) <> c_id conversationData) ->
  c_id (cd_data stored) = c_id conversationData ->
  MessageProcessor.pushMessages (c_id conversationData)
    (c_messages conversationData) (c_endedAt conversationData) now
    (earlier ++ stored :: later)
  = earlier ++ extended conversationData now stored :: later.
Proof.
  intros Hearlier Hid. induction earlier as [|x earlier IH];
    cbn [app MessageProcessor.pushMessages].
  - destruct (String.eqb _ _) eqn:Hstored; [done|].
    by apply String.eqb_neq in Hstored.
  - replace (String.eqb _ _) with false
      by (symmetry; apply String.eqb_neq, Hearlier; by left).
    rewrite IH; [done|]. intros d Hd. apply Hearlier. by right.
Qed.

(** [saveConversationToMongoDB] never throws and writes to the
    [conversations] collection only.  It returns true exactly when the
    store took the connection, the lookup and the write, and then the
    conversation was written, once; otherwise the collection is as it
    was. *)
Lemma saveConversationToMongoDB_cases env conversationData w :
  let n := nDb (cursors w) in
  let taken :=
    match connectReply env n with
    | Connected => negb (dbFails env (S n)) && negb (dbFails env (S (S n)))
    | _ => false
    end in
  exists w',
    MessageProcessor.saveConversationToMongoDB env conversationData w
      = (Returns taken, w')
    /\ saveFrame w w'
    /\ if taken
       then persistedOnce conversationData (conversations (mongo w))
                          (conversations (mongo w'))
       else conversations (mongo w') = conversations (mongo w).
Proof.
  cbv zeta.
  unfold MessageProcessor.saveConversationToMongoDB, tryCatch.
  unfold bind at 1, Runtime.connectToDatabase.
  destruct (connectReply env (nDb (cursors w)));
    [|eexists; split; [reflexivity|]; split; [by repeat split|done]..].
  cbn [Runtime.collection]. run.
  unfold bind at 1, Runtime.dbOp.
  cbn [withCursors cursors Runtime.tickDb nDb].
  destruct (dbFails env (S (nDb (cursors w))));
    [eexists; split; [reflexivity|]; split; [by repeat split|done]|].
  run. cbn [withCursors mongo negb andb].
  destruct (find _ (conversations (mongo w))) as [existing|] eqn:Hfind.
  - run. unfold bind at 1, Runtime.dbOp.
    cbn [withCursors cursors Runtime.tickDb Runtime.tickTime nDb].
    destruct (dbFails env (S (S (nDb (cursors w))))).
    + eexists. split; [reflexivity|]. split; [by repeat split|done].
    + run. eexists. split; [reflexivity|]. split; [by repeat split|].
      right. cbn.
      apply find_conversation_some
        in Hfind as (earlier & later & Hdocs & Hearlier & Hid).
      exists earlier, existing, later. eexists.
      split; [exact Hdocs|]. split; [exact Hearlier|]. split; [exact Hid|].
      rewrite Hdocs. by apply pushMessages_first.
  - run. unfold bind at 1, Runtime.dbOp.
    cbn [withCursors cursors Runtime.tickDb Runtime.tickTime nDb].
    destruct (dbFails env (S (S (nDb (cursors w))))).
    + eexists. split; [reflexivity|]. split; [by repeat split|done].
    + run. eexists. split; [reflexivity|]. split; [by repeat split|].
      left. split; [by apply find_conversation_none|].
      eexists _, _. reflexivity.
Qed.






(** ** The background continuation *)

(** The log line of [processMessagePair] changes nothing: it hands on
    the two texts and the metadata, or throws. *)
Lemma keeps_logPair (I : World -> Prop) userMessage botResponse metadata :
  keeps I (MessageProcessor.logPair userMessage botResponse metadata)
    (fun logged =>
       userMessage = Some logged.1.1 /\ botResponse = Some logged.1.2
       /\ metadata = Some logged.2).
Proof.
  intros w Hw. destruct userMessage, botResponse, metadata; cbn; auto.
Qed.

(** Invariants that bear on the server's own state only are kept by
    everything the message processor does. *)
Section ServerInvariant.
Variable env : Env.
Variable I : World -> Prop.
Hypothesis I_server : forall w w', server w' = server w -> I w -> I w'.

Lemma returns_getOrCreateSession_server token :
  returns I (SessionManager.getOrCreateSession env token) (fun _ => True).
Proof.
  apply returns_getOrCreateSession; try done;
    (intros; eapply I_server; [|eassumption]; reflexivity).
Qed.

Lemma returns_processMessagePair userMessage botResponse metadata :
  returns I (MessageProcessor.processMessagePair env userMessage botResponse
               metadata) (fun _ => True).
Proof.
  assert (forall f w, I w -> I (withCursors f w)) as I_cursors
    by (intros; eapply I_server; [|eassumption]; reflexivity).
  unfold MessageProcessor.processMessagePair.
  apply returns_tryCatch; [|intros e; by apply returns_ret].
  eapply keeps_bind; [apply keeps_logPair|intros [[user bot] meta] _].
  cbn [fst snd]. destruct (_ || _); [by apply keeps_ret|].
  eapply keeps_bind;
    [apply returns_keeps, returns_getOrCreateSession_server|intros s _].
  eapply keeps_bind;
    [apply returns_keeps, returns_gets with (Q := fun _ => True); done|].
  intros [|] _; [by apply keeps_ret|].
  eapply keeps_bind.
  { apply returns_keeps, returns_modify.
    intros; eapply I_server; [|eassumption]; reflexivity. }
  intros _ _.
  eapply keeps_bind;
    [apply returns_keeps, (returns_assemblePair env I I_cursors)|].
  intros a _. cbv zeta.
  eapply keeps_bind.
  { apply returns_keeps, returns_saveConversationToMongoDB; [done|].
    intros; eapply I_server; [|eassumption]; reflexivity. }
  intros _ _.
  eapply keeps_bind.
  { apply returns_keeps, returns_sendConversationToAnalytics; try done;
      (intros; eapply I_server; [|eassumption]; reflexivity). }
  intros r _. by apply keeps_ret.
Qed.

Lemma returns_broadcastConversation userMessage botResponse language topic
    clientSessionId status :
  returns I (Server.broadcastConversation env userMessage botResponse language
               topic clientSessionId status) (fun _ => True).
Proof.
  assert (forall f w, I w -> I (withCursors f w)) as I_cursors
    by (intros; eapply I_server; [|eassumption]; reflexivity).
  unfold Server.broadcastConversation.
  apply returns_tryCatch; [|intros _; by apply returns_ret].
  destruct (_ || _); [by apply keeps_ret|].
  eapply keeps_bind;
    [apply returns_keeps, returns_processMessagePair|intros r _].
  destruct r; [|by apply keeps_ret].
  eapply keeps_bind;
    [apply returns_keeps, returns_getOrCreateSession_server|intros s _].
  eapply keeps_bind;
    [apply returns_keeps, returns_newDateISO, I_cursors|intros ? _].
  eapply keeps_bind with (Q1 := fun _ => True); [|intros _ _; by apply keeps_ret].
  intros w Hw. unfold Server.pusherTrigger.
  destruct (pusherFails env _); auto.
Qed.

End ServerInvariant.

(** The continuation of a reply that had no cache entry before it leaves
    the server's state as it finds it, so also the freshly cached
    payload and its [postgresqlMessageId], whatever remote ID the
    forwarding obtained. *)
Lemma runContinuation_fresh env k w :
  Server.k_cached k = None ->
  exists w', Server.runContinuation env k w = (Returns tt, w')
             /\ server w' = server w.
Proof.
  intros Hk. unfold Server.runContinuation. rewrite Hk.
  assert (returns (fun w' => server w' = server w)
            (Server.broadcastConversation env (Server.k_userMessage k)
               (Server.k_response k) (Server.k_language k) (Server.k_topic k)
               (Some (Server.k_sessionId k)) "active") (fun _ => True)) as H.
  { apply returns_broadcastConversation. intros ?? -> ->. reflexivity. }
  destruct (H w eq_refl) as (r & w' & Hrun & Hserver & _).
  unfold tryCatch. rewrite (run_returned _ _ _ _ _ Hrun). eauto.
Qed.

(** The continuation of a reply that replaced a stale entry writes
    through the stale entry's reference only: the cache map is as it
    finds it, and so is every payload object but the stale one. *)
Lemma runContinuation_stale env k w old r :
  Server.k_cached k = Some old ->
  r <> ce_response old ->
  exists w', Server.runContinuation env k w = (Returns tt, w')
             /\ responseCache (server w') = responseCache (server w)
             /\ heap (server w') !! r = heap (server w) !! r.
Proof.
  intros Hk Hr. unfold Server.runContinuation. rewrite Hk.
  assert (returns (fun w' => server w' = server w)
            (Server.broadcastConversation env (Server.k_userMessage k)
               (Server.k_response k) (Server.k_language k) (Server.k_topic k)
               (Some (Server.k_sessionId k)) "active") (fun _ => True)) as H.
  { apply returns_broadcastConversation. intros ?? -> ->. reflexivity. }
  destruct (H w eq_refl) as (result & w' & Hrun & Hserver & _).
  unfold tryCatch. rewrite (run_returned _ _ _ _ _ Hrun).
  destruct (JS.truthyOpt (Server.b_postgresqlId result)).
  - eexists. split; [reflexivity|]. cbn. rewrite Hserver.
    split; [reflexivity|]. by apply lookup_alter_ne.
  - eexists. split; [reflexivity|]. by rewrite Hserver.
Qed.

(** C6, at the first request [{ message: "hi", sessionId: "s1" }] of a
    fresh server: the reply is cached, the continuation forwards the
    exchange and obtains the remote ID [pg-42] for the reply, and the
    cached payload's [postgresqlMessageId] is still [null] afterwards. *)
Theorem chat_backfill_misses_cached_entry :
  exists reply k w1 w2 entry payload,
    Server.chat demoEnv demoRequest emptyWorld = (Returns (reply, Some k), w1)
    /\ Server.runContinuation demoEnv k w1 = (Returns tt, w2)
    /\ postgresqlId <$> last (message_id_mappings (mongo w2)) = Some "pg-42"
    /\ responseCache (server w2) !! "s1:hi:en:0:0" = Some entry
    /\ heap (server w2) !! ce_response entry = Some payload
    /\ rd_message payload = "hello"
    /\ rd_postgresqlMessageId payload = None.
Proof.
  do 6 eexists.
  split; [vm_compute; reflexivity|].
  split; [vm_compute; reflexivity|].
  split; [vm_compute; reflexivity|].
  split; [vm_compute; reflexivity|].
  split; [vm_compute; reflexivity|].
  split; reflexivity.
Qed.

(** ** The session store under storage failures *)

(** C9: [getOrCreateSession] never throws.  From a state whose stored
    sessions are usable it returns, for every token and whatever the
    store does at any stage, a session carrying a [sessionId] and a
    [conversationId], and leaves the stored sessions usable; while every
    connection is rejected that session lives in the session cache only
    and the durable store is untouched. *)
Theorem getOrCreateSession_never_raises env token w :
  wellFormed w ->
  exists s w',
    SessionManager.getOrCreateSession env token w = (Returns s, w')
    /\ sessionId s <> "" /\ conversationId s <> ""
    /\ wellFormed w'
    /\ ((forall n, connectReply env n = Rejected) ->
        mongo w' = mongo w
        /\ exists key, sessionCache (proc w') !! key = Some s).
Proof.
  intros Hw.
  destruct (getOrCreateSession_wellFormed env token w Hw)
    as (s & w' & Hrun & Hw' & Hsid & Hcid).
  exists s, w'. repeat (split; [done|]).
  intros Hrej.
  destruct (getOrCreateSession_offline env token w Hrej)
    as (? & ? & Hrun' & Hmongo & Hcached).
  rewrite Hrun in Hrun'. by injection Hrun' as <- <-.
Qed.

Lemma getOrCreateSession_never_raises_witness :
  exists s w',
    SessionManager.getOrCreateSession offlineEnv (Some "s1") emptyWorld
      = (Returns s, w')
    /\ sessionId s <> "" /\ conversationId s <> "".
Proof.
  destruct (getOrCreateSession_never_raises offlineEnv (Some "s1") emptyWorld
              wellFormed_emptyWorld) as (s & w' & ? & ? & ? & _).
  by exists s, w'.
Defined.

(** ** Concrete scenarios *)

Lemma normalizeConversation_legacy_pair_witness :
  exists c w',
    DataModels.normalizeConversation demoEnv (Some rawPair) emptyWorld
      = (Returns c, w')
    /\ c_id c <> "" /\ length (c_messages c) = 2%nat.
Proof.
  destruct (normalizeConversation_legacy_pair demoEnv emptyWorld
              (demo_iso_dates _))
    as (c & w' & u & b & tu & tb & Hrun & Hid & Hms & _).
  exists c, w'. rewrite Hms. by repeat split.
Defined.

Lemma responseCache_roundtrip_witness :
  exists w3,
    Server.cacheGet demoEnv "s1:hi:en:0:0"
      (cacheWrite demoEnv "s1:hi:en:0:0" demoPayload emptyWorld).2
    = (Returns (Server.Hit demoPayload), w3).
Proof.
  destruct (responseCache_roundtrip demoEnv "s1:hi:en:0:0" demoPayload
              emptyWorld
              (cacheWrite demoEnv "s1:hi:en:0:0" demoPayload emptyWorld).2
              (cacheWrite demoEnv "s1:hi:en:0:0" demoPayload emptyWorld).2
              eq_refl eq_refl) as [Hhit _].
  apply Hhit. vm_compute. reflexivity.
Defined.

Lemma sendConversationToAnalytics_short_circuit_witness :
  MessageProcessor.sendConversationToAnalytics demoEnv forwardedConversation
    forwardedWorld
  = (Returns (MessageProcessor.mkAnalyticsResult true (Some "pg-42") true),
     withCursors Runtime.tickTime forwardedWorld).
Proof.
  apply (sendConversationToAnalytics_short_circuit demoEnv
           forwardedConversation forwardedWorld (mkSentEntry 4 (Some "pg-42"))).
  - reflexivity.
  - vm_compute. reflexivity.
Defined.

Lemma chat_cache_hit_witness :
  exists payload w3,
    Server.chat demoEnv demoRequest
      (Server.chat demoEnv demoRequest emptyWorld).2
    = (Returns (Server.mkHttpReply 200 (Server.Payload payload), None), w3)
    /\ proc w3 = proc (Server.chat demoEnv demoRequest emptyWorld).2.
Proof.
  edestruct (chat_cache_hit demoEnv demoRequest
               (Server.chat demoEnv demoRequest emptyWorld).2)
    as (Hrun & Hproc & _).
  - vm_compute. reflexivity.
  - reflexivity.
  - vm_compute. reflexivity.
  - eexists _, _. split; [exact Hrun|exact Hproc].
Defined.

Lemma mapping_resolves_from_either_side_witness :
  let w := (MessageProcessor.createMessageIdMapping demoEnv (Some "msg-7")
              (Some "pg-41") None emptyWorld).2 in
  let w1 := (MessageProcessor.createMessageIdMapping demoEnv (Some "msg-7")
               (Some "pg-42") None w).2 in
  length (message_id_mappings (mongo w)) = 1%nat
  /\ length (message_id_mappings (mongo w1)) = 1%nat
  /\ exists d w3,
       MessageProcessor.lookupMapping demoEnv "pg-42" w1
       = (Returns (Some d, "pg-42"), w3)
       /\ mongodbId d = "msg-7" /\ postgresqlId d = "pg-42".
Proof.
  intros w w1. split; [reflexivity|].
  apply (mapping_resolves_from_either_side demoEnv "msg-7" "pg-42" None w
           (MessageProcessor.MappingUpdated "msg-7" "pg-42") w1).
  - discriminate.
  - discriminate.
  - intros d Hd. vm_compute in Hd.
    apply list_elem_of_singleton in Hd as ->. split; discriminate.
  - vm_compute. reflexivity.
  - exact Logic.I.
  - by right.
  - reflexivity.
  - reflexivity.
  - reflexivity.
Defined.


(** ** dataModels.js: sorting, idempotence and the legacy pair *)

Lemma insertSorted_perm env x l : DataModels.insertSorted env x l ≡ₚ x :: l.
Proof.
  induction l as [|y l IH]; cbn; [done|].
  destruct (0 <? _)%Z; [done|]. rewrite IH. apply Permutation_swap.
Qed.

Lemma fold_insertSorted_perm env ms acc :
  fold_left (fun acc x => DataModels.insertSorted env x acc) ms acc
  ≡ₚ acc ++ ms.
Proof.
  revert acc. induction ms as [|x ms IH]; intros acc; cbn.
  - by rewrite app_nil_r.
  - rewrite IH, insertSorted_perm. cbn. apply Permutation_middle.
Qed.

Lemma ascending_cons env a l :
  ascending env (a :: l) = true
  <-> Forall (fun b => DataModels.compareTimestamps env a b <= 0) l
      /\ ascending env l = true.
Proof.
  cbn [ascending]. rewrite andb_true_iff, forallb_forall, Forall_forall.
  split; intros [H ?]; (split; [|done]); intros b Hb.
  - apply Z.leb_le, H. by apply list_elem_of_In.
  - apply Z.leb_le, H. by apply list_elem_of_In.
Qed.

Lemma compareTimestamps_timed env a b :
  timed env a -> timed env b ->
  exists x y,
    DataModels.getTime env (m_timestamp a) = Some x
    /\ DataModels.getTime env (m_timestamp b) = Some y
    /\ DataModels.compareTimestamps env a b = x - y.
Proof.
  intros [x Hx] [y Hy]. exists x, y.
  unfold DataModels.compareTimestamps. by rewrite Hx, Hy.
Qed.

Lemma insertSorted_ascending env x l :
  timed env x -> Forall (timed env) l ->
  ascending env l = true ->
  ascending env (DataModels.insertSorted env x l) = true.
Proof.
  intros Hx Hl. induction Hl as [|y l Hy Hl IH]; [done|].
  intros [Hall Hasc]%ascending_cons. cbn [DataModels.insertSorted].
  destruct (compareTimestamps_timed env y x Hy Hx) as (ty & tx & Ey & Ex & Eyx).
  destruct (0 <? _)%Z eqn:Hlt.
  - apply Z.ltb_lt in Hlt. apply ascending_cons. split.
    + constructor.
      * unfold DataModels.compareTimestamps. rewrite Ex, Ey. lia.
      * rewrite Forall_forall in Hall, Hl |- *. intros b Hb.
        specialize (Hall b Hb).
        destruct (compareTimestamps_timed env y b Hy (Hl b Hb))
          as (ty' & tb & Ey' & Eb & Eyb).
        unfold DataModels.compareTimestamps in *.
        rewrite Ex, Eb. rewrite Ey, Eb in Hall. rewrite Ey, Ex in Hlt. lia.
    + by apply ascending_cons.
  - apply Z.ltb_ge in Hlt. apply ascending_cons. split; [|by apply IH].
    rewrite (insertSorted_perm env x l). by constructor.
Qed.

(** X1: When every timestamp parses, the sort of
    [normalizeConversation] puts the messages in ascending timestamp
    order, dropping and repeating none. *)
Theorem sortMessages_sorts env ms :
  Forall (timed env) ms ->
  DataModels.sortMessages env ms ≡ₚ ms
  /\ ascending env (DataModels.sortMessages env ms) = true.
Proof.
  intros Hms. split; [apply (fold_insertSorted_perm env ms [])|].
  unfold DataModels.sortMessages.
  cut (forall acc, Forall (timed env) acc -> ascending env acc = true ->
         ascending env
           (fold_left (fun acc x => DataModels.insertSorted env x acc) ms acc)
         = true).
  { intros H. by apply H. }
  induction Hms as [|x ms Hx Hms IH]; intros acc Hacc Hasc; [done|].
  cbn [fold_left]. apply IH.
  - rewrite (insertSorted_perm env x acc). by constructor.
  - by apply insertSorted_ascending.
Qed.

Lemma sortMessages_sorts_witness :
  DataModels.sortMessages demoEnv shuffled ≡ₚ shuffled
  /\ ascending demoEnv (DataModels.sortMessages demoEnv shuffled) = true.
Proof.
  apply (sortMessages_sorts demoEnv shuffled).
  repeat constructor; vm_compute; eauto.
Defined.

Lemma insertSorted_last env x acc rest :
  ascending env (acc ++ x :: rest) = true ->
  DataModels.insertSorted env x acc = acc ++ [x].
Proof.
  induction acc as [|y acc IH]; [done|].
  cbn [app]. intros [Hall Hasc]%ascending_cons. cbn [DataModels.insertSorted].
  rewrite Forall_app, Forall_cons in Hall. destruct Hall as (_ & Hyx & _).
  replace (0 <? _)%Z with false by (symmetry; by apply Z.ltb_ge).
  by rewrite IH.
Qed.

(** X2: The sort is stable: a message list that is already in ascending
    timestamp order comes back as it is, messages of equal or unparsable
    timestamps keeping their places. *)
Theorem sortMessages_stable env ms :
  ascending env ms = true -> DataModels.sortMessages env ms = ms.
Proof.
  unfold DataModels.sortMessages.
  cut (forall acc, ascending env (acc ++ ms) = true ->
         fold_left (fun acc x => DataModels.insertSorted env x acc) ms acc
         = acc ++ ms).
  { intros H. apply (H []). }
  induction ms as [|x ms IH]; intros acc Hasc; cbn [fold_left].
  - by rewrite app_nil_r.
  - rewrite (insertSorted_last env x acc ms Hasc).
    rewrite IH; rewrite <- app_assoc; done.
Qed.

Lemma sortMessages_stable_witness :
  DataModels.sortMessages demoEnv (DataModels.sortMessages demoEnv shuffled)
  = DataModels.sortMessages demoEnv shuffled.
Proof.
  apply (sortMessages_stable demoEnv (DataModels.sortMessages demoEnv shuffled)).
  vm_compute. reflexivity.
Defined.

Lemma normalizeMessage_fixed env m w :
  JS.truthy (m_id m) = true ->
  JS.truthy (m_timestamp m) = true ->
  JS.truthy (m_language m) = true ->
  canonicalRole (m_role m) ->
  m_type m = (if String.eqb (m_role m) "user" then "user" else "bot") ->
  JS.orOpt (m_postgresqlId m) None = m_postgresqlId m ->
  DataModels.normalizeMessage env (Some (DataModels.rawOfMessage m)) w
  = (Returns m, w).
Proof.
  destruct m as [id content role type ts language pg]. cbn.
  intros Hid Hts Hlang Hrole -> Hpg.
  unfold DataModels.normalizeMessage, DataModels.rawOfMessage,
    DataModels.determineRole.
  cbn [r_id r_content r_role r_sender r_type r_defaultRole r_timestamp
       r_language r_postgresqlId JS.truthyOpt JS.orElse DataModels.isStr].
  rewrite Hid, Hts, Hlang, Hpg. run.
  assert (JS.orElse (Some content) "" = content) as Hcontent
    by by destruct content.
  cbn [JS.orElse] in Hcontent. rewrite Hcontent.
  by destruct Hrole as [-> | ->].
Qed.

(** X3: Normalising is idempotent on the two canonical roles: a message
    that [normalizeMessage] returned with role [user] or [assistant] is
    returned unchanged when it is normalised again, and no clock or
    random number is read for it. *)
Theorem normalizeMessage_idempotent env raw w m w1 w2 :
  (forall t, toISOString env t <> "") ->
  DataModels.normalizeMessage env (Some raw) w = (Returns m, w1) ->
  canonicalRole (m_role m) ->
  DataModels.normalizeMessage env (Some (DataModels.rawOfMessage m)) w2
  = (Returns m, w2).
Proof.
  intros Hiso Hrun Hrole.
  assert (forall o, JS.orOpt (JS.orOpt o None) None = JS.orOpt o None) as Hpg.
  { intros [[|]|]; reflexivity. }
  assert (forall o d, JS.truthy d = true -> JS.truthy (JS.orElse o d) = true)
    as Hor.
  { intros [[|]|] d Hd; cbn; done. }
  assert (forall o, JS.truthyOpt o = true ->
            JS.truthy (JS.orElse o "") = true) as Hgiven.
  { intros [[|]|]; cbn; done. }
  unfold DataModels.normalizeMessage, bind, ret, Runtime.newDateISO,
    Runtime.dateNow, Runtime.mathRandom36, bind, ret in Hrun.
  destruct (JS.truthyOpt (r_id raw)) eqn:Hid,
           (JS.truthyOpt (r_timestamp raw)) eqn:Hts;
    cbn in Hrun; injection Hrun as <- _;
    apply normalizeMessage_fixed; cbn [m_id m_timestamp m_language m_role
      m_type m_postgresqlId]; auto;
    try (apply truthy_nonempty, Hiso); exact Hrole.
Qed.

Lemma normalizeMessage_idempotent_witness :
  exists m w1,
    DataModels.normalizeMessage demoEnv (Some botRaw) emptyWorld
      = (Returns m, w1)
    /\ DataModels.normalizeMessage demoEnv (Some (DataModels.rawOfMessage m))
         w1 = (Returns m, w1).
Proof.
  destruct (DataModels.normalizeMessage demoEnv (Some botRaw) emptyWorld)
    as [[m|e] w1] eqn:Hrun; [|by vm_compute in Hrun].
  exists m, w1. split; [reflexivity|].
  apply (normalizeMessage_idempotent demoEnv botRaw emptyWorld m w1 w1).
  - apply (demo_iso_dates 1700000000000).
  - exact Hrun.
  - vm_compute in Hrun. injection Hrun as <- _. by right.
Defined.

(** X4: A legacy pair whose [startedAt] is given but is not a date
    makes [normalizeConversation] throw a [RangeError]: the reply's
    timestamp is computed from it. *)
Theorem normalizeConversation_invalid_startedAt env conversation started w :
  rc_messages conversation = None ->
  JS.truthyOpt (rc_botResponse conversation) = true ->
  JS.orOpt (rc_startedAt conversation) (rc_startTime conversation)
    = Some started ->
  JS.truthy started = true ->
  DataModels.getTime env started = None ->
  exists w',
    DataModels.normalizeConversation env (Some conversation) w
    = (Throws "RangeError: Invalid time value", w').
Proof.
  intros Hms Hbot Hgiven Hstarted Hparse.
  assert (forall B (k : string -> M B) w0,
            bind (DataModels.oneMillisecondAfter env started) k w0
            = (Throws "RangeError: Invalid time value", w0)) as Hthrows.
  { intros B k w0. unfold DataModels.oneMillisecondAfter. by rewrite Hparse. }
  unfold DataModels.normalizeConversation.
  rewrite Hms, Hbot, Hgiven. cbn [JS.truthyOpt JS.orElse]. rewrite Hstarted.
  destruct (JS.truthyOpt (rc_id conversation)),
           (JS.truthyOpt (rc_endedAt conversation)),
           (JS.truthyOpt (rc_userMessage conversation));
    run; cbn [andb negb DataModels.someRole existsb];
    unfold DataModels.normalizeMessage;
    cbn [r_id r_timestamp JS.truthyOpt JS.orElse]; rewrite ?Hstarted; run;
    cbn [app DataModels.someRole existsb m_role DataModels.determineRole
         r_role r_sender r_type DataModels.isStr String.eqb Ascii.eqb
         Bool.eqb orb negb andb];
    run; rewrite ?Hthrows; eauto.
Qed.

Lemma normalizeConversation_invalid_startedAt_witness :
  exists w',
    DataModels.normalizeConversation demoEnv (Some undatedPair) emptyWorld
    = (Throws "RangeError: Invalid time value", w').
Proof.
  apply (normalizeConversation_invalid_startedAt demoEnv undatedPair
           "yesterday" emptyWorld); reflexivity.
Defined.

Lemma sameStores_cursors w0 f w : sameStores w0 w -> sameStores w0 (withCursors f w).
Proof. by intros (?&?&?&?). Qed.

Section Normalize.
Variable env : Env.
Variable I : World -> Prop.
Hypothesis I_cursors : forall f w, I w -> I (withCursors f w).

#[local] Hint Resolve I_cursors : logic.

Lemma returns_normalizeConversation_messages conversation raws :
  rc_messages conversation = Some raws ->
  JS.truthyOpt (rc_userMessage conversation) = false ->
  JS.truthyOpt (rc_botResponse conversation) = false ->
  Forall is_Some raws ->
  returns I (DataModels.normalizeConversation env (Some conversation))
    (fun c => exists ms,
       Forall2 normalizesElement raws ms /\ c_messages c ≡ₚ ms).
Proof.
  intros Hms Huser Hbot Hall. unfold DataModels.normalizeConversation.
  rewrite Hms, Huser, Hbot. cbn [andb].
  eapply returns_bind with (Q1 := fun _ => True).
  { destruct (JS.truthyOpt (rc_id conversation)); [by apply returns_ret|].
    do 2 returns_step. by apply returns_ret. }
  intros cid _.
  eapply returns_bind with (Q1 := fun _ => True).
  { cbv zeta. destruct (JS.truthyOpt (JS.orOpt _ _)); [by apply returns_ret|].
    eauto with logic. }
  intros startedAt _.
  eapply returns_bind with (Q1 := fun _ => True).
  { destruct (JS.truthyOpt (rc_endedAt conversation));
      [by apply returns_ret|eauto with logic]. }
  intros endedAt _.
  eapply returns_bind.
  { apply (returns_mapM I _ normalizesElement is_Some);
      [intros raw; by apply returns_normalizeElement|done]. }
  intros ms Hnormal.
  do 2 (eapply returns_bind;
          [apply returns_ret with (Q := fun l => l = ms); reflexivity
          |intros ? ->]).
  apply returns_ret. exists ms. split; [done|].
  apply (fold_insertSorted_perm env ms []).
Qed.

(** A message array with a missing element: [map] throws at the first
    one, the elements before it having been normalised. *)
Lemma keeps_mapM_missing raws :
  None ∈ raws ->
  forall w, I w ->
    exists w',
      mapM (DataModels.normalizeMessage env) raws w
      = (Throws "Cannot normalize undefined message", w')
      /\ I w'.
Proof.
  induction raws as [|raw raws IH]; [by intros ?%not_elem_of_nil|].
  intros Hin w Hw. cbn [mapM]. destruct raw as [message|].
  - apply elem_of_cons in Hin as [[=]|Hin].
    destruct (returns_normalizeMessage env I I_cursors message w Hw)
      as (m & w1 & Hrun & Hw1 & _).
    rewrite (run_returned _ _ _ _ _ Hrun).
    destruct (IH Hin w1 Hw1) as (w' & Hrest & Hw').
    exists w'. unfold bind at 1. by rewrite Hrest.
  - exists w. done.
Qed.

Lemma keeps_normalizeConversation_missing conversation raws :
  rc_messages conversation = Some raws ->
  None ∈ raws ->
  forall w, I w ->
    exists w',
      DataModels.normalizeConversation env (Some conversation) w
      = (Throws "Cannot normalize undefined message", w')
      /\ I w'.
Proof.
  intros Hms Hin w Hw. unfold DataModels.normalizeConversation. rewrite Hms.
  assert (forall B (k : list Message -> M B) w0, I w0 ->
            exists w',
              bind (mapM (DataModels.normalizeMessage env) raws) k w0
              = (Throws "Cannot normalize undefined message", w')
              /\ I w') as Hthrows.
  { intros B k w0 Hw0.
    destruct (keeps_mapM_missing raws Hin w0 Hw0) as (w' & Hrun & Hw').
    exists w'. unfold bind. by rewrite Hrun. }
  cbv zeta.
  destruct (JS.truthyOpt (rc_id conversation)),
           (JS.truthyOpt (JS.orOpt (rc_startedAt conversation)
                                   (rc_startTime conversation))),
           (JS.truthyOpt (rc_endedAt conversation));
    run; apply Hthrows; auto.
Qed.

End Normalize.

(** X5: On an explicit message array without the legacy fields
    [normalizeConversation] reads nothing but the clock and the random
    source.  When every element of the array is there, it returns one
    normalised message for each of them, none dropped and none added, in
    the order the sort leaves them in; when an element is [null] or
    otherwise falsy it throws, as [normalizeMessage] does for it. *)
Theorem normalizeConversation_keeps_messages env conversation raws w :
  rc_messages conversation = Some raws ->
  JS.truthyOpt (rc_userMessage conversation) = false ->
  JS.truthyOpt (rc_botResponse conversation) = false ->
  (Forall is_Some raws ->
   exists c w' ms,
     DataModels.normalizeConversation env (Some conversation) w
       = (Returns c, w')
     /\ sameStores w w'
     /\ Forall2 normalizesElement raws ms
     /\ c_messages c ≡ₚ ms)
  /\ (None ∈ raws ->
      exists w',
        DataModels.normalizeConversation env (Some conversation) w
          = (Throws "Cannot normalize undefined message", w')
        /\ sameStores w w').
Proof.
  intros Hms Huser Hbot. split.
  - intros Hall.
    destruct (returns_normalizeConversation_messages env (sameStores w)
                (sameStores_cursors w) conversation raws Hms Huser Hbot Hall
                w)
      as (c & w' & Hrun & Hsame & ms & Hnormal & Hperm); [by repeat split|].
    by exists c, w', ms.
  - intros Hin.
    apply (keeps_normalizeConversation_missing env (sameStores w)
             (sameStores_cursors w) conversation raws Hms Hin).
    by repeat split.
Qed.

Lemma normalizeConversation_keeps_messages_witness :
  (exists c w',
     DataModels.normalizeConversation demoEnv
       (Some (mkRawConversation (Some "s1_1") None None None
                (Some (map (fun m => Some (DataModels.rawOfMessage m))
                           shuffled))
                None None None None None None None None)) emptyWorld
     = (Returns c, w')
     /\ length (c_messages c) = 3%nat)
  /\ exists w',
       DataModels.normalizeConversation demoEnv
         (Some (mkRawConversation (Some "s1_1") None None None
                  (Some [Some botRaw; None]) None None None None None None
                  None None)) emptyWorld
       = (Throws "Cannot normalize undefined message", w').
Proof.
  split.
  - destruct (normalizeConversation_keeps_messages demoEnv
                (mkRawConversation (Some "s1_1") None None None
                   (Some (map (fun m => Some (DataModels.rawOfMessage m))
                              shuffled))
                   None None None None None None None None)
                (map (fun m => Some (DataModels.rawOfMessage m)) shuffled)
                emptyWorld eq_refl eq_refl eq_refl) as [Hreturns _].
    destruct Hreturns as (c & w' & ms & Hrun & _ & Hall & Hperm);
      [by repeat constructor|].
    exists c, w'. split; [exact Hrun|].
    rewrite Hperm. symmetry. apply (Forall2_length _ _ _ Hall).
  - destruct (normalizeConversation_keeps_messages demoEnv
                (mkRawConversation (Some "s1_1") None None None
                   (Some [Some botRaw; None]) None None None None None None
                   None None)
                [Some botRaw; None] emptyWorld eq_refl eq_refl eq_refl)
      as [_ Hthrows].
    destruct Hthrows as (w' & Hrun & _); [by right; left|].
    by exists w'.
Defined.

(** ** messageProcessor.js: the processed-signature set *)

Lemma filter_old_nil (old l : list string) :
  l ⊆ old ->
  filter (fun entry => negb (existsb (String.eqb entry) old)) l = [].
Proof.
  induction l as [|x l IH]; intros Hsub; [done|].
  rewrite filter_cons_False.
  - apply IH. intros y Hy. apply Hsub. by right.
  - assert (existsb (String.eqb x) old = true) as ->; [|intros []].
    apply existsb_eqb_elem, Hsub. by left.
Qed.

Lemma filter_old_id (old l : list string) :
  (forall x, x ∈ l -> x ∉ old) ->
  filter (fun entry => negb (existsb (String.eqb entry) old)) l = l.
Proof.
  induction l as [|x l IH]; intros Hnew; [done|].
  rewrite filter_cons_True.
  - f_equal. apply IH. intros y Hy. apply Hnew. by right.
  - assert (existsb (String.eqb x) old = false) as ->; [|done].
    apply not_true_iff_false. intros H%existsb_eqb_elem.
    by apply (Hnew x); [left|].
Qed.

Lemma filter_old_drop (old : list string) n l :
  take n l ⊆ old ->
  filter (fun entry => negb (existsb (String.eqb entry) old)) l
  = filter (fun entry => negb (existsb (String.eqb entry) old)) (drop n l).
Proof.
  intros Hold. rewrite <- (take_drop n l) at 1.
  by rewrite filter_app, filter_old_nil.
Qed.

(** X6: Lines 62-68 on a full set: the 500 oldest signatures go, the
    500 newest stay in their order, followed by the one just added. *)
Theorem rememberProcessed_prunes signature processed :
  NoDup processed -> signature ∉ processed ->
  length processed = 1000%nat ->
  MessageProcessor.rememberProcessed signature processed
  = drop 500 processed ++ [signature].
Proof.
  intros Hnodup Hnew Hlen. unfold MessageProcessor.rememberProcessed.
  rewrite length_app, Hlen. cbn [length Nat.add Nat.ltb Nat.leb].
  replace (1000 <? 1000 + 1)%nat with true by (symmetry; apply Nat.ltb_lt; lia).
  rewrite take_app_le by lia.
  rewrite (filter_old_drop _ 500) by (by rewrite take_app_le by lia).
  rewrite drop_app_le by lia.
  apply filter_old_id. intros x Hx Hold.
  rewrite <- (take_drop 500 processed) in Hnodup.
  apply NoDup_app in Hnodup as (_ & Hdisjoint & _).
  apply elem_of_app in Hx as [Hx|Hx%list_elem_of_singleton].
  - by apply (Hdisjoint x).
  - subst x. apply Hnew. by apply (subseteq_take 500).
Qed.

Lemma rememberProcessed_prunes_witness :
  MessageProcessor.rememberProcessed "s2_1:hi:hello" fullSet
  = drop 500 fullSet ++ ["s2_1:hi:hello"].
Proof.
  apply (rememberProcessed_prunes "s2_1:hi:hello" fullSet).
  - assert (Inj (=) (=) (fun n : nat => "s1_1:hi:" +:+ pretty n)) as Hinj.
    { intros a b H. by apply append_inj_l, (inj pretty) in H. }
    apply (NoDup_fmap_2 _), NoDup_seq.
  - intros (n & H & _)%list_elem_of_fmap. discriminate.
  - unfold fullSet. by rewrite length_fmap, length_seq.
Defined.

Lemma rememberProcessed_length signature processed :
  (length processed <= 1000)%nat ->
  (length (MessageProcessor.rememberProcessed signature processed) <= 1000)%nat.
Proof.
  intros Hlen. unfold MessageProcessor.rememberProcessed.
  destruct (1000 <? _)%nat eqn:Hbig.
  - apply Nat.ltb_lt in Hbig. rewrite length_app in Hbig. cbn in Hbig.
    set (added := processed ++ [signature]) in *.
    assert (length added = 1001%nat) as Hadded
      by (unfold added; rewrite length_app; cbn; lia).
    rewrite (filter_old_drop _ 500) by done.
    etrans; [apply length_filter|]. rewrite length_drop. lia.
  - by apply Nat.ltb_ge in Hbig.
Qed.

Lemma returns_try {A} (I : World -> Prop) (m : M A) h Q :
  returns I m Q -> returns I (tryCatch m h) Q.
Proof.
  intros H w Hw. destruct (H w Hw) as (a & w' & Hrun & ? & ?).
  exists a, w'. unfold tryCatch. by rewrite Hrun.
Qed.

Section ProcessorInvariant.
Variable env : Env.
Variable I : World -> Prop.
Hypothesis I_frame : forall w w',
  processedMessages (proc w') = processedMessages (proc w) ->
  server w' = server w -> I w -> I w'.
Hypothesis I_remember : forall signature w,
  I w ->
  I (MessageProcessor.setProcessed
       (MessageProcessor.rememberProcessed signature
          (processedMessages (proc w))) w).

Lemma returns_processMessagePair_settled userMessage botResponse metadata :
  returns I (MessageProcessor.processMessagePair env userMessage botResponse
               metadata) (settled userMessage botResponse metadata).
Proof.
  assert (forall f w, I w -> I (withCursors f w)) as I_cursors
    by (intros; eapply I_frame; [| |eassumption]; reflexivity).
  unfold MessageProcessor.processMessagePair.
  destruct userMessage as [user|];
    [|apply returns_ret; left; split; [done|by left]].
  destruct botResponse as [bot|];
    [|apply returns_ret; left; split; [done|by right; left]].
  destruct metadata as [meta|];
    [|apply returns_ret; left; split; [done|by right; right]].
  apply returns_try. cbn [MessageProcessor.logPair].
  change (bind (ret (user, bot, meta)) ?k) with (k (user, bot, meta)).
  cbn [fst snd].
  destruct (JS.truthy user) eqn:Hu; cbn [negb orb];
    [|apply returns_ret; right; left; repeat (split; [done|]);
      left; by destruct user].
  destruct (JS.truthy bot) eqn:Hb; cbn [negb];
    [|apply returns_ret; right; left; repeat (split; [done|]);
      right; by destruct bot].
  assert (complete (Some user) (Some bot) (Some meta)) as Hcomplete
    by by repeat split.
  eapply returns_bind.
  { apply (returns_getOrCreateSession env I (fun _ => True)); try done;
      (intros; eapply I_frame; [| |eassumption]; reflexivity). }
  intros s _.
  eapply returns_bind;
    [apply returns_gets with (Q := fun _ => True); done|].
  intros [|] _; [apply returns_ret; right; right; done|].
  eapply returns_bind; [apply returns_modify; intros; by apply I_remember|].
  intros _ _.
  eapply returns_bind; [apply (returns_assemblePair env I I_cursors)|].
  intros a _. cbv zeta.
  eapply returns_bind.
  { apply returns_saveConversationToMongoDB; [done|].
    intros; eapply I_frame; [| |eassumption]; reflexivity. }
  intros _ _.
  eapply returns_bind.
  { apply returns_sendConversationToAnalytics; try done;
      (intros; eapply I_frame; [| |eassumption]; reflexivity). }
  intros r _. by apply returns_ret.
Qed.

End ProcessorInvariant.

(** X7: [processMessagePair] never throws.  It reports
    [processing_error] exactly when a text is not a string or the
    metadata is [null], which the log line trips over before anything is
    validated; [incomplete_message_pair] exactly when both texts are
    strings and one of them is empty; otherwise [duplicate_message] or
    success.  It leaves the HTTP server's own state (chat histories,
    response cache) as it finds it. *)
Theorem processMessagePair_settles env userMessage botResponse metadata w :
  exists r w',
    MessageProcessor.processMessagePair env userMessage botResponse metadata w
      = (Returns r, w')
    /\ settled userMessage botResponse metadata r
    /\ server w' = server w.
Proof.
  destruct (returns_processMessagePair_settled env
              (fun w' => server w' = server w)
              ltac:(cbn; intros ?? _ H1 H2; congruence)
              ltac:(intros ?? H; exact H)
              userMessage botResponse metadata w eq_refl)
    as (r & w' & Hrun & Hserver & Hr).
  by exists r, w'.
Qed.

(** X8: The set of processed signatures never grows beyond 1000
    entries: a call of [processMessagePair] that starts with at most
    1000 ends with at most 1000, whatever it is given and whatever the
    collaborators do. *)
Theorem processMessagePair_bounded env userMessage botResponse metadata w :
  (length (processedMessages (proc w)) <= 1000)%nat ->
  exists r w',
    MessageProcessor.processMessagePair env userMessage botResponse metadata w
      = (Returns r, w')
    /\ (length (processedMessages (proc w')) <= 1000)%nat.
Proof.
  intros Hw.
  destruct (returns_processMessagePair_settled env
              (fun w => (length (processedMessages (proc w)) <= 1000)%nat)
              ltac:(cbn; intros ?? H _ ?; by rewrite H)
              ltac:(intros; by apply rememberProcessed_length)
              userMessage botResponse metadata w Hw)
    as (r & w' & Hrun & Hbound & _).
  by exists r, w'.
Qed.

Lemma processMessagePair_bounded_witness :
  exists r w',
    MessageProcessor.processMessagePair demoEnv (Some "hi") (Some "hello")
      (Some demoMetadata) (MessageProcessor.setProcessed fullSet emptyWorld)
    = (Returns r, w')
    /\ (length (processedMessages (proc w')) <= 1000)%nat.
Proof.
  apply (processMessagePair_bounded demoEnv (Some "hi") (Some "hello")
           (Some demoMetadata)
           (MessageProcessor.setProcessed fullSet emptyWorld)).
  change (length fullSet <= 1000)%nat.
  unfold fullSet. rewrite length_fmap, length_seq. lia.
Defined.

(** ** messageProcessor.js: saving a conversation *)

(** X9: [saveConversationToMongoDB] never throws and tells the truth:
    it returns true exactly when the store took the connection, the
    lookup and the write, and then the conversation is in the
    [conversations] collection, written once, as a new document or
    pushed onto the first document with its ID; it returns false
    otherwise, and then that collection is as it was; nothing else is
    written either way. *)
Theorem saveConversationToMongoDB_outcome env conversationData w :
  exists saved w',
    MessageProcessor.saveConversationToMongoDB env conversationData w
      = (Returns saved, w')
    /\ saveFrame w w'
    /\ saved
       = match connectReply env (nDb (cursors w)) with
         | Connected =>
             negb (dbFails env (S (nDb (cursors w))))
             && negb (dbFails env (S (S (nDb (cursors w)))))
         | _ => false
         end
    /\ if saved
       then persistedOnce conversationData (conversations (mongo w))
                          (conversations (mongo w'))
       else conversations (mongo w') = conversations (mongo w).
Proof.
  destruct (saveConversationToMongoDB_cases env conversationData w)
    as (w' & Hrun & Hframe & Hdocs).
  eexists _, w'. split; [exact Hrun|]. split; [exact Hframe|].
  split; [reflexivity|exact Hdocs].
Qed.

Lemma conversationIds_app a b :
  conversationIds (a ++ b) = conversationIds a ++ conversationIds b.
Proof. unfold conversationIds. apply fmap_app. Qed.

Lemma conversationIds_missing id docs :
  (forall d, d ∈ docs -> c_id (cd_data d) <> id) -> id ∉ conversationIds docs.
Proof.
  intros Hdocs (d & -> & Hd)%list_elem_of_fmap. by apply (Hdocs d).
Qed.

(** X10: One document per conversation.  For a call of
    [saveConversationToMongoDB] that runs alone, nothing else writing
    between its lookup and its write: when no two stored conversations
    share an ID before the call, none do after it.  When the store took
    the call, the conversation's ID is among the stored ones, and a
    conversation that was stored already went into the document it had:
    that document has the new messages pushed on, and every other
    document and the number of documents are as they were. *)
Theorem saveConversationToMongoDB_unique_ids env conversationData w :
  NoDup (conversationIds (conversations (mongo w))) ->
  exists saved w',
    MessageProcessor.saveConversationToMongoDB env conversationData w
      = (Returns saved, w')
    /\ saved
       = match connectReply env (nDb (cursors w)) with
         | Connected =>
             negb (dbFails env (S (nDb (cursors w))))
             && negb (dbFails env (S (S (nDb (cursors w)))))
         | _ => false
         end
    /\ NoDup (conversationIds (conversations (mongo w')))
    /\ (saved = true ->
        c_id conversationData ∈ conversationIds (conversations (mongo w'))
        /\ forall i stored,
             conversations (mongo w) !! i = Some stored ->
             c_id (cd_data stored) = c_id conversationData ->
             exists now,
               conversations (mongo w')
               = <[i := extended conversationData now stored]>
                   (conversations (mongo w))).
Proof.
  intros Hunique.
  destruct (saveConversationToMongoDB_cases env conversationData w)
    as (w' & Hrun & _ & Hdocs).
  eexists _, w'. split; [exact Hrun|]. split; [reflexivity|].
  destruct (match connectReply env _ with Connected => _ | _ => _ end);
    [|split; [by rewrite Hdocs|done]].
  destruct Hdocs as [[Hnone (createdAt & lastActivity & ->)]
                    |(earlier & first & later & now & Hbefore & Hearlier
                      & Hid & ->)].
  - rewrite conversationIds_app. split.
    { apply NoDup_app. split; [done|]. split; [|apply NoDup_singleton].
      intros id Hin ->%list_elem_of_singleton.
      by apply (conversationIds_missing _ _ Hnone). }
    intros _. split; [apply elem_of_app; right; by left|].
    intros i stored Hi Hstored. destruct (Hnone stored); [|done].
    by apply (list_elem_of_lookup_2 _ i).
  - assert (conversationIds
              (earlier ++ extended conversationData now first :: later)
            = conversationIds (conversations (mongo w))) as Hids
      by (rewrite Hbefore, !conversationIds_app; done).
    rewrite Hids. split; [done|]. intros _. split.
    { rewrite Hbefore, conversationIds_app. apply elem_of_app. right.
      cbn. rewrite Hid. left. }
    intros i stored Hi Hstored. exists now.
    assert (i = length earlier) as ->.
    { apply (NoDup_lookup _ i (length earlier) (c_id conversationData)
               Hunique).
      - unfold conversationIds. by rewrite list_lookup_fmap, Hi; cbn;
          rewrite Hstored.
      - unfold conversationIds. rewrite list_lookup_fmap, Hbefore.
        rewrite lookup_app_r, Nat.sub_diag by lia. cbn. by rewrite Hid. }
    rewrite Hbefore in Hi |- *.
    rewrite lookup_app_r, Nat.sub_diag in Hi by lia. injection Hi as <-.
    rewrite insert_app_r_alt, Nat.sub_diag by lia. reflexivity.
Qed.

Lemma saveConversationToMongoDB_unique_ids_witness :
  let w := (MessageProcessor.saveConversationToMongoDB demoEnv
              forwardedConversation emptyWorld).2 in
  length (conversations (mongo w)) = 1%nat
  /\ exists w',
       MessageProcessor.saveConversationToMongoDB demoEnv forwardedConversation
         w = (Returns true, w')
       /\ NoDup (conversationIds (conversations (mongo w')))
       /\ length (conversations (mongo w')) = 1%nat
       /\ (c_messages <$> (cd_data <$> conversations (mongo w')))
          = [c_messages forwardedConversation
             ++ c_messages forwardedConversation].
Proof.
  intros w. split; [reflexivity|].
  destruct (saveConversationToMongoDB_unique_ids demoEnv forwardedConversation
              w) as (saved & w' & Hrun & Hsaved & Hunique & Hstored).
  { apply (bool_decide_unpack _). vm_compute. exact Logic.I. }
  subst saved. destruct Hstored as [_ Hstored]; [vm_compute; reflexivity|].
  destruct (conversations (mongo w) !! 0%nat) as [stored|] eqn:Hfirst;
    [|discriminate].
  destruct (Hstored 0%nat stored Hfirst) as (now & Hdocs).
  { vm_compute in Hfirst. by injection Hfirst as <-. }
  exists w'. split; [exact Hrun|]. split; [exact Hunique|].
  rewrite Hdocs. vm_compute in Hfirst. injection Hfirst as <-.
  split; reflexivity.
Defined.

Lemma persistedOnce_extends conversationData before after :
  persistedOnce conversationData before after ->
  extendsConversations before after.
Proof.
  intros [[_ (createdAt & lastActivity & ->)]
         |(earlier & stored & later & now & -> & _ & _ & ->)] i d Hi.
  - exists d. split; [by apply lookup_app_l_Some|done].
  - apply lookup_app_Some in Hi as [Hi|[Hlen Hi]].
    + exists d. split; [by apply lookup_app_l_Some|done].
    + destruct (i - length earlier)%nat as [|j] eqn:Hj; cbn in Hi.
      * injection Hi as <-. eexists. split.
        { apply lookup_app_Some. right. split; [done|].
          rewrite Hj. reflexivity. }
        cbn. split; [done|]. by apply prefix_app_r.
      * exists d. split; [|done].
        apply lookup_app_Some. right. split; [done|]. by rewrite Hj.
Qed.

(** X11: [saveConversationToMongoDB] never loses what is stored: every
    conversation document is still in its place afterwards, under the
    same ID, and its messages are those it had, possibly followed by new
    ones. *)
Theorem saveConversationToMongoDB_append_only env conversationData w :
  exists saved w',
    MessageProcessor.saveConversationToMongoDB env conversationData w
      = (Returns saved, w')
    /\ extendsConversations (conversations (mongo w))
                            (conversations (mongo w')).
Proof.
  destruct (saveConversationToMongoDB_cases env conversationData w)
    as (w' & Hrun & _ & Hdocs).
  eexists _, w'. split; [exact Hrun|].
  destruct (match connectReply env _ with Connected => _ | _ => _ end).
  - by apply (persistedOnce_extends conversationData).
  - rewrite Hdocs. intros i d Hi. by exists d.
Qed.

(** ** messageProcessor.js: mappings and forwarding *)

Lemma createMessageIdMapping_cases env mongodbId postgresqlId content w :
  exists a b r w',
    MessageProcessor.createMessageIdMapping env mongodbId postgresqlId
      content w = (Returns r, w')
    /\ (JS.truthyOpt mongodbId = true -> a = JS.orElse mongodbId "")
    /\ (JS.truthyOpt postgresqlId = true -> b = JS.orElse postgresqlId "")
    /\ match r with
       | MessageProcessor.MappingFailed _ => True
       | MessageProcessor.MappingUpdated a' b' => a' = a /\ b' = b
       | MessageProcessor.MappingCreated a' b' _ => a' = a /\ b' = b
       end
    /\ mappingFrame w w'
    /\ mappingOutcome content r (message_id_mappings (mongo w))
                      (message_id_mappings (mongo w')).
Proof.
  unfold MessageProcessor.createMessageIdMapping, tryCatch.
  set (first := if JS.truthyOpt mongodbId then _ else _).
  destruct (first w) as [[a|e] w1] eqn:Hfirst;
    [|unfold first in Hfirst; destruct (JS.truthyOpt mongodbId); discriminate].
  rewrite (run_returned _ _ _ _ _ Hfirst).
  assert (mongo w1 = mongo w /\ analytics w1 = analytics w
          /\ proc w1 = proc w /\ server w1 = server w) as (M1 & A1 & P1 & S1).
  { unfold first in Hfirst. destruct (JS.truthyOpt mongodbId);
      cbv in Hfirst; by injection Hfirst as _ <-. }
  assert (JS.truthyOpt mongodbId = true -> a = JS.orElse mongodbId "") as Ha.
  { intros Hgiven. unfold first in Hfirst. rewrite Hgiven in Hfirst.
    by injection Hfirst as <- _. }
  clear Hfirst first.
  set (second := if JS.truthyOpt postgresqlId then _ else _).
  destruct (second w1) as [[b|e] w2] eqn:Hsecond;
    [|unfold second in Hsecond; destruct (JS.truthyOpt postgresqlId);
      discriminate].
  rewrite (run_returned _ _ _ _ _ Hsecond).
  assert (mongo w2 = mongo w /\ analytics w2 = analytics w
          /\ proc w2 = proc w /\ server w2 = server w) as (M2 & A2 & P2 & S2).
  { unfold second in Hsecond. destruct (JS.truthyOpt postgresqlId);
      cbv in Hsecond; injection Hsecond as _ <-; done. }
  assert (JS.truthyOpt postgresqlId = true -> b = JS.orElse postgresqlId "")
    as Hb.
  { intros Hgiven. unfold second in Hsecond. rewrite Hgiven in Hsecond.
    by injection Hsecond as <- _. }
  clear Hsecond second M1 A1 P1 S1.
  exists a, b.
  unfold bind at 1, Runtime.connectToDatabase.
  destruct (connectReply env _); cbn [Runtime.collection];
    [|eexists _, _; split; [reflexivity|]; split; [exact Ha|]; split; [exact Hb|];
      split; [done|]; unfold mappingFrame, mappingOutcome; cbn;
      rewrite ?M2, ?A2, ?P2, ?S2; by repeat split..].
  run. unfold bind at 1, Runtime.dbOp.
  destruct (dbFails env _);
    [eexists _, _; split; [reflexivity|]; split; [exact Ha|]; split; [exact Hb|];
      split; [done|]; unfold mappingFrame, mappingOutcome; cbn;
     rewrite ?M2, ?A2, ?P2, ?S2; by repeat split|].
  run. cbn [withCursors mongo]. rewrite M2.
  destruct (MessageProcessor.findMapping a b (message_id_mappings (mongo w)))
    as [[i d]|] eqn:Hfind.
  - run. unfold bind at 1, Runtime.dbOp.
    destruct (dbFails env _).
    + eexists _, _. split; [reflexivity|]. split; [exact Ha|]. split; [exact Hb|].
      split; [done|]. unfold mappingFrame, mappingOutcome; cbn.
      rewrite ?M2, ?A2, ?P2, ?S2. by repeat split.
    + run. eexists _, _. split; [reflexivity|]. split; [exact Ha|]. split; [exact Hb|].
      split; [done|]. unfold mappingFrame, mappingOutcome; cbn.
      rewrite ?M2, ?A2, ?P2, ?S2. split; [by repeat split|].
      eexists i, d, _. by split.
  - run. unfold bind at 1, Runtime.dbOp.
    destruct (dbFails env _).
    + eexists _, _. split; [reflexivity|]. split; [exact Ha|]. split; [exact Hb|].
      split; [done|]. unfold mappingFrame, mappingOutcome; cbn.
      rewrite ?M2, ?A2, ?P2, ?S2. by repeat split.
    + run. eexists _, _. split; [reflexivity|]. split; [exact Ha|]. split; [exact Hb|].
      split; [done|]. unfold mappingFrame, mappingOutcome; cbn.
      rewrite ?M2, ?A2, ?P2, ?S2. split; [by repeat split|].
      split; [done|]. split; [by apply (findMappingFrom_None 0)|].
      eexists. by repeat split.
Qed.

(** X12: [createMessageIdMapping] never throws, and writes to the
    [message_id_mappings] collection only.  A failure leaves the
    collection as it was; an update rewrites the first document that
    holds the local or the remote ID, in place; a document is inserted,
    at the end, only when no stored document holds either ID. *)
Theorem createMessageIdMapping_outcome env mongodbId postgresqlId content w :
  exists r w',
    MessageProcessor.createMessageIdMapping env mongodbId postgresqlId
      content w = (Returns r, w')
    /\ mappingFrame w w'
    /\ mappingOutcome content r (message_id_mappings (mongo w))
                      (message_id_mappings (mongo w')).
Proof.
  destruct (createMessageIdMapping_cases env mongodbId postgresqlId content w)
    as (a & b & r & w' & Hrun & _ & _ & _ & Hframe & Houtcome).
  by exists r, w'.
Qed.


Lemma sendConversationToAnalytics_unforwarded env conversationData w :
  unforwarded conversationData w ->
  exists r w',
    MessageProcessor.sendConversationToAnalytics env conversationData w
      = (Returns r, w')
    /\ analytics w' = analytics w ++ [conversationData].
Proof.
  intros Hnew.
  unfold MessageProcessor.sendConversationToAnalytics, tryCatch.
  run. rewrite Hnew.
  unfold bind at 1, MessageProcessor.fetchPost.
  set (w1 := withAnalytics _ _).
  pose proof (keeps_processResponse env (fun w' => analytics w' = analytics w1))
    as Hkeeps.
  specialize (Hkeeps ltac:(intros ?? H; exact H) ltac:(intros ?? H; exact H)
                     ltac:(intros ?? H; exact H) conversationData
                     (fetchReply env (nFetch (cursors w))) w1 eq_refl).
  destruct (MessageProcessor.processResponse _ _ _ w1) as [[r|e] w'].
  - destruct Hkeeps as [Hkeeps _]. cbn in Hkeeps. by exists r, w'.
  - cbn in Hkeeps. by eexists _, w'.
Qed.

(** X13: A forwarding that the analytics API did not acknowledge is not
    recorded as done.  When the request fails, when the API answers
    non-OK, with a body that cannot be parsed or with one that holds no
    [messages] array, or when the store rejects the connection that is
    asked for once such an array has arrived, then
    [sendConversationToAnalytics] reports no remote ID, writes nothing to
    the store or to the forwarding gate, and the next call for the
    conversation issues the request again.  An answer that holds a
    [messages] array, be it empty or without IDs, is acknowledged for
    the code once the store is connected: that case is X14's. *)
Theorem sendConversationToAnalytics_unacknowledged env conversationData w :
  unforwarded conversationData w ->
  unacknowledged env w ->
  exists w',
    MessageProcessor.sendConversationToAnalytics env conversationData w
      = (Returns (MessageProcessor.mkAnalyticsResult
                    (answered (fetchReply env (nFetch (cursors w))))
                    None false), w')
    /\ analytics w' = analytics w ++ [conversationData]
    /\ mongo w' = mongo w /\ proc w' = proc w /\ server w' = server w
    /\ forall w2, proc w2 = proc w' ->
         exists r2 w3,
           MessageProcessor.sendConversationToAnalytics env conversationData
             w2 = (Returns r2, w3)
           /\ analytics w3 = analytics w2 ++ [conversationData].
Proof.
  intros Hnew Hunacknowledged.
  cut (exists w',
    MessageProcessor.sendConversationToAnalytics env conversationData w
      = (Returns (MessageProcessor.mkAnalyticsResult
                    (answered (fetchReply env (nFetch (cursors w))))
                    None false), w')
    /\ analytics w' = analytics w ++ [conversationData]
    /\ mongo w' = mongo w /\ proc w' = proc w /\ server w' = server w).
  { intros (w' & Hrun & Ha & Hm & Hp & Hs). exists w'.
    repeat (split; [done|]). intros w2 Hw2.
    apply sendConversationToAnalytics_unforwarded.
    unfold unforwarded in *. by rewrite Hw2, Hp. }
  unfold MessageProcessor.sendConversationToAnalytics, tryCatch.
  run. rewrite Hnew.
  unfold unacknowledged in Hunacknowledged.
  unfold bind at 1, MessageProcessor.fetchPost.
  destruct (fetchReply env (nFetch (cursors w))) as [| |[| |ids]];
    try (eexists; split; [reflexivity|]; by repeat split).
  cbn [MessageProcessor.processResponse]. unfold tryCatch.
  unfold bind at 1, Runtime.connectToDatabase.
  cbn [withAnalytics withCursors cursors Runtime.tickFetch nDb].
  rewrite Hunacknowledged.
  eexists; split; [reflexivity|]; by repeat split.
Qed.

Lemma sendConversationToAnalytics_unacknowledged_witness :
  exists w',
    MessageProcessor.sendConversationToAnalytics unreachableEnv
      forwardedConversation emptyWorld
      = (Returns (MessageProcessor.mkAnalyticsResult false None false), w')
    /\ proc w' = proc emptyWorld.
Proof.
  destruct (sendConversationToAnalytics_unacknowledged unreachableEnv
              forwardedConversation emptyWorld)
    as (w' & Hrun & _ & _ & Hproc & _); [reflexivity|exact Logic.I|].
  by exists w'.
Defined.

Lemma storeMappings_healthy env ids originals i botId w :
  (forall n, dbFails env n = false) ->
  exists id w',
    MessageProcessor.storeMappings env true ids originals i botId w
      = (Returns id, w')
    /\ proc w' = proc w.
Proof.
  intros Hop. revert i botId w.
  induction ids as [|pgMessage ids IH]; intros i botId w;
    cbn [MessageProcessor.storeMappings]; [by eexists _, _|].
  destruct (originals !! i) as [originalMessage|]; [|apply IH].
  destruct (_ && _); [|apply IH].
  cbn [Runtime.collection]. run.
  unfold bind at 1, Runtime.dbOp. rewrite Hop. run.
  match goal with
  | |- context [MessageProcessor.storeMappings env true ids originals ?j ?b ?w0] =>
      destruct (IH j b w0) as (id & w' & Hrun & Hproc)
  end.
  exists id, w'. split; [exact Hrun|]. by rewrite Hproc.
Qed.

(** X14: Forwarding, then forwarding again.  When the analytics API
    answers with message IDs and the store takes the mappings, the
    conversation is recorded in the forwarding gate, and a second call
    for it is answered from the gate: same remote ID, marked as
    deduplicated, no request issued. *)
Theorem sendConversationToAnalytics_twice env conversationData ids w :
  MessageProcessor.hasBotMessages conversationData = true ->
  analyticsSentMessages (proc w)
    !! MessageProcessor.botSignature conversationData = None ->
  (size (analyticsSentMessages (proc w)) < 500)%nat ->
  fetchReply env (nFetch (cursors w)) = FetchOk (MessageIds ids) ->
  connectReply env (nDb (cursors w)) = Connected ->
  (forall n, dbFails env n = false) ->
  exists r w',
    MessageProcessor.sendConversationToAnalytics env conversationData w
      = (Returns r, w')
    /\ MessageProcessor.ar_success r = true
    /\ MessageProcessor.ar_deduplicated r = false
    /\ forall w2, proc w2 = proc w' ->
         MessageProcessor.sendConversationToAnalytics env conversationData w2
         = (Returns (MessageProcessor.mkAnalyticsResult true
                       (MessageProcessor.ar_postgresqlId r) true),
            withCursors Runtime.tickTime w2).
Proof.
  intros Hbot Hnew Hsize Hfetch Hconn Hop.
  unfold MessageProcessor.sendConversationToAnalytics at 1, tryCatch.
  run. rewrite Hbot, Hnew.
  unfold bind at 1, MessageProcessor.fetchPost. rewrite Hfetch.
  cbn [MessageProcessor.processResponse]. unfold tryCatch.
  unfold bind at 1, Runtime.connectToDatabase.
  cbn [withAnalytics withCursors cursors Runtime.tickFetch nDb].
  rewrite Hconn.
  match goal with
  | |- context [bind (MessageProcessor.storeMappings env true ids ?o ?j ?b)
                     _ ?w0] =>
      destruct (storeMappings_healthy env ids o j b w0 Hop)
        as (botId & w1 & Hstore & Hproc)
  end.
  rewrite (run_returned _ _ _ _ _ Hstore).
  unfold MessageProcessor.recordSent. rewrite Hbot. run.
  cbn [MessageProcessor.setSent withProc withCursors proc
       analyticsSentMessages].
  cbn in Hproc. rewrite Hproc, map_size_insert_None by done.
  replace (500 <? _)%nat with false by (symmetry; apply Nat.ltb_ge; lia).
  run. eexists _, _. split; [reflexivity|]. split; [done|]. split; [done|].
  intros w2 Hw2.
  unfold MessageProcessor.sendConversationToAnalytics, tryCatch.
  run. rewrite Hbot, Hw2. cbn. by rewrite lookup_insert_eq.
Qed.

Lemma sendConversationToAnalytics_twice_witness :
  exists r w',
    MessageProcessor.sendConversationToAnalytics demoEnv forwardedConversation
      emptyWorld = (Returns r, w')
    /\ MessageProcessor.sendConversationToAnalytics demoEnv
         forwardedConversation w'
       = (Returns (MessageProcessor.mkAnalyticsResult true
                     (MessageProcessor.ar_postgresqlId r) true),
          withCursors Runtime.tickTime w').
Proof.
  destruct (sendConversationToAnalytics_twice demoEnv forwardedConversation
              [Some "pg-41"; Some "pg-42"] emptyWorld)
    as (r & w' & Hrun & _ & _ & Hagain); try reflexivity.
  - vm_compute. lia.
  - exists r, w'. split; [exact Hrun|]. by apply Hagain.
Defined.

(** ** sessionManager.js: reuse, creation and the store lookup *)

Lemma bestEffort_update_cached env c w :
  exists w',
    SessionManager.bestEffort (
      let* db := Runtime.connectToDatabase env in
      Runtime.collection db >>
      let* iso := Runtime.newDateISO env in
      SessionManager.updateOneActivity env c iso) w
    = (Returns tt, w')
    /\ proc w' = proc w
    /\ touched c (globalSessions (mongo w)) (globalSessions (mongo w')).
Proof.
  unfold SessionManager.bestEffort, SessionManager.updateOneActivity,
    Runtime.connectToDatabase, Runtime.collection, Runtime.newDateISO,
    Runtime.dateNow, Runtime.dbOp, tryCatch, bind, ret, throw, modify, touched.
  destruct (connectReply env (nDb (cursors w))); cbn.
  - destruct (dbFails env _); cbn; eexists; eauto 6.
  - eexists; eauto.
  - eexists; eauto.
Qed.

Lemma bestEffort_update_stored env c iso w :
  exists w',
    SessionManager.bestEffort (SessionManager.updateOneActivity env c iso) w
    = (Returns tt, w')
    /\ proc w' = proc w /\ nTime (cursors w') = nTime (cursors w)
    /\ touched c (globalSessions (mongo w)) (globalSessions (mongo w')).
Proof.
  unfold SessionManager.bestEffort, SessionManager.updateOneActivity,
    Runtime.dbOp, tryCatch, bind, ret, throw, modify, touched.
  destruct (dbFails env _); cbn; eexists; eauto 6.
Qed.

Lemma getOrCreateSession_resolves env token w s w' :
  token <> "" ->
  SessionManager.resolve env token w = (Returns s, w') ->
  SessionManager.getOrCreateSession env (Some token) w = (Returns s, w').
Proof.
  intros Htok%truthy_nonempty Hrun.
  unfold SessionManager.getOrCreateSession.
  cbn [JS.truthyOpt JS.orElse]. rewrite Htok. run.
  by apply run_try_returned.
Qed.

(** X15: A cached session that was active within the timeout is reused:
    [getOrCreateSession] returns it with its identifiers, start and
    [isNewSession] flag as they were and [lastActivity] set to now,
    keeps it in the cache, and adds no stored session.  An idle gap of
    exactly 15 minutes is still within the timeout. *)
Theorem getOrCreateSession_cached_reuse env token w s :
  token <> "" ->
  sessionCache (proc w) !! token = Some s ->
  clock env (nTime (cursors w)) - lastActivity s
    <= SessionManager.SESSION_TIMEOUT ->
  exists w',
    SessionManager.getOrCreateSession env (Some token) w
    = (Returns (mkSession (sessionId s) (conversationId s) (startedAt s)
                  (clock env (S (nTime (cursors w)))) (isNewSession s)
                  (previousConversationId s)), w')
    /\ sessionCache (proc w')
       = <[token := mkSession (sessionId s) (conversationId s) (startedAt s)
                      (clock env (S (nTime (cursors w)))) (isNewSession s)
                      (previousConversationId s)]> (sessionCache (proc w))
    /\ touched (conversationId s) (globalSessions (mongo w))
               (globalSessions (mongo w')).
Proof.
  intros Htok Hc Hgap.
  cut (exists w',
    SessionManager.resolve env token w
    = (Returns (mkSession (sessionId s) (conversationId s) (startedAt s)
                  (clock env (S (nTime (cursors w)))) (isNewSession s)
                  (previousConversationId s)), w')
    /\ sessionCache (proc w')
       = <[token := mkSession (sessionId s) (conversationId s) (startedAt s)
                      (clock env (S (nTime (cursors w)))) (isNewSession s)
                      (previousConversationId s)]> (sessionCache (proc w))
    /\ touched (conversationId s) (globalSessions (mongo w))
               (globalSessions (mongo w'))).
  { intros (w' & Hrun & H). exists w'.
    split; [by apply getOrCreateSession_resolves|exact H]. }
  unfold SessionManager.resolve. run. rewrite Hc.
  unfold SessionManager.fromCache. run.
  replace (_ <? _)%Z with false by (symmetry; by apply Z.ltb_ge).
  run.
  match goal with
  | |- context [bind (SessionManager.bestEffort _) _ ?w0] =>
      destruct (bestEffort_update_cached env (conversationId s) w0)
        as (w' & Hrun & Hproc & Hdocs)
  end.
  cbn [conversationId] in *.
  rewrite (run_returned _ _ _ _ _ Hrun).
  exists w'. split; [reflexivity|]. split; [by rewrite Hproc|exact Hdocs].
Qed.

Lemma getOrCreateSession_cached_reuse_witness :
  exists s w',
    SessionManager.getOrCreateSession soonEnv (Some "s1") idleWorld
      = (Returns s, w')
    /\ conversationId s = "s1_1".
Proof.
  destruct (getOrCreateSession_cached_reuse soonEnv "s1" idleWorld
              (mkSession "s1" "s1_1" (demoISO 0) 2 true None))
    as (w' & Hrun & _).
  - discriminate.
  - vm_compute. reflexivity.
  - vm_compute. discriminate.
  - eexists _, w'. split; [exact Hrun|reflexivity].
Defined.

Lemma resolve_connected env token w :
  sessionCache (proc w) !! token = None ->
  connectReply env (nDb (cursors w)) = Connected ->
  SessionManager.resolve env token w
  = SessionManager.fromStore env token true (withCursors Runtime.tickDb w).
Proof.
  intros Hc Hconn. unfold SessionManager.resolve. run. rewrite Hc.
  assert (tryCatch
            (let* db := Runtime.connectToDatabase env in ret (Some db))
            (fun _ => ret None) w
          = (Returns (Some true), withCursors Runtime.tickDb w)) as Hopen.
  { unfold tryCatch, bind, Runtime.connectToDatabase. by rewrite Hconn. }
  by rewrite (run_returned _ _ _ _ _ Hopen).
Qed.

Lemma findOneSession_answers env token w :
  dbFails env (nDb (cursors w)) = false ->
  tryCatch (SessionManager.findOneSession env token) (fun _ => ret None) w
  = (Returns (find (fun d => String.eqb (d_frontendSessionId d) token)
                   (globalSessions (mongo w))),
     withCursors Runtime.tickDb w).
Proof.
  intros Hop.
  unfold tryCatch, SessionManager.findOneSession, bind, Runtime.dbOp, gets.
  by rewrite Hop.
Qed.

Lemma findOneSession_rejected env token w :
  dbFails env (nDb (cursors w)) = true ->
  tryCatch (SessionManager.findOneSession env token) (fun _ => ret None) w
  = (Returns None, withCursors Runtime.tickDb w).
Proof.
  intros Hop.
  unfold tryCatch, SessionManager.findOneSession, bind, Runtime.dbOp, gets.
  by rewrite Hop.
Qed.

(** X16: A stored session that has not timed out is resumed: with the
    token not cached and the store answering, [getOrCreateSession]
    returns the identifiers and start of the first stored document of
    the token, not marked as new, caches that session under the token
    and adds no stored session.  A stored [lastActivity] that is not a
    date never times out. *)
Theorem getOrCreateSession_stored_reuse env token w d :
  token <> "" ->
  Live env token w d ->
  exists w',
    SessionManager.getOrCreateSession env (Some token) w
    = (Returns (mkSession (d_sessionId d) (d_conversationId d)
                  (d_startedAt d) (clock env (S (nTime (cursors w)))) false
                  None), w')
    /\ sessionCache (proc w')
       = <[token := mkSession (d_sessionId d) (d_conversationId d)
                      (d_startedAt d) (clock env (S (nTime (cursors w))))
                      false None]> (sessionCache (proc w))
    /\ touched (d_conversationId d) (globalSessions (mongo w))
               (globalSessions (mongo w')).
Proof.
  intros Htok (Hc & Hconn & Hop & Hfind & Hcid & Hgap).
  cut (exists w',
    SessionManager.resolve env token w
    = (Returns (mkSession (d_sessionId d) (d_conversationId d)
                  (d_startedAt d) (clock env (S (nTime (cursors w)))) false
                  None), w')
    /\ sessionCache (proc w')
       = <[token := mkSession (d_sessionId d) (d_conversationId d)
                      (d_startedAt d) (clock env (S (nTime (cursors w))))
                      false None]> (sessionCache (proc w))
    /\ touched (d_conversationId d) (globalSessions (mongo w))
               (globalSessions (mongo w'))).
  { intros (w' & Hrun & H). exists w'.
    split; [by apply getOrCreateSession_resolves|exact H]. }
  rewrite resolve_connected by done.
  unfold SessionManager.fromStore. cbn [Runtime.collection]. run.
  rewrite (run_returned _ _ _ _ _
             (findOneSession_answers env token
                (withCursors Runtime.tickDb w) Hop)).
  cbn [withCursors mongo]. rewrite Hfind. run.
  cbn [withCursors cursors Runtime.tickDb nTime]. rewrite Hcid.
  assert (match dateParse env (d_lastActivity d) with
          | Some lastActivity =>
              (SessionManager.SESSION_TIMEOUT
                 <? clock env (nTime (cursors w)) - lastActivity)%Z
          | None => false
          end = false) as ->.
  { destruct (dateParse env (d_lastActivity d)) as [stored|]; [|done].
    apply Z.ltb_ge. by apply Hgap. }
  match goal with
  | |- context [bind (SessionManager.bestEffort
                        (SessionManager.updateOneActivity env ?c ?iso)) _ ?w0] =>
      destruct (bestEffort_update_stored env c iso w0)
        as (w' & Hrun & Hproc & Htime & Hdocs)
  end.
  rewrite (run_returned _ _ _ _ _ Hrun). run. rewrite Htime.
  eexists. split; [reflexivity|]. cbn. rewrite Hproc.
  split; [reflexivity|exact Hdocs].
Qed.

Lemma getOrCreateSession_stored_reuse_witness :
  exists s w',
    SessionManager.getOrCreateSession soonEnv (Some "s1") restartedWorld
      = (Returns s, w')
    /\ conversationId s = "s1_1" /\ isNewSession s = false.
Proof.
  destruct (getOrCreateSession_stored_reuse soonEnv "s1" restartedWorld
              (SessionManager.freshDoc "s1" "s1_1" (demoISO 0) (demoISO 0)))
    as (w' & Hrun & _).
  - discriminate.
  - unfold Live. do 5 (split; [vm_compute; reflexivity|]).
    intros stored Hstored. vm_compute in Hstored. injection Hstored as <-.
    vm_compute. discriminate.
  - eexists _, w'. split; [exact Hrun|]. split; reflexivity.
Defined.

(** X17: A token without a usable stored session starts a brand-new
    conversation: [getOrCreateSession] returns and caches a session
    marked as new whose conversation ID is the token followed by the
    clock reading, and the store gains at most the one record of it.
    This is also what happens when the lookup itself is rejected,
    whatever the store holds for the token. *)
Theorem getOrCreateSession_brand_new env token w :
  token <> "" ->
  Unknown env token w ->
  exists w',
    let now := toISOString env (clock env (nTime (cursors w))) in
    let s :=
      mkSession token
        (SessionManager.conversationIdAt token
           (clock env (S (nTime (cursors w)))))
        now (clock env (S (S (nTime (cursors w))))) true None in
    SessionManager.getOrCreateSession env (Some token) w = (Returns s, w')
    /\ sessionCache (proc w') = <[token := s]> (sessionCache (proc w))
    /\ (globalSessions (mongo w') = globalSessions (mongo w)
        \/ globalSessions (mongo w')
           = globalSessions (mongo w)
               ++ [SessionManager.freshDoc token (conversationId s) now now]).
Proof.
  intros Htok Hunknown. cbv zeta.
  cut (forall w0,
    proc w0 = proc w -> mongo w0 = mongo w ->
    nTime (cursors w0) = nTime (cursors w) ->
    exists w',
      SessionManager.createSession env token
        (clock env (nTime (cursors w)))
        (withCursors Runtime.tickTime w0)
      = (Returns
           (mkSession token
              (SessionManager.conversationIdAt token
                 (clock env (S (nTime (cursors w)))))
              (toISOString env (clock env (nTime (cursors w))))
              (clock env (S (S (nTime (cursors w))))) true None), w')
      /\ sessionCache (proc w')
         = <[token := mkSession token
               (SessionManager.conversationIdAt token
                  (clock env (S (nTime (cursors w)))))
               (toISOString env (clock env (nTime (cursors w))))
               (clock env (S (S (nTime (cursors w))))) true None]>
             (sessionCache (proc w))
      /\ (globalSessions (mongo w') = globalSessions (mongo w)
          \/ globalSessions (mongo w')
             = globalSessions (mongo w)
                 ++ [SessionManager.freshDoc token
                       (SessionManager.conversationIdAt token
                          (clock env (S (nTime (cursors w)))))
                       (toISOString env (clock env (nTime (cursors w))))
                       (toISOString env (clock env (nTime (cursors w))))])).
  { intros Hcreate.
    destruct Hunknown as [Hc Hconn Hop Hfind|d Hc Hconn Hop Hfind Hcid
                         |Hc Hconn Hop].
    - destruct (Hcreate (withCursors Runtime.tickDb
                           (withCursors Runtime.tickDb w)))
        as (w' & Hrun & H); try reflexivity.
      exists w'. split; [|exact H]. apply getOrCreateSession_resolves; [done|].
      rewrite resolve_connected by done.
      unfold SessionManager.fromStore. cbn [Runtime.collection]. run.
      rewrite (run_returned _ _ _ _ _
                 (findOneSession_answers env token
                    (withCursors Runtime.tickDb w) Hop)).
      cbn [withCursors mongo]. rewrite Hfind. run. exact Hrun.
    - destruct (Hcreate (withCursors Runtime.tickDb
                           (withCursors Runtime.tickDb w)))
        as (w' & Hrun & H); try reflexivity.
      exists w'. split; [|exact H]. apply getOrCreateSession_resolves; [done|].
      rewrite resolve_connected by done.
      unfold SessionManager.fromStore. cbn [Runtime.collection]. run.
      rewrite (run_returned _ _ _ _ _
                 (findOneSession_answers env token
                    (withCursors Runtime.tickDb w) Hop)).
      cbn [withCursors mongo]. rewrite Hfind. run. rewrite Hcid. exact Hrun.
    - destruct (Hcreate (withCursors Runtime.tickDb
                           (withCursors Runtime.tickDb w)))
        as (w' & Hrun & H); try reflexivity.
      exists w'. split; [|exact H]. apply getOrCreateSession_resolves; [done|].
      rewrite resolve_connected by done.
      unfold SessionManager.fromStore. cbn [Runtime.collection]. run.
      rewrite (run_returned _ _ _ _ _
                 (findOneSession_rejected env token
                    (withCursors Runtime.tickDb w) Hop)).
      run. exact Hrun. }
  intros w0 Hproc Hmongo Htime.
  unfold SessionManager.createSession. run.
  match goal with
  | |- context [bind (SessionManager.bestEffort
                        (SessionManager.insertOneSession env ?doc)) _ ?w1] =>
      destruct (bestEffort_insert_stored env doc w1)
        as (w' & Hrun & Hproc' & Htime' & Hdocs)
  end.
  rewrite (run_returned _ _ _ _ _ Hrun). run.
  cbn in Hproc', Htime', Hdocs.
  cbn [withCursors cursors Runtime.tickTime nTime].
  rewrite Htime', Htime in *.
  eexists. split; [reflexivity|]. cbn. rewrite Hproc', Hproc, <- Hmongo.
  split; [reflexivity|exact Hdocs].
Qed.

Lemma getOrCreateSession_brand_new_witness :
  exists s w',
    SessionManager.getOrCreateSession demoEnv (Some "s1") emptyWorld
      = (Returns s, w')
    /\ conversationId s = "s1_1700000000001" /\ isNewSession s = true.
Proof.
  destruct (getOrCreateSession_brand_new demoEnv "s1" emptyWorld)
    as (w' & Hrun & _).
  - discriminate.
  - by apply unknown_absent.
  - eexists _, w'. split; [exact Hrun|]. split; reflexivity.
Defined.

Lemma lands_bind {A} token (m : M A) k :
  (forall a, lands token (k a)) -> lands token (bind m k).
Proof.
  intros H w. unfold bind. destruct (m w) as [[a|e] w1]; [apply H|done].
Qed.

Lemma lands_last token s :
  lands token (SessionManager.cacheSet token s >> ret s).
Proof. intros w. cbn. apply lookup_insert_eq. Qed.

Lemma lands_leaf token s (effort : M unit) :
  (forall w, exists w', effort w = (Returns tt, w') /\ proc w' = proc w) ->
  lands token (SessionManager.cacheSet token s >> effort >> ret s).
Proof.
  intros H w. run. destruct (H (withProc (fun p =>
    mkProcess (<[token := s]> (sessionCache p)) (processedMessages p)
              (analyticsSentMessages p)) w)) as (w' & Hrun & Hproc).
  rewrite (run_returned _ _ _ _ _ Hrun). cbn. rewrite Hproc. cbn.
  apply lookup_insert_eq.
Qed.

Ltac land :=
  repeat first
    [ apply lands_last
    | apply lands_leaf
    | apply lands_bind; intros ? ].

Lemma lands_fromCache env token s :
  lands token (SessionManager.fromCache env token s).
Proof.
  unfold SessionManager.fromCache. apply lands_bind. intros now.
  destruct (_ <? _)%Z; land.
  - intros w.
    match goal with
    | |- context [SessionManager.timeoutDoc ?t ?c _ _ ?p] =>
        destruct (bestEffort_insert_cached env
                    (fun a b => SessionManager.timeoutDoc t c a b p) w)
          as (w' & Hrun & Hproc & _)
    end.
    by exists w'.
  - intros w.
    destruct (bestEffort_update_cached env (conversationId s) w)
      as (w' & Hrun & Hproc & _).
    by exists w'.
Qed.

Lemma lands_fromStore env token db :
  lands token (SessionManager.fromStore env token db).
Proof.
  unfold SessionManager.fromStore, SessionManager.createSession.
  apply lands_bind. intros _. apply lands_bind. intros [d|];
    [|by land].
  apply lands_bind. intros now.
  destruct (JS.truthy _); [|by land].
  destruct (match dateParse env _ with Some _ => _ | None => _ end); by land.
Qed.

Lemma lands_resolve env token :
  lands token (SessionManager.resolve env token).
Proof.
  unfold SessionManager.resolve. apply lands_bind. intros [s|].
  - apply lands_fromCache.
  - apply lands_bind. intros [db|].
    + apply lands_fromStore.
    + unfold SessionManager.temporarySession. by land.
Qed.

(** X18: Whatever the store does, [getOrCreateSession] for a non-empty
    token returns a session that the session cache holds under that
    token afterwards, so that [sessionExists] answers true for it. *)
Theorem getOrCreateSession_caches env token w :
  token <> "" ->
  exists s w',
    SessionManager.getOrCreateSession env (Some token) w = (Returns s, w')
    /\ sessionCache (proc w') !! token = Some s
    /\ SessionManager.sessionExists token w' = true.
Proof.
  intros Htok.
  cut (exists s w',
    SessionManager.getOrCreateSession env (Some token) w = (Returns s, w')
    /\ sessionCache (proc w') !! token = Some s).
  { intros (s & w' & Hrun & Hc). exists s, w'. split; [done|]. split; [done|].
    unfold SessionManager.sessionExists. rewrite Hc.
    by apply bool_decide_eq_true. }
  pose proof (lands_resolve env token w) as Hlands.
  destruct (SessionManager.resolve env token w) as [[s|e] w1] eqn:Hrun.
  - exists s, w1. split; [by apply getOrCreateSession_resolves|done].
  - apply truthy_nonempty in Htok.
    unfold SessionManager.getOrCreateSession, tryCatch.
    cbn [JS.truthyOpt JS.orElse]. rewrite Htok. run. rewrite Hrun.
    unfold SessionManager.fallbackSession, SessionManager.orEmergency.
    cbn [JS.truthyOpt JS.orElse]. rewrite Htok. run.
    eexists _, _. split; [reflexivity|]. cbn. apply lookup_insert_eq.
Qed.

Lemma getOrCreateSession_caches_witness :
  exists s w',
    SessionManager.getOrCreateSession offlineEnv (Some "s1") emptyWorld
      = (Returns s, w')
    /\ SessionManager.sessionExists "s1" w' = true.
Proof.
  destruct (getOrCreateSession_caches offlineEnv "s1" emptyWorld)
    as (s & w' & Hrun & _ & Hexists); [discriminate|].
  by exists s, w'.
Defined.

Lemma find_app_Some {A} (f : A -> bool) l l' x :
  find f l = Some x -> find f (l ++ l') = Some x.
Proof.
  induction l as [|y l IH]; cbn; [done|]. destruct (f y); [done|exact IH].
Qed.

Lemma find_setLastActivity token c iso docs :
  d_conversationId
    <$> find (fun d => String.eqb (d_frontendSessionId d) token)
             (SessionManager.setLastActivity c iso docs)
  = d_conversationId
      <$> find (fun d => String.eqb (d_frontendSessionId d) token) docs.
Proof.
  induction docs as [|d docs IH]; [done|].
  cbn [SessionManager.setLastActivity].
  destruct (String.eqb (d_conversationId d) c); cbn.
  - by destruct (String.eqb (d_frontendSessionId d) token).
  - by destruct (String.eqb (d_frontendSessionId d) token).
Qed.

(** X19: The store lookup of a token finds its first document, and
    [getOrCreateSession] only ever appends documents or sets a
    [lastActivity]: once a token has a stored conversation, no call, for
    this token or any other, changes the conversation a lookup finds for
    it.  The rollover records that are appended are never the ones
    found. *)
Theorem getOrCreateSession_keeps_stored_conversation env token other w c :
  storedConversation other w = Some c ->
  exists s w',
    SessionManager.getOrCreateSession env token w = (Returns s, w')
    /\ storedConversation other w' = Some c.
Proof.
  intros Hw.
  destruct (returns_getOrCreateSession env
              (fun w => storedConversation other w = Some c) (fun _ => True))
    with (sessionId := token) (w := w) as (s & w' & Hrun & Hw' & _);
    try done.
  - intros d w0 H _. unfold storedConversation in *. cbn.
    destruct (find _ (globalSessions (mongo w0))) as [x|] eqn:Hfind; [|done].
    by rewrite (find_app_Some _ _ _ _ Hfind).
  - intros c0 iso w0 H. unfold storedConversation in *. cbn.
    by rewrite find_setLastActivity.
  - by exists s, w'.
Qed.

Lemma getOrCreateSession_keeps_stored_conversation_witness :
  exists s w',
    SessionManager.getOrCreateSession laterEnv (Some "s1") restartedWorld
      = (Returns s, w')
    /\ conversationId s = "s1_1260004"
    /\ storedConversation "s1" w' = Some "s1_1".
Proof.
  destruct (getOrCreateSession_keeps_stored_conversation laterEnv (Some "s1")
              "s1" restartedWorld "s1_1")
    as (s & w' & Hrun & Hkept); [vm_compute; reflexivity|].
  exists s, w'. split; [exact Hrun|]. split; [|exact Hkept].
  vm_compute in Hrun. by injection Hrun as <- _.
Defined.

(** ** The HTTP server: sweep, continuation, histories and replies *)

(** X20: The hourly sweep is invisible to requests: whatever a request
    would be served from the response cache without the sweep, it is
    served with it, provided the clock does not run backwards.  The
    sweep removes only entries that are too old to be served. *)
Theorem sweep_transparent env cacheKey w w1 w2 w2' :
  Server.sweep env w = (Returns tt, w1) ->
  server w2 = server w ->
  server w2' = server w1 ->
  nTime (cursors w2') = nTime (cursors w2) ->
  clock env (nTime (cursors w)) <= clock env (nTime (cursors w2)) ->
  served env cacheKey w2' = served env cacheKey w2.
Proof.
  intros Hsweep Hw2 Hw2' Htime Hclock.
  unfold Server.sweep in Hsweep. revert Hsweep. run. intros [= <-].
  unfold served, Server.cacheGet. run. rewrite Hw2', Hw2. cbn.
  destruct (responseCache (server w) !! cacheKey) as [entry|] eqn:Hentry.
  - destruct (decide (ce_timestamp entry
                        < clock env (nTime (cursors w)) - 3600000))
      as [Hold|Hyoung].
    + rewrite (map_lookup_filter_None_2 _ _ cacheKey).
      2:{ right. intros x Hx Hp. apply Hp. cbn.
          assert (x = entry) as -> by congruence. exact Hold. }
      run. unfold Server.CACHE_TTL.
      replace (_ <? _)%Z with false by (symmetry; apply Z.ltb_ge; lia).
      done.
    + rewrite (map_lookup_filter_Some_2 _ _ cacheKey entry Hentry Hyoung).
      run. rewrite Htime.
      destruct (_ <? _)%Z; [|done].
      unfold Server.readObject. run. cbn. rewrite Hw2', Hw2. cbn.
      by destruct (heap (server w) !! ce_response entry).
  - rewrite (map_lookup_filter_None_2 _ _ cacheKey) by by left. done.
Qed.

Lemma sweep_transparent_witness :
  served demoEnv "s1:hi:en:0:0" (Server.sweep demoEnv answeredWorld).2
  = served demoEnv "s1:hi:en:0:0" (withCursors Runtime.tickTime answeredWorld).
Proof.
  apply (sweep_transparent demoEnv "s1:hi:en:0:0" answeredWorld
           (Server.sweep demoEnv answeredWorld).2).
  - vm_compute. reflexivity.
  - vm_compute. reflexivity.
  - vm_compute. reflexivity.
  - vm_compute. reflexivity.
  - vm_compute. discriminate.
Defined.

(** X21: The background continuation never fails and never touches the
    chat histories or the entries of the response cache: it ends with
    the same histories, the same cache map and the same payload objects
    in existence, whatever the message processor, the store, the
    analytics API and Pusher do. *)
Theorem runContinuation_settles env k w :
  exists w',
    Server.runContinuation env k w = (Returns tt, w')
    /\ sessions (server w') = sessions (server w)
    /\ responseCache (server w') = responseCache (server w)
    /\ forall r, is_Some (heap (server w') !! r)
                 <-> is_Some (heap (server w) !! r).
Proof.
  unfold Server.runContinuation.
  assert (returns (fun w' => server w' = server w)
            (Server.broadcastConversation env (Server.k_userMessage k)
               (Server.k_response k) (Server.k_language k) (Server.k_topic k)
               (Some (Server.k_sessionId k)) "active") (fun _ => True)) as H.
  { apply returns_broadcastConversation. intros ?? -> ->. reflexivity. }
  destruct (H w eq_refl) as (result & w' & Hrun & Hserver & _).
  unfold tryCatch. rewrite (run_returned _ _ _ _ _ Hrun).
  destruct (Server.k_cached k) as [cached|];
    [destruct (JS.truthyOpt (Server.b_postgresqlId result))|].
  - eexists. split; [reflexivity|]. cbn. rewrite Hserver.
    repeat split; try apply lookup_alter_is_Some.
  - eexists. split; [reflexivity|]. by rewrite Hserver.
  - eexists. split; [reflexivity|]. by rewrite Hserver.
Qed.



Section HistoryInvariant.
Variable env : Env.

Lemma boundedHistories_sessions w w' :
  sessions (server w') = sessions (server w) ->
  boundedHistories w -> boundedHistories w'.
Proof. intros H Hw sid l. rewrite H. apply Hw. Qed.

Lemma boundedHistories_cursors f w :
  boundedHistories w -> boundedHistories (withCursors f w).
Proof. by apply boundedHistories_sessions. Qed.

#[local] Hint Resolve boundedHistories_cursors : logic.






End HistoryInvariant.



Lemma readRequest_returns env req w :
  exists parsed w',
    Server.readRequest env req w = (Returns parsed, w') /\ sameStores w w'.
Proof.
  unfold Server.readRequest, Server.orNewSession.
  destruct (Server.q_messages req).
  - destruct (JS.truthyOpt _); run; eexists _, _;
      (split; [reflexivity|by repeat split]).
  - destruct (JS.truthyOpt _); run; eexists _, _;
      (split; [reflexivity|by repeat split]).
Qed.

Lemma cacheGet_sameStores env cacheKey w :
  sameStores w (Server.cacheGet env cacheKey w).2.
Proof.
  unfold Server.cacheGet, Server.readObject. run.
  destruct (responseCache (server w) !! cacheKey) as [entry|];
    [|by repeat split].
  run. destruct (_ <? _)%Z; [|by repeat split].
  run. cbn. destruct (heap (server w) !! ce_response entry);
    by repeat split.
Qed.

Lemma answer_cases env req userMessage sessionId cacheKey cached w :
  match Server.answer env req userMessage sessionId cacheKey cached w with
  | (Returns (reply, k), w') => Server.status reply = 200%nat
  | (Throws _, w') => sameCache w w'
  end.
Proof.
  unfold Server.answer. cbv zeta.
  destruct (getOrCreateSession_frame env (Some sessionId) w w
              (sessionFrame_refl w))
    as (s & w1 & Hrun & (_ & _ & _ & _ & _ & Hserver) & _).
  rewrite (run_returned _ _ _ _ _ Hrun). run. rewrite Hserver.
  set (known := sessions (server w) !! sessionId).
  assert (exists history w2,
    match known with
    | Some turns => ret turns
    | None => let* _createdAt := Runtime.dateNow env in ret []
    end w1 = (Returns history, w2) /\ server w2 = server w)
    as (history & w2 & Hhistory & Hserver2).
  { destruct known; run; eexists _, _; (split; [reflexivity|done]). }
  rewrite (run_returned _ _ _ _ _ Hhistory). run.
  destruct (0 <? Server.count (Server.q_files req))%nat.
  - unfold bind at 1, Server.processFiles.
    destruct (processFilesReply env _);
      [|unfold sameCache; cbn; rewrite Hserver2; by split].
    run. unfold bind at 1, Server.createCompletion.
    destruct (completion env _); [|unfold sameCache; cbn; rewrite Hserver2; by split].
    run. unfold bind at 1, Server.newObject.
    unfold Server.cachePut. run. unfold Server.readObject. run.
    cbn. rewrite lookup_insert_eq. run. done.
  - run. unfold bind at 1, Server.createCompletion.
    destruct (completion env _); [|unfold sameCache; cbn; rewrite Hserver2; by split].
    run. unfold bind at 1, Server.newObject.
    unfold Server.cachePut. run. unfold Server.readObject. run.
    cbn. rewrite lookup_insert_eq. run. done.
Qed.

(** The handler of [/chat] always replies, with status 200, 400 or 500;
    a reply other than 200 schedules no background work and leaves the
    response cache and its payloads as they were. *)
Lemma chat_status_cases env req w :
  exists reply k w',
    Server.chat env req w = (Returns (reply, k), w')
    /\ (Server.status reply = 200%nat
        \/ ((Server.status reply = 400%nat \/ Server.status reply = 500%nat)
            /\ k = None /\ sameCache w w')).
Proof.
  unfold Server.chat. run.
  destruct (readRequest_returns env req (withCursors Runtime.tickTime w))
    as ([userMessage sessionId] & w1 & Hread & (_ & _ & _ & Hserver1)).
  unfold tryCatch. rewrite (run_returned _ _ _ _ _ Hread). cbv zeta.
  cbn [fst snd]. cbn in Hserver1.
  destruct (_ && _).
  { run. eexists _, _, _. split; [reflexivity|]. right.
    split; [by left|]. split; [done|]. unfold sameCache. by split; rewrite Hserver1. }
  set (cacheKey := Server.cacheKeyOf env req userMessage sessionId).
  pose proof (cacheGet_sameStores env cacheKey w1) as (_ & _ & _ & Hserver2).
  unfold bind at 1.
  destruct (Server.cacheGet env cacheKey w1) as [[[payload|cached]|e] w2];
    cbn in Hserver2.
  - eexists _, _, _. split; [reflexivity|]. by left.
  - pose proof (answer_cases env req userMessage sessionId cacheKey cached w2)
      as Hanswer.
    destruct (Server.answer env req userMessage sessionId cacheKey cached w2)
      as [[[reply k]|e] w3].
    + eexists _, _, _. split; [reflexivity|]. by left.
    + run. eexists _, _, _. split; [reflexivity|]. right.
      split; [by right|]. split; [done|].
      destruct Hanswer as [H1 H2]. unfold sameCache. split; cbn; congruence.
  - run. eexists _, _, _. split; [reflexivity|]. right.
    split; [by right|]. split; [done|]. unfold sameCache.
    split; cbn; congruence.
Qed.

Lemma verifyApiKey_true API_KEY apiKey :
  Server.verifyApiKey API_KEY apiKey = true
  <-> apiKey = Some API_KEY /\ API_KEY <> "".
Proof.
  unfold Server.verifyApiKey, DataModels.isStr.
  destruct apiKey as [key|]; cbn; [|split; [done|by intros [? _]]].
  destruct (String.eqb key API_KEY) eqn:Hkey.
  - apply String.eqb_eq in Hkey as ->.
    destruct API_KEY; cbn; split; try done; by intros [_ ?].
  - apply String.eqb_neq in Hkey. rewrite orb_true_r. cbn.
    split; [done|]. intros [[= ->] _]. done.
Qed.

(** X23: The route [POST /chat], the API-key check followed by the
    handler, answers every request that reaches it, with status 200,
    400, 401 or 500.  The status is 401 exactly when the [x-api-key]
    header is missing, empty or not the API key, and then the handler
    does not run: nothing at all is read or changed.  A reply other than
    200 schedules no background work and leaves the response cache and
    its payloads as they were: nothing is cached for a request that was
    turned away or that failed. *)
Theorem postChat_replies env API_KEY apiKey req w :
  exists reply k w',
    Server.postChat env API_KEY apiKey req w = (Returns (reply, k), w')
    /\ (Server.status reply = 401%nat
        <-> ~ (apiKey = Some API_KEY /\ API_KEY <> ""))
    /\ (Server.status reply = 401%nat -> w' = w)
    /\ (Server.status reply = 200%nat
        \/ ((Server.status reply = 400%nat \/ Server.status reply = 401%nat
             \/ Server.status reply = 500%nat)
            /\ k = None /\ sameCache w w')).
Proof.
  unfold Server.postChat.
  pose proof (verifyApiKey_true API_KEY apiKey) as Hkey.
  destruct (Server.verifyApiKey API_KEY apiKey).
  - destruct (chat_status_cases env req w)
      as (reply & k & w' & Hrun & Hstatus).
    exists reply, k, w'. split; [exact Hrun|].
    assert (apiKey = Some API_KEY /\ API_KEY <> "") as Haccepted
      by by apply Hkey.
    assert (Server.status reply <> 401%nat) as Hnot
      by (destruct Hstatus as [->|[[->| ->] _]]; done).
    split; [split; [done|intros Hno; by destruct Hno]|].
    split; [done|].
    destruct Hstatus as [H200|[[H400|H500] Hrest]];
      [by left|right; split; [by left|done]
      |right; split; [by right; right|done]].
  - eexists _, None, w. split; [reflexivity|]. cbn.
    split; [split; [intros _ Hyes; apply Hkey in Hyes; done|done]|].
    split; [done|]. right. split; [by right; left|]. by split.
Qed.

(** ** messageProcessor.js: message feedback *)

Lemma submitMessageFeedback_cases env store messageId isPositive comment
    w :
  exists r store' w',
    Feedback.submitMessageFeedback env store messageId isPositive comment w
      = (Returns (r, store'), w')
    /\ sameStores w w'
    /\ (((exists e, r = Feedback.SubmitFailed e) /\ store' = store)
        \/ exists remote timestamp,
             r = Feedback.Submitted messageId remote
             /\ store'
                = mkFeedbackStore
                    (message_feedback store
                       ++ [mkFeedbackDoc messageId remote isPositive comment
                                         timestamp])
                    (feedbackPosts store
                       ++ [mkFeedbackPost (JS.orElse remote messageId)
                                          isPositive comment])).
Proof.
  unfold Feedback.submitMessageFeedback, tryCatch.
  unfold bind at 1, Runtime.connectToDatabase.
  destruct (connectReply env _); cbn [Runtime.collection];
    [|eexists _, _, _; split; [reflexivity|]; split; [by repeat split|];
      left; eauto..].
  run. unfold bind at 1, Runtime.dbOp.
  destruct (dbFails env _);
    [eexists _, _, _; split; [reflexivity|]; split; [by repeat split|];
     left; eauto|].
  run. unfold bind at 1, Runtime.dbOp.
  destruct (dbFails env _);
    [eexists _, _, _; split; [reflexivity|]; split; [by repeat split|];
     left; eauto|].
  run. unfold bind at 1, Feedback.postFeedback.
  destruct (fetchReply env _); cbn;
    (eexists _, _, _; split; [reflexivity|]; split; [by repeat split|];
     right; by eexists _, _).
Qed.

(** X24: [submitMessageFeedback] never throws, and succeeds exactly
    when the feedback was stored: on success the collection gained one
    document for the message, carrying the remote ID its mapping gives,
    and one request went to the analytics API, whose failure changes
    nothing; on failure the collection is as it was and no request was
    made.  The other stores are never written. *)
Theorem submitMessageFeedback_outcome env store messageId isPositive comment
    w :
  exists r store' w',
    Feedback.submitMessageFeedback env store messageId isPositive comment w
      = (Returns (r, store'), w')
    /\ sameStores w w'
    /\ submitOutcome messageId isPositive comment r store store'.
Proof.
  destruct (submitMessageFeedback_cases env store messageId isPositive
              comment w)
    as (r & store' & w' & Hrun & Hsame & Hcases).
  exists r, store', w'. split; [exact Hrun|]. split; [exact Hsame|].
  destruct Hcases as [[(e & ->) ->]|(remote & timestamp & -> & ->)].
  - reflexivity.
  - cbn. split; [reflexivity|]. split; [|reflexivity].
    by exists timestamp.
Qed.

Lemma find_local_after content r before after a b :
  recorded r ->
  match r with
  | MessageProcessor.MappingFailed _ => True
  | MessageProcessor.MappingUpdated a' b' => a' = a /\ b' = b
  | MessageProcessor.MappingCreated a' b' _ => a' = a /\ b' = b
  end ->
  mappingOutcome content r before after ->
  exists d,
    find (fun d => String.eqb (mongodbId d) a) after = Some d
    /\ postgresqlId d = b.
Proof.
  assert (forall docs : list MappingDoc,
            (forall d, d ∈ docs -> matches a b d = false) ->
            find (fun d => String.eqb (mongodbId d) a) docs = None) as Hnone.
  { induction docs as [|d docs IH]; intros Hdocs; [done|]. cbn.
    assert (matches a b d = false) as Hd by (apply Hdocs; by left).
    unfold matches in Hd. apply orb_false_iff in Hd as [-> _].
    apply IH. intros d' Hd'. apply Hdocs. by right. }
  assert (forall (pre post : list MappingDoc) d,
            (forall d', d' ∈ pre -> matches a b d' = false) ->
            mongodbId d = a ->
            find (fun d => String.eqb (mongodbId d) a) (pre ++ d :: post)
            = Some d) as Hfirst.
  { induction pre as [|d' pre IH]; intros post d Hpre Hd; cbn.
    - by rewrite Hd, String.eqb_refl.
    - assert (matches a b d' = false) as Hd' by (apply Hpre; by left).
      unfold matches in Hd'. apply orb_false_iff in Hd' as [-> _].
      apply IH; [|done]. intros d0 Hd0. apply Hpre. by right. }
  destruct r as [a' b'|a' b' i|e]; cbn; [| |done].
  - intros _ [-> ->] (i & d & now & Hfind & ->).
    apply findMappingFrom_Some in Hfind
      as (pre & post & -> & -> & Hd & Hpre).
    rewrite alter_app_r_alt by (cbn; lia).
    replace (0 + length pre - length pre)%nat with 0%nat by lia. cbn.
    eexists. split; [by apply Hfirst|done].
  - intros _ [-> ->] (_ & Hbefore & d & -> & Ha & Hb).
    exists d. split; [|done].
    rewrite <- (app_nil_r [d]). cbn. by apply Hfirst.
Qed.

Lemma submitMessageFeedback_reachable env store messageId isPositive comment
    w :
  reachable env w ->
  exists w',
    let remote :=
      JS.orOpt
        (postgresqlId
           <$> find (fun d => String.eqb (mongodbId d) messageId)
                    (message_id_mappings (mongo w))) None in
    Feedback.submitMessageFeedback env store messageId isPositive comment w
    = (Returns
         (Feedback.Submitted messageId remote,
          mkFeedbackStore
            (message_feedback store
               ++ [mkFeedbackDoc messageId remote isPositive comment
                     (clock env (nTime (cursors w)))])
            (feedbackPosts store
               ++ [mkFeedbackPost (JS.orElse remote messageId) isPositive
                                  comment])), w').
Proof.
  intros [Hconn Hop]. cbv zeta.
  unfold Feedback.submitMessageFeedback, tryCatch.
  unfold bind at 1, Runtime.connectToDatabase. rewrite Hconn.
  cbn [Runtime.collection]. run.
  unfold bind at 1, Runtime.dbOp. rewrite Hop. run.
  unfold bind at 1, Runtime.dbOp. rewrite Hop. run.
  unfold bind at 1, Feedback.postFeedback.
  destruct (fetchReply env _); cbn; by eexists.
Qed.

(** X25: Feedback on a local message ID is attributed to the remote ID
    recorded for it: after [createMessageIdMapping] recorded the pair
    (local, remote), [submitMessageFeedback] for the local ID stores the
    feedback with that remote ID and forwards it to the analytics API
    under the remote ID, whatever other mappings the store holds. *)
Theorem submitMessageFeedback_follows_mapping env localId remoteId content w
    r w1 store isPositive comment w2 :
  localId <> "" -> remoteId <> "" ->
  MessageProcessor.createMessageIdMapping env (Some localId) (Some remoteId)
    content w = (Returns r, w1) ->
  recorded r ->
  mongo w2 = mongo w1 ->
  reachable env w2 ->
  exists store' w3,
    Feedback.submitMessageFeedback env store localId isPositive comment w2
      = (Returns (Feedback.Submitted localId (Some remoteId), store'), w3)
    /\ last (message_feedback store')
       = Some (mkFeedbackDoc localId (Some remoteId) isPositive comment
                 (clock env (nTime (cursors w2))))
    /\ last (feedbackPosts store')
       = Some (mkFeedbackPost remoteId isPositive comment).
Proof.
  intros Hlocal%truthy_nonempty Hremote%truthy_nonempty Hcreate Hrecorded
    Hmongo Hreach.
  destruct (createMessageIdMapping_cases env (Some localId) (Some remoteId)
              content w)
    as (a & b & r' & w1' & Hrun & Ha & Hb & Hids & _ & Houtcome).
  rewrite Hcreate in Hrun. injection Hrun as <- <-.
  cbn [JS.truthyOpt JS.orElse] in Ha, Hb. rewrite Hlocal in Ha.
  rewrite Hremote in Hb. specialize (Ha eq_refl). specialize (Hb eq_refl).
  subst a b.
  destruct (find_local_after _ _ _ _ _ _ Hrecorded Hids Houtcome)
    as (d & Hfind & Hd).
  destruct (submitMessageFeedback_reachable env store localId isPositive
              comment w2 Hreach) as (w3 & Hsubmit).
  cbv zeta in Hsubmit. rewrite Hmongo, Hfind in Hsubmit.
  cbn [fmap option_fmap option_map] in Hsubmit. rewrite Hd in Hsubmit.
  assert (JS.orOpt (Some remoteId) None = Some remoteId) as Hor
    by (unfold JS.orOpt; cbn; by rewrite Hremote).
  rewrite Hor in Hsubmit. cbn [JS.orElse] in Hsubmit.
  rewrite Hremote in Hsubmit.
  eexists _, w3. split; [exact Hsubmit|]. cbn. by rewrite !last_snoc.
Qed.

Lemma submitMessageFeedback_follows_mapping_witness :
  exists store' w3,
    Feedback.submitMessageFeedback demoEnv emptyFeedback "msg-7" true None
      (MessageProcessor.createMessageIdMapping demoEnv (Some "msg-7")
         (Some "pg-42") None emptyWorld).2
    = (Returns (Feedback.Submitted "msg-7" (Some "pg-42"), store'), w3)
    /\ last (feedbackPosts store')
       = Some (mkFeedbackPost "pg-42" true None).
Proof.
  destruct (submitMessageFeedback_follows_mapping demoEnv "msg-7" "pg-42" None
              emptyWorld (MessageProcessor.MappingCreated "msg-7" "pg-42" 0)
              (MessageProcessor.createMessageIdMapping demoEnv (Some "msg-7")
                 (Some "pg-42") None emptyWorld).2
              emptyFeedback true None
              (MessageProcessor.createMessageIdMapping demoEnv (Some "msg-7")
                 (Some "pg-42") None emptyWorld).2)
    as (store' & w3 & Hrun & _ & Hpost).
  - discriminate.
  - discriminate.
  - vm_compute. reflexivity.
  - exact Logic.I.
  - reflexivity.
  - split; [vm_compute; reflexivity|intros n; reflexivity].
  - by exists store', w3.
Defined.

Lemma getMessageFeedback_local env api store messageId w d :
  reachable env w ->
  Feedback.findFeedback messageId (remoteIdOf messageId w)
    (message_feedback store) = Some d ->
  exists w',
    Feedback.getMessageFeedback env api store messageId w
      = (Returns (Some (viewOf d)), w')
    /\ nFetch (cursors w') = nFetch (cursors w).
Proof.
  intros [Hconn Hop] Hfind.
  unfold Feedback.getMessageFeedback, MessageProcessor.lookupMapping, tryCatch.
  run. unfold bind at 1, Runtime.connectToDatabase. rewrite Hconn.
  cbn [Runtime.collection]. run.
  unfold bind at 1, Runtime.dbOp. rewrite Hop. run.
  unfold bind at 1, Runtime.dbOp. rewrite Hop.
  cbn [snd withCursors mongo]. fold (remoteIdOf messageId w).
  rewrite Hfind. by eexists.
Qed.

(** X26: Feedback is first come, first served: once a document for the
    message is stored, [getMessageFeedback] answers with it, without
    asking the analytics API, and no later [submitMessageFeedback], for
    this message or another, changes that answer. *)
Theorem getMessageFeedback_first_wins env api store messageId d other
    isPositive comment w0 r store' w1 w :
  Feedback.submitMessageFeedback env store other isPositive comment w0
    = (Returns (r, store'), w1) ->
  reachable env w ->
  Feedback.findFeedback messageId (remoteIdOf messageId w)
    (message_feedback store) = Some d ->
  exists w',
    Feedback.getMessageFeedback env api store' messageId w
      = (Returns (Some (viewOf d)), w')
    /\ nFetch (cursors w') = nFetch (cursors w).
Proof.
  intros Hsubmit Hreach Hfind.
  apply getMessageFeedback_local; [done|].
  destruct (submitMessageFeedback_cases env store other isPositive comment w0)
    as (r' & store2 & w2 & Hrun & _ & Houtcome).
  rewrite Hsubmit in Hrun. injection Hrun as <- <- <-.
  destruct Houtcome as [[_ ->]|(remote & t & _ & ->)]; [done|].
  by apply find_app_Some.
Qed.

Lemma getMessageFeedback_first_wins_witness :
  exists w',
    Feedback.getMessageFeedback demoEnv silentApi ratedTwice "msg-7"
      emptyWorld
    = (Returns (Some (Feedback.mkFeedbackView false (Feedback.DateStamp 5)
                        (Some "wrong"))), w').
Proof.
  destruct (getMessageFeedback_first_wins demoEnv silentApi ratedFeedback
              "msg-7"
              (mkFeedbackDoc "msg-7" None false (Some "wrong") 5)
              "msg-7" true None emptyWorld
              (Feedback.Submitted "msg-7" None) ratedTwice
              (Feedback.submitMessageFeedback demoEnv ratedFeedback "msg-7"
                 true None emptyWorld).2
              emptyWorld) as (w' & Hrun & _).
  - vm_compute. reflexivity.
  - split; [vm_compute; reflexivity|intros n; reflexivity].
  - vm_compute. reflexivity.
  - by exists w'.
Defined.

(** X27: Submitting, then asking.  When no feedback is stored for a
    message, under its local ID or under the remote ID it maps to, the
    feedback that [submitMessageFeedback] stores for it is what
    [getMessageFeedback] answers afterwards: the same rating and the
    same comment. *)
Theorem submitMessageFeedback_then_get env api store messageId isPositive
    comment w id remote store' w1 w2 :
  Feedback.submitMessageFeedback env store messageId isPositive comment w
    = (Returns (Feedback.Submitted id remote, store'), w1) ->
  reachable env w2 ->
  unrated messageId (remoteIdOf messageId w2) store ->
  exists timestamp w3,
    Feedback.getMessageFeedback env api store' messageId w2
    = (Returns (Some (Feedback.mkFeedbackView isPositive
                        (Feedback.DateStamp timestamp) comment)), w3).
Proof.
  intros Hsubmit Hreach Hnew.
  destruct (submitMessageFeedback_cases env store messageId isPositive
              comment w)
    as (r' & store2 & w' & Hrun & _ & Houtcome).
  rewrite Hsubmit in Hrun. injection Hrun as <- <- <-.
  destruct Houtcome as [[(e & He) _]|(remote' & t & _ & Hstored)];
    [discriminate He|].
  destruct (getMessageFeedback_local env api store' messageId w2
              (mkFeedbackDoc messageId remote' isPositive comment t) Hreach)
    as (w3 & Hget & _).
  - rewrite Hstored. cbn [message_feedback].
    unfold unrated, Feedback.findFeedback in *.
    revert Hnew. generalize (message_feedback store).
    induction l as [|d l IH]; cbn.
    + by rewrite String.eqb_refl.
    + destruct (_ || _); [done|exact IH].
  - by exists t, w3.
Qed.

Lemma submitMessageFeedback_then_get_witness :
  exists timestamp w3,
    Feedback.getMessageFeedback demoEnv silentApi ratedOnce "msg-7"
      emptyWorld
    = (Returns (Some (Feedback.mkFeedbackView true
                        (Feedback.DateStamp timestamp) None)), w3).
Proof.
  apply (submitMessageFeedback_then_get demoEnv silentApi emptyFeedback
           "msg-7" true None emptyWorld "msg-7" None ratedOnce
           (Feedback.submitMessageFeedback demoEnv emptyFeedback "msg-7" true
              None emptyWorld).2 emptyWorld).
  - vm_compute. reflexivity.
  - split; [vm_compute; reflexivity|intros n; reflexivity].
  - reflexivity.
Defined.

(** ** database.js: echo detection and dual credentials *)

Lemma storeRecentMessage_cases env recent chatId messageText w :
  exists stored recent' w',
    Database.storeRecentMessage env recent chatId messageText w
      = (Returns (stored, recent'), w')
    /\ if stored
       then exists index,
              recent'
              = mkRecent
                  (recent_messages recent
                     ++ [mkRecentMessage chatId messageText
                           (clock env (nTime (cursors w)))
                           (clock env (S (nTime (cursors w))) + 60000)])
                  index
       else recent' = recent.
Proof.
  unfold Database.storeRecentMessage, tryCatch.
  unfold bind at 1, Runtime.connectToDatabase.
  destruct (connectReply env _); cbn [Runtime.collection];
    [|by eexists _, _, _..].
  run. unfold bind at 1, Runtime.dbOp.
  destruct (dbFails env _); [by eexists _, _, _|].
  unfold bind at 1. unfold bind at 1, Runtime.dbOp.
  destruct (dbFails env _); [run; eexists true, _, _; split; eauto|].
  destruct (ttlIndex recent); [run; eexists true, _, _; split; eauto|].
  unfold bind at 1, Runtime.dbOp.
  destruct (dbFails env _); run; eexists true, _, _; split; eauto.
Qed.

(** X28: The 30-second echo window lies inside the one-minute lifetime
    of a stored message.  A message that [storeRecentMessage] stored is
    reported as a duplicate by every [checkForDuplicateMessage] for the
    same chat and text made within 30 seconds while the store answers,
    also when MongoDB's TTL monitor has run in between: the monitor
    removes no message that is still inside the window. *)
Theorem checkForDuplicateMessage_window env recent chatId messageText w
    recent' w1 purged w2 :
  Database.storeRecentMessage env recent chatId messageText w
    = (Returns (true, recent'), w1) ->
  clock env (nTime (cursors w)) <= clock env (S (nTime (cursors w))) ->
  reachable env w2 ->
  purged <= clock env (nTime (cursors w2)) ->
  clock env (nTime (cursors w2)) - 30000 <= clock env (nTime (cursors w)) ->
  exists w3,
    Database.checkForDuplicateMessage env (expire purged recent') chatId
      messageText w2 = (Returns true, w3).
Proof.
  intros Hstore Hclock [Hconn Hop] Hpurged Hwindow.
  destruct (storeRecentMessage_cases env recent chatId messageText w)
    as (stored & r & w' & Hrun & Hcases).
  rewrite Hstore in Hrun. injection Hrun as <- <- <-.
  destruct Hcases as (index & ->).
  set (new := mkRecentMessage chatId messageText
                (clock env (nTime (cursors w)))
                (clock env (S (nTime (cursors w))) + 60000)).
  assert (new ∈ recent_messages
            (expire purged (mkRecent (recent_messages recent ++ [new]) index)))
    as Hin.
  { unfold expire. destruct index; cbn.
    - apply list_elem_of_filter. split; [cbn; lia|].
      apply elem_of_app. right. by apply list_elem_of_singleton.
    - apply elem_of_app. right. by apply list_elem_of_singleton. }
  unfold Database.checkForDuplicateMessage, tryCatch.
  unfold bind at 1, Runtime.connectToDatabase. rewrite Hconn.
  cbn [Runtime.collection]. run.
  unfold bind at 1, Runtime.dbOp. rewrite Hop.
  destruct (find _ _) as [d|] eqn:Hfind; [by eexists|].
  exfalso. apply list_elem_of_In in Hin.
  pose proof (find_none _ _ Hfind new Hin) as Hnew.
  unfold Database.matchesRecent in Hnew. cbn in Hnew.
  rewrite !String.eqb_refl in Hnew. cbn in Hnew.
  apply Z.leb_gt in Hnew. lia.
Qed.

Lemma checkForDuplicateMessage_window_witness :
  exists w3,
    Database.checkForDuplicateMessage demoEnv
      (expire 1700000000002
         (mkRecent [mkRecentMessage "chat-1" "hi" 1700000000000
                                    1700000060001] true))
      "chat-1" "hi"
      (Database.storeRecentMessage demoEnv emptyRecent "chat-1" "hi"
         emptyWorld).2
    = (Returns true, w3).
Proof.
  apply (checkForDuplicateMessage_window demoEnv emptyRecent "chat-1" "hi"
           emptyWorld
           (mkRecent [mkRecentMessage "chat-1" "hi" 1700000000000
                                      1700000060001] true)
           (Database.storeRecentMessage demoEnv emptyRecent "chat-1" "hi"
              emptyWorld).2).
  - vm_compute. reflexivity.
  - vm_compute. discriminate.
  - split; [vm_compute; reflexivity|intros n; reflexivity].
  - vm_compute. discriminate.
  - vm_compute. discriminate.
Defined.

Lemma find_upsertCredentials doc docs :
  find (fun d => String.eqb (dc_chatId d) (dc_chatId doc))
       (Database.upsertCredentials doc docs) = Some doc.
Proof.
  induction docs as [|d docs IH]; cbn.
  - by rewrite String.eqb_refl.
  - destruct (String.eqb (dc_chatId d) (dc_chatId doc)) eqn:Hd; cbn.
    + by rewrite String.eqb_refl.
    + by rewrite Hd.
Qed.

Lemma storeDualCredentials_cases env agent vault chatId sessionId
    customerToken entityId w :
  exists stored vault' w',
    Database.storeDualCredentials env agent vault chatId sessionId
      customerToken entityId w = (Returns (stored, vault'), w')
    /\ if stored
       then vault'
            = mkVault
                (Database.upsertCredentials
                   (mkCredentialDoc chatId sessionId
                      (mkCredentials customerToken entityId agent
                         (clock env (nTime (cursors w)) + 28800000))
                      (clock env (S (nTime (cursors w)))))
                   (dual_credentials vault))
                (Some (<[chatId := mkCredentials customerToken entityId agent
                           (clock env (S (S (nTime (cursors w))))
                            + 28800000)]>
                         (default ∅ (dualCredentials vault))))
       else vault' = vault.
Proof.
  unfold Database.storeDualCredentials, tryCatch.
  unfold bind at 1, Runtime.connectToDatabase.
  destruct (connectReply env _); cbn [Runtime.collection];
    [|by eexists _, _, _..].
  run. unfold bind at 1, Runtime.dbOp.
  destruct (dbFails env _); [by eexists _, _, _|].
  run. by eexists true, _, _.
Qed.

(** X29: Credentials come back until they expire.  What
    [storeDualCredentials] stored for a chat is what
    [getDualCredentials] returns for it during the next eight hours:
    from memory, without any call on the store; and after a restart,
    when memory is empty, from the store, which fills memory again. *)
Theorem getDualCredentials_roundtrip env agent vault chatId sessionId
    customerToken entityId w vault' w1 w2 :
  Database.storeDualCredentials env agent vault chatId sessionId
    customerToken entityId w = (Returns (true, vault'), w1) ->
  (clock env (nTime (cursors w2))
     < clock env (S (S (nTime (cursors w)))) + 28800000 ->
   exists creds,
     Database.getDualCredentials env vault' chatId w2
       = (Returns (Some creds, vault'), withCursors Runtime.tickTime w2)
     /\ cr_customerToken creds = customerToken
     /\ cr_entityId creds = entityId
     /\ cr_agentCredentials creds = agent)
  /\ (reachable env w2 ->
      clock env (nTime (cursors w2))
        < clock env (nTime (cursors w)) + 28800000 ->
      exists creds memory w3,
        Database.getDualCredentials env (restarted vault') chatId w2
          = (Returns (Some creds,
                      mkVault (dual_credentials vault') (Some memory)), w3)
        /\ memory !! chatId = Some creds
        /\ cr_customerToken creds = customerToken
        /\ cr_entityId creds = entityId
        /\ cr_agentCredentials creds = agent).
Proof.
  intros Hstore.
  destruct (storeDualCredentials_cases env agent vault chatId sessionId
              customerToken entityId w)
    as (stored & v & w' & Hrun & Hcases).
  rewrite Hstore in Hrun. injection Hrun as <- <- <-. subst vault'.
  split.
  - intros Hfresh. unfold Database.getDualCredentials, tryCatch.
    cbn [dualCredentials mbind option_bind]. rewrite lookup_insert_eq.
    run. cbn [cr_expiresAt].
    replace (_ <? _)%Z with true by (symmetry; by apply Z.ltb_lt).
    run. eexists. split; [reflexivity|done].
  - intros [Hconn Hop] Hfresh. unfold Database.getDualCredentials, tryCatch.
    cbn [restarted dualCredentials dual_credentials mbind option_bind]. run.
    unfold bind at 1, Runtime.connectToDatabase. rewrite Hconn.
    cbn [Runtime.collection]. run.
    unfold bind at 1, Runtime.dbOp. rewrite Hop.
    match goal with
    | |- context [Database.upsertCredentials ?doc ?docs] =>
        pose proof (find_upsertCredentials doc docs) as Hfind
    end.
    cbn [dc_chatId] in Hfind. rewrite Hfind. run.
    cbn [dc_credentials cr_expiresAt withCursors cursors Runtime.tickDb nTime].
    replace (_ <? _)%Z with true by (symmetry; by apply Z.ltb_lt).
    eexists _, _, _. split; [reflexivity|].
    split; [apply lookup_insert_eq|done].
Qed.

Lemma getDualCredentials_roundtrip_witness :
  exists creds,
    Database.getDualCredentials demoEnv storedVault "chat-1"
      (Database.storeDualCredentials demoEnv "agent" emptyVault "chat-1" "s1"
         "token" "entity" emptyWorld).2
    = (Returns (Some creds, storedVault),
       withCursors Runtime.tickTime
         (Database.storeDualCredentials demoEnv "agent" emptyVault "chat-1"
            "s1" "token" "entity" emptyWorld).2)
    /\ cr_customerToken creds = "token".
Proof.
  destruct (getDualCredentials_roundtrip demoEnv "agent" emptyVault "chat-1"
              "s1" "token" "entity" emptyWorld storedVault
              (Database.storeDualCredentials demoEnv "agent" emptyVault
                 "chat-1" "s1" "token" "entity" emptyWorld).2
              (Database.storeDualCredentials demoEnv "agent" emptyVault
                 "chat-1" "s1" "token" "entity" emptyWorld).2)
    as [Hmemory _].
  - vm_compute. reflexivity.
  - destruct Hmemory as (creds & Hrun & Htoken & _).
    + vm_compute. reflexivity.
    + by exists creds.
Defined.

(** X30: [getDualCredentials] never hands out expired credentials:
    whatever it returns was still valid at the last reading of the clock
    it made. *)
Theorem getDualCredentials_unexpired env vault chatId w creds vault' w' :
  Database.getDualCredentials env vault chatId w
    = (Returns (Some creds, vault'), w') ->
  clock env (pred (nTime (cursors w'))) < cr_expiresAt creds.
Proof.
  unfold Database.getDualCredentials, tryCatch.
  destruct (dualCredentials vault ≫= _) as [cached|].
  - run. destruct (_ <? _)%Z eqn:Hfresh.
    + run. intros H; cbn in H; simplify_eq. cbn. by apply Z.ltb_lt.
    + run. unfold bind at 1, Runtime.connectToDatabase.
      destruct (connectReply env _); cbn [Runtime.collection];
        [|intros [=]..].
      run. unfold bind at 1, Runtime.dbOp.
      destruct (dbFails env _); [intros [=]|].
      destruct (find _ _) as [doc|]; [|intros [=]].
      run. destruct (_ <? cr_expiresAt (dc_credentials doc))%Z eqn:Hdoc;
        [|intros [=]].
      intros H; cbn in H; simplify_eq. cbn. by apply Z.ltb_lt.
  - run. unfold bind at 1, Runtime.connectToDatabase.
    destruct (connectReply env _); cbn [Runtime.collection];
      [|intros [=]..].
    run. unfold bind at 1, Runtime.dbOp.
    destruct (dbFails env _); [intros [=]|].
    destruct (find _ _) as [doc|]; [|intros [=]].
    run. destruct (_ <? cr_expiresAt (dc_credentials doc))%Z eqn:Hdoc;
        [|intros [=]].
    intros H; cbn in H; simplify_eq. cbn. by apply Z.ltb_lt.
Qed.

Lemma getDualCredentials_unexpired_witness :
  clock demoEnv 3 < 1700028800002.
Proof.
  apply (getDualCredentials_unexpired demoEnv storedVault "chat-1"
           (Database.storeDualCredentials demoEnv "agent" emptyVault "chat-1"
              "s1" "token" "entity" emptyWorld).2
           (mkCredentials "token" "entity" "agent" 1700028800002)
           storedVault
           (withCursors Runtime.tickTime
              (Database.storeDualCredentials demoEnv "agent" emptyVault
                 "chat-1" "s1" "token" "entity" emptyWorld).2)).
  vm_compute. reflexivity.
Defined.
